(** * things-app-mcp: the reschedule engine, its date utilities and the
    Things URL builder

    A shallow embedding of

    - the date utilities [formatDateLocal], [parseDateOnly], [daysBetween]
      and the filtering loop [simulateRescheduleLogic] of the
      reschedule-distant-todos workflow, and
    - the URL builder [buildURL] with the [build*URL] functions of
      [things-url.ts], and
    - of [applescript.ts], the check of the name of a list, the escaping
      of the names and queries put into the scripts, and the text of a
      failed process,

    together with the properties the specification states about them and
    further properties of the code.

    Conventions of the embedding.

    - A JavaScript number is an exact integer or [NaN]: [JSNum] is
      [option Z] with [None] for [NaN].  Rounding of doubles is outside
      the model.
    - A [Date] object has two readings.  In [JSDate] it is its local time
      value, the milliseconds on the wall clock of the host's time zone
      (ECMAScript [LocalTime(t)]), or it is the Invalid Date; the zone
      enters through [getTime] only, which subtracts the offset from UTC in
      force at that local time, and the range of [Date] is left out.  This
      reading is exact for the local times that exist in the zone and lie
      in the range.  In [HostDate] it is its time value, the instant,
      clipped to the range of [Date], and the zone gives the offset of an
      instant and the offset by which a local time is read, as ECMAScript
      has it.  The properties that depend on the range or on local times
      that the clock of the host does not show are stated on the second
      reading.
    - A string is the sequence of its bytes (UTF-8), which coincides with the
      JavaScript code units for the ASCII strings that carry dates. *)

From Stdlib Require Import ZArith Lia Bool List Ascii String.
From Stdlib Require Import DecimalString DecimalN DecimalZ.
From stdpp Require Import gmap strings.
Import ListNotations.
Local Open Scope string_scope.

(* ===================================================================== *)
(** * Definitions                                                         *)
(* ===================================================================== *)

(** ** JavaScript numbers and strings *)

Module JS.

(** A number: [None] is [NaN]. *)
Definition JSNum : Type := option Z.

Definition add (a b : JSNum) : JSNum :=
  match a, b with
  | Some x, Some y => Some (x + y)%Z
  | _, _ => None
  end.

Definition sub (a b : JSNum) : JSNum :=
  match a, b with
  | Some x, Some y => Some (x - y)%Z
  | _, _ => None
  end.

(** [a < b] and [a <= b]: false as soon as one side is [NaN]. *)
Definition ltb (a b : JSNum) : bool :=
  match a, b with
  | Some x, Some y => (x <? y)%Z
  | _, _ => false
  end.

Definition leb (a b : JSNum) : bool :=
  match a, b with
  | Some x, Some y => (x <=? y)%Z
  | _, _ => false
  end.

(** [Number(s)] on the strings a date is split into: the empty string is
    0, a string of decimal digits is its value, and anything else is
    mapped to [NaN] (signs, blanks, fractions, exponents and radix
    prefixes, which [Number] would also read, do not occur in a calendar
    date). *)
Definition Number (s : string) : JSNum :=
  match NilEmpty.uint_of_string s with
  | Some u => Some (Z.of_N (N.of_uint u))
  | None => None
  end.

(** [String(n)] and the template substitution of a number. *)
Definition numToString (n : JSNum) : string :=
  match n with
  | Some z => NilZero.string_of_int (Z.to_int z)
  | None => "NaN"
  end.

(** The first [n] characters of [pad] repeated for ever, [cur] being what
    is left of the copy being read. *)
Fixpoint cycle (n : nat) (cur pad : string) : string :=
  match n with
  | O => ""
  | S k =>
      match cur with
      | String c r => String c (cycle k r pad)
      | EmptyString =>
          match pad with
          | String c r => String c (cycle k r pad)
          | EmptyString => ""
          end
      end
  end.

(** [s.padStart(target, pad)]. *)
Definition padStart (target : nat) (pad : string) (s : string) : string :=
  cycle (target - String.length s) pad pad ++ s.

(** [s.slice(a, b)] for [0 <= a <= b]. *)
Definition slice (a b : nat) (s : string) : string :=
  substring a (b - a) s.

(** [s.split(sep)] for a separator of one character. *)
Fixpoint split (sep : ascii) (s : string) : list string :=
  match s with
  | EmptyString => [""]
  | String c r =>
      if Ascii.eqb c sep then "" :: split sep r
      else
        match split sep r with
        | h :: t => String c h :: t
        | [] => [String c ""]
        end
  end.

(** [xs[i]] read as a number: a missing element is [undefined], which
    arithmetic and the [Date] constructor turn into [NaN]. *)
Definition item (xs : list JSNum) (i : nat) : JSNum :=
  match nth_error xs i with
  | Some v => v
  | None => None
  end.

(** Truthiness of a value that is a string, [null] or [undefined]. *)
Definition truthy (v : option string) : bool :=
  match v with
  | Some s => negb (s =? "")
  | None => false
  end.

(** Whether [sep] does not occur in [s]. *)
Fixpoint lacks (sep : ascii) (s : string) : bool :=
  match s with
  | EmptyString => true
  | String c r => negb (Ascii.eqb c sep) && lacks sep r
  end.

End JS.

(** ** Checks by enumeration *)

Module Enum.
Local Open Scope Z_scope.
(** [P] holds of the [n] integers from [lo] on. *)
Fixpoint allFrom (P : Z -> bool) (lo : Z) (n : nat) : bool :=
  match n with
  | O => true
  | S k => P lo && allFrom P (lo + 1) k
  end.
End Enum.

(** ** Day numbers and calendar fields (ECMAScript, Time Values) *)

Module Calendar.
Local Open Scope Z_scope.

Definition msPerDay : Z := 1000 * 60 * 60 * 24.

Definition Day (t : Z) : Z := t / msPerDay.

Definition TimeWithinDay (t : Z) : Z := t mod msPerDay.

Definition DaysInYear (y : Z) : Z :=
  if negb (y mod 4 =? 0) then 365
  else if negb (y mod 100 =? 0) then 366
  else if negb (y mod 400 =? 0) then 365
  else 366.

(** The day number of the first day of year [y]. *)
Definition DayFromYear (y : Z) : Z :=
  365 * (y - 1970) + (y - 1969) / 4 - (y - 1901) / 100 + (y - 1601) / 400.

(** The year a day falls in: the largest [y] with [DayFromYear y <= n]
    ([YearFromDay_spec]), found among the three candidates around the
    estimate by the mean length of a year. *)
Definition YearFromDay (n : Z) : Z :=
  let y0 := 1970 + (400 * n) / 146097 in
  if DayFromYear (y0 + 1) <=? n then y0 + 1
  else if DayFromYear y0 <=? n then y0
  else y0 - 1.

Definition InLeapYear (y : Z) : Z :=
  if DaysInYear y =? 366 then 1 else 0.

Definition DayWithinYear (n : Z) : Z := n - DayFromYear (YearFromDay n).

(** Month (0 to 11) and day of the month (1 to 31) of day number [n]. *)
Definition MonthFromDay (n : Z) : Z :=
  let d := DayWithinYear n in
  let L := InLeapYear (YearFromDay n) in
  if d <? 31 then 0
  else if d <? 59 + L then 1
  else if d <? 90 + L then 2
  else if d <? 120 + L then 3
  else if d <? 151 + L then 4
  else if d <? 181 + L then 5
  else if d <? 212 + L then 6
  else if d <? 243 + L then 7
  else if d <? 273 + L then 8
  else if d <? 304 + L then 9
  else if d <? 334 + L then 10
  else 11.

Definition DateFromDay (n : Z) : Z :=
  let d := DayWithinYear n in
  let L := InLeapYear (YearFromDay n) in
  match MonthFromDay n with
  | 0 => d + 1
  | 1 => d - 30
  | 2 => d - 58 - L
  | 3 => d - 89 - L
  | 4 => d - 119 - L
  | 5 => d - 150 - L
  | 6 => d - 180 - L
  | 7 => d - 211 - L
  | 8 => d - 242 - L
  | 9 => d - 272 - L
  | 10 => d - 303 - L
  | _ => d - 333 - L
  end.

Definition YearFromTime (t : Z) : Z := YearFromDay (Day t).
Definition MonthFromTime (t : Z) : Z := MonthFromDay (Day t).
Definition DateFromTime (t : Z) : Z := DateFromDay (Day t).

(** Days of year [y] before its month [m] (0 to 11). *)
Definition monthStart (y m : Z) : Z :=
  let L := InLeapYear y in
  match m with
  | 0 => 0
  | 1 => 31
  | 2 => 59 + L
  | 3 => 90 + L
  | 4 => 120 + L
  | 5 => 151 + L
  | 6 => 181 + L
  | 7 => 212 + L
  | 8 => 243 + L
  | 9 => 273 + L
  | 10 => 304 + L
  | _ => 334 + L
  end.

(** [MakeDay(year, month, date)]: months outside 0..11 carry into the
    year, and the day of the month is an offset from the first of the
    month, so that day 0 and negative days reach back into the months
    before. *)
Definition MakeDay (year month date : Z) : Z :=
  let ym := year + month / 12 in
  let mn := month mod 12 in
  DayFromYear ym + monthStart ym mn + date - 1.

Definition MakeDate (day time : Z) : Z := day * msPerDay + time.

(** Number of days of month [m] (1 to 12) of year [y]. *)
Definition DaysInMonth (y m : Z) : Z :=
  match m with
  | 2 => 28 + InLeapYear y
  | 4 | 6 | 9 | 11 => 30
  | _ => 31
  end.

(** [(y, m, d)] names a day of the calendar, [m] counted from 1. *)
Definition validDate (y m d : Z) : Prop :=
  1 <= m <= 12 /\ 1 <= d <= DaysInMonth y m.

End Calendar.

(** ** [Date] objects *)

Module JSDate.
Import JS Calendar.
Local Open Scope Z_scope.

Inductive Date : Type :=
  | InvalidDate
  | DateAt (localTime : Z).

(** [new Date(year, month, day)]: local midnight of that day.  A year
    from 0 to 99 means 1900 + year. *)
Definition newDate (year month day : JSNum) : Date :=
  match year, month, day with
  | Some y, Some m, Some d =>
      let yr := if (0 <=? y) && (y <=? 99) then 1900 + y else y in
      DateAt (MakeDate (MakeDay yr m d) 0)
  | _, _, _ => InvalidDate
  end.

Definition getFullYear (date : Date) : JSNum :=
  match date with
  | DateAt t => Some (YearFromTime t)
  | InvalidDate => None
  end.

Definition getMonth (date : Date) : JSNum :=
  match date with
  | DateAt t => Some (MonthFromTime t)
  | InvalidDate => None
  end.

Definition getDate (date : Date) : JSNum :=
  match date with
  | DateAt t => Some (DateFromTime t)
  | InvalidDate => None
  end.

(** [date.setDate(dt)], returning the updated object: the day of the
    month is replaced and the time within the day is kept. *)
Definition setDate (date : Date) (dt : JSNum) : Date :=
  match date, dt with
  | DateAt t, Some d =>
      DateAt (MakeDate (MakeDay (YearFromTime t) (MonthFromTime t) d)
                       (TimeWithinDay t))
  | _, _ => InvalidDate
  end.

(** The local midnight of day number [n]. *)
Definition midnight (n : Z) : Date := DateAt (MakeDate n 0).

Section Zone.
(** The host's time zone: the offset of local time from UTC, in
    milliseconds, in force at a local time value. *)
Variable LocalTZA : Z -> Z.

(** [date.getTime()]: the instant, in milliseconds of UTC. *)
Definition getTime (date : Date) : JSNum :=
  match date with
  | DateAt t => Some (t - LocalTZA t)
  | InvalidDate => None
  end.
End Zone.

(** A zone with one offset throughout (no daylight saving time). *)
Definition fixedZone (offset : Z) : Z -> Z := fun _ => offset.

Definition utcZone : Z -> Z := fixedZone 0.

(** US Eastern time by its rules for 2026: UTC-5, and UTC-4 from
    2026-03-08 03:00 to 2026-11-01 02:00 local time.  The hour from 02:00
    on 2026-03-08 does not exist on the wall clock; it is read with the
    offset before the transition, as is the repeated hour from 01:00 on
    2026-11-01. *)
Definition usEastern2026 : Z -> Z :=
  fun t =>
    let hour := 3600000 in
    if (MakeDate (MakeDay 2026 2 8) (3 * hour) <=? t)
       && (t <? MakeDate (MakeDay 2026 10 1) (2 * hour))
    then -4 * hour
    else -5 * hour.

(** A zone in which a wall-clock time a day or more later is a later
    instant: between two local times a day or more apart the offset grows
    by less than the time between them. *)
Definition zoneDayIncreasing (LocalTZA : Z -> Z) : Prop :=
  forall a b, a + msPerDay <= b -> a - LocalTZA a < b - LocalTZA b.

End JSDate.

(** ** The date utilities *)

Module DateUtil.
Import JS Calendar JSDate.

(** [formatDateLocal(date)]: the year as it prints, month and day padded
    to two digits. *)
Definition formatDateLocal (date : Date) : string :=
  let y := getFullYear date in
  let m := padStart 2 "0" (numToString (add (getMonth date) (Some 1%Z))) in
  let d := padStart 2 "0" (numToString (getDate date)) in
  numToString y ++ "-" ++ m ++ "-" ++ d.

(** [parseDateOnly(isoString)]: the first ten characters, split at the
    dashes, read as year, month and day of a local date. *)
Definition parseDateOnly (isoString : string) : Date :=
  let datePart := slice 0 10 isoString in
  let parts := map Number (split "-" datePart) in
  let year := item parts 0 in
  let month := item parts 1 in
  let day := item parts 2 in
  newDate year (sub month (Some 1%Z)) day.

Section Zone.
Variable LocalTZA : Z -> Z.

(** [daysBetween(from, to)]: the floor of the difference of the two
    instants in days. *)
Definition daysBetween (from to : Date) : JSNum :=
  let msPerDay := (1000 * 60 * 60 * 24)%Z in
  match sub (getTime LocalTZA to) (getTime LocalTZA from) with
  | Some ms => Some (ms / msPerDay)%Z
  | None => None
  end.
End Zone.

(** The text of day number [n], as [formatDateLocal] prints its
    midnight. *)
Definition formatDay (n : Z) : string := formatDateLocal (midnight n).

(** The zero-padded [YYYY-MM-DD] text of a calendar date. *)
Definition isoDate (y m d : Z) : string :=
  padStart 4 "0" (numToString (Some y)) ++ "-"
  ++ padStart 2 "0" (numToString (Some m)) ++ "-"
  ++ padStart 2 "0" (numToString (Some d)).

(** The texts of a year, a month and a day, checked over their ranges. *)
Definition yearTextOk (y : Z) : bool :=
  let t := padStart 4 "0" (numToString (Some y)) in
  lacks "-" t && (String.length t =? 4)%nat
  && match Number t with Some v => (v =? y)%Z | None => false end.

Definition fieldTextOk (v : Z) : bool :=
  let t := padStart 2 "0" (numToString (Some v)) in
  lacks "-" t && (String.length t =? 2)%nat
  && match Number t with Some w => (w =? v)%Z | None => false end.

End DateUtil.

(** ** The reschedule engine *)

Module Reschedule.
Import JS Calendar JSDate DateUtil.

(** A to-do of the Today list, with the fields the engine reads. *)
Record TodoRecord : Type := {
  todo_id : string;
  todo_name : string;
  status : string;
  dueDate : option string;
  activationDate : option string
}.

(** The [options] argument; an absent field is [undefined]. *)
Record Options : Type := {
  opt_daysThreshold : option Z;
  opt_bufferDays : option Z;
  opt_now : option Date
}.

(** An entry of [rescheduled]. *)
Record Decision : Type := {
  rd_id : string;
  rd_name : string;
  oldWhen : option string;
  newWhen : string;
  rd_dueDate : string;
  daysUntilDue : JSNum
}.

(** The two objects the loop mutates. *)
Record State : Type := {
  rescheduled : list Decision;
  skippedSummary : gmap string nat
}.

Record Result : Type := {
  res_rescheduled : list Decision;
  res_skippedSummary : gmap string nat;
  totalToday : nat
}.

Definition initial : State :=
  {| rescheduled := []; skippedSummary := ∅ |}.

(** [skipWith(reason)]: one more under that label. *)
Definition skipWith (reason : string) (st : State) : State :=
  {| rescheduled := rescheduled st;
     skippedSummary :=
       <[reason := default 0%nat (skippedSummary st !! reason) + 1]>
         (skippedSummary st) |}.

(** [rescheduled.push(d)]. *)
Definition push (d : Decision) (st : State) : State :=
  {| rescheduled := rescheduled st ++ [d];
     skippedSummary := skippedSummary st |}.

(** The five labels. *)
Definition reasonStatus : string := "status is not open".
Definition reasonNoDeadline : string := "no deadline set".
Definition reasonToday : string :=
  "explicitly scheduled for today (activationDate = today)".
Definition reasonThreshold (daysThreshold : Z) : string :=
  "deadline within threshold (< " ++ numToString (Some daysThreshold)
  ++ " days)".
Definition reasonNoMove : string :=
  "computed new date would not move to-do out of Today".

(** Number of items counted under a label. *)
Definition count (reason : string) (m : gmap string nat) : nat :=
  default 0%nat (m !! reason).

(** The sum of all counters. *)
Definition totalSkipped (m : gmap string nat) : nat :=
  map_fold (fun _ n acc => (n + acc)%nat) 0%nat m.

Section Engine.
Variable LocalTZA : Z -> Z.
(** What [new Date()] returns when the engine runs. *)
Variable clock : Date.

Section Body.
Variables daysThreshold bufferDays : Z.
Variable todayMidnight : Date.
Variable todayStr : string.

(** [activationDate] is set and its day prints as today. *)
Definition scheduledToday (todo : TodoRecord) : bool :=
  match activationDate todo with
  | Some a =>
      if truthy (Some a)
      then formatDateLocal (parseDateOnly a) =? todayStr
      else false
  | None => false
  end.

(** The date an eligible to-do moves to. *)
Definition newWhenDate (deadlineDate : Date) : Date :=
  setDate deadlineDate (sub (getDate deadlineDate) (Some bufferDays)).

(** One turn of the loop over [todos]. *)
Definition loopBody (st : State) (todo : TodoRecord) : State :=
  if negb (status todo =? "open") then skipWith reasonStatus st
  else
    match dueDate todo with
    | None => skipWith reasonNoDeadline st
    | Some due =>
        if negb (truthy (Some due)) then skipWith reasonNoDeadline st
        else if scheduledToday todo then skipWith reasonToday st
        else
          let deadlineDate := parseDateOnly due in
          let daysUntilDue :=
            daysBetween LocalTZA todayMidnight deadlineDate in
          if ltb daysUntilDue (Some daysThreshold)
          then skipWith (reasonThreshold daysThreshold) st
          else
            let newWhenDate := newWhenDate deadlineDate in
            if leb (getTime LocalTZA newWhenDate)
                   (getTime LocalTZA todayMidnight)
            then skipWith reasonNoMove st
            else
              let newWhenStr := formatDateLocal newWhenDate in
              let oldWhen :=
                match activationDate todo with
                | Some a =>
                    if truthy (Some a)
                    then Some (formatDateLocal (parseDateOnly a))
                    else None
                | None => None
                end in
              push {| rd_id := todo_id todo;
                      rd_name := todo_name todo;
                      oldWhen := oldWhen;
                      newWhen := newWhenStr;
                      rd_dueDate := slice 0 10 due;
                      daysUntilDue := daysUntilDue |} st
    end.
End Body.

Definition simulateRescheduleLogic
    (todos : list TodoRecord) (options : Options) : Result :=
  let daysThreshold := default 7%Z (opt_daysThreshold options) in
  let bufferDays := default 3%Z (opt_bufferDays options) in
  let now := default clock (opt_now options) in
  let todayMidnight :=
    newDate (getFullYear now) (getMonth now) (getDate now) in
  let todayStr := formatDateLocal todayMidnight in
  let st :=
    fold_left (loopBody daysThreshold bufferDays todayMidnight todayStr)
              todos initial in
  {| res_rescheduled := rescheduled st;
     res_skippedSummary := skippedSummary st;
     totalToday := List.length todos |}.
End Engine.

(** The deadline of a to-do, when it has one, reads as a date. *)
Definition datedWell (todo : TodoRecord) : Prop :=
  forall due, dueDate todo = Some due -> due <> "" ->
              exists n, parseDateOnly due = midnight n.

(** The to-dos of the repository's tests, on 2026-02-28 (day 20512): due
    in 7 days, in 6 days, in 8 days, and without a deadline. *)
Definition exact7 : TodoRecord :=
  {| todo_id := "t-exact7"; todo_name := "Exact 7"; status := "open";
     dueDate := Some "2026-03-07T00:00:00.000Z"; activationDate := None |}.

Definition under7 : TodoRecord :=
  {| todo_id := "t-under7"; todo_name := "Under 7"; status := "open";
     dueDate := Some "2026-03-06T00:00:00.000Z"; activationDate := None |}.

Definition guardTest : TodoRecord :=
  {| todo_id := "t-guard"; todo_name := "Guard test"; status := "open";
     dueDate := Some "2026-03-08T00:00:00.000Z"; activationDate := None |}.

(** Due on 2026-03-10, ten days after 2026-02-28. *)
Definition dueIn10 : TodoRecord :=
  {| todo_id := "t-in10"; todo_name := "In 10 days"; status := "open";
     dueDate := Some "2026-03-10T00:00:00.000Z"; activationDate := None |}.

(** Overdue since 2026-02-20. *)
Definition overdue : TodoRecord :=
  {| todo_id := "t-overdue"; todo_name := "Overdue"; status := "open";
     dueDate := Some "2026-02-20T00:00:00.000Z"; activationDate := None |}.

(** Completed, and without a deadline. *)
Definition doneNoDeadline : TodoRecord :=
  {| todo_id := "t-done"; todo_name := "Done"; status := "completed";
     dueDate := None; activationDate := None |}.


Definition noDeadline (id name : string) (activation : option string)
    : TodoRecord :=
  {| todo_id := id; todo_name := name; status := "open";
     dueDate := None; activationDate := activation |}.

(** The midnight [simulateRescheduleLogic] takes for today. *)
Definition todayOf (clock : Date) (options : Options) : Date :=
  let now := default clock (opt_now options) in
  newDate (getFullYear now) (getMonth now) (getDate now).

End Reschedule.

(** ** The Things URL builder ([things-url.ts]) *)

Module ThingsURL.
Import JS.

Definition THINGS_SCHEME : string := "things:///".

(** *** [encodeURIComponent] *)

Definition inRange (lo hi : nat) (c : ascii) : bool :=
  (lo <=? nat_of_ascii c)%nat && (nat_of_ascii c <=? hi)%nat.

Definition isMark (c : ascii) : bool :=
  existsb (Ascii.eqb c) (list_ascii_of_string "-_.!~*'()").

(** The characters [encodeURIComponent] leaves as they are. *)
Definition isUnreserved (c : ascii) : bool :=
  inRange 65 90 c || inRange 97 122 c || inRange 48 57 c || isMark c.

Definition hexDigit (n : nat) : ascii :=
  nth n (list_ascii_of_string "0123456789ABCDEF") "0"%char.

Definition percentEncode (c : ascii) : string :=
  let n := nat_of_ascii c in
  String "%" (String (hexDigit (n / 16)) (String (hexDigit (n mod 16)) "")).

Fixpoint encodeURIComponent (s : string) : string :=
  match s with
  | EmptyString => ""
  | String c r =>
      (if isUnreserved c then String c "" else percentEncode c)
      ++ encodeURIComponent r
  end.

Definition encodeParam (value : string) : string :=
  encodeURIComponent value.

(** *** [buildURL] *)

(** A value of a parameter that is not [undefined]. *)
Inductive ParamValue : Type :=
  | PString (s : string)
  | PBoolean (b : bool).

(** [Record<string, string | boolean | undefined>]: the properties in
    the order they were first assigned, [None] for [undefined]. *)
Definition Params : Type := list (string * option ParamValue).

(** [obj[key] = value]: an existing property keeps its place. *)
Fixpoint assign (key : string) (value : option ParamValue) (obj : Params)
    : Params :=
  match obj with
  | [] => [(key, value)]
  | (k, v) :: rest =>
      if k =? key then (k, value) :: rest
      else (k, v) :: assign key value rest
  end.

(** [v !== undefined && v !== ""]. *)
Definition kept (entry : string * option ParamValue) : bool :=
  match snd entry with
  | None => false
  | Some (PString s) => negb (s =? "")
  | Some (PBoolean _) => true
  end.

Definition filteredParams (params : Params) : Params :=
  List.filter kept params.

(** The text of the value in [key=value]. *)
Definition valueText (value : option ParamValue) : string :=
  match value with
  | Some (PBoolean b) => if b then "true" else "false"
  | Some (PString s) => encodeParam s
  | None => encodeParam "undefined"
  end.

Definition serialize (entry : string * option ParamValue) : string :=
  fst entry ++ "=" ++ valueText (snd entry).

Definition buildURL (command : string) (params : Params) : string :=
  let filteredParams := filteredParams params in
  if (List.length filteredParams =? 0)%nat
  then THINGS_SCHEME ++ command
  else
    let queryString := String.concat "&" (map serialize filteredParams) in
    THINGS_SCHEME ++ command ++ "?" ++ queryString.

(** [later] is [earlier] with one more property [key], whose value
  [buildURL] drops. *)
Definition extra (key : string) (later earlier : Params) : Prop :=
  exists before value after,
    kept (key, value) = false
    /\ later = (before ++ (key, value) :: after)%list
    /\ earlier = (before ++ after)%list.

(** *** The statements the builders are made of *)

(** [if (v) urlParams[key] = v]. *)
Definition setIfTruthy (key : string) (v : option string) (obj : Params)
    : Params :=
  match v with
  | Some s => if truthy (Some s) then assign key (Some (PString s)) obj
              else obj
  | None => obj
  end.

(** [if (v !== undefined) urlParams[key] = v], for a string. *)
Definition setIfDefined (key : string) (v : option string) (obj : Params)
    : Params :=
  match v with
  | Some s => assign key (Some (PString s)) obj
  | None => obj
  end.

(** [if (v !== undefined) urlParams[key] = v], for a boolean. *)
Definition setFlag (key : string) (v : option bool) (obj : Params)
    : Params :=
  match v with
  | Some b => assign key (Some (PBoolean b)) obj
  | None => obj
  end.

Definition LF : ascii := ascii_of_nat 10.

(** [s.replace(/c/g, by)] for a pattern of one character. *)
Fixpoint replaceAll (c : ascii) (by_ : string) (s : string) : string :=
  match s with
  | EmptyString => ""
  | String a r =>
      (if Ascii.eqb a c then by_ else String a "") ++ replaceAll c by_ r
  end.

(** [if (v) urlParams[key] = v.replace(/\n/g, "\n")]. *)
Definition setLines (key : string) (v : option string) (obj : Params)
    : Params :=
  match v with
  | Some s =>
      if truthy (Some s)
      then assign key (Some (PString (replaceAll LF (String LF "") s))) obj
      else obj
  | None => obj
  end.

(** *** Add To-Do *)

Record AddTodoParams : Type := {
  at_title : option string;
  at_titles : option string;
  at_notes : option string;
  at_when : option string;
  at_deadline : option string;
  at_tags : option string;
  at_checklist_items : option string;
  at_list_id : option string;
  at_list : option string;
  at_heading_id : option string;
  at_heading : option string;
  at_completed : option bool;
  at_canceled : option bool;
  at_show_quick_entry : option bool;
  at_reveal : option bool;
  at_creation_date : option string;
  at_completion_date : option string
}.

Definition addTodoParams (params : AddTodoParams) : Params :=
  let urlParams : Params := [] in
  let urlParams :=
    if truthy (at_titles params)
    then setLines "titles" (at_titles params) urlParams
    else setIfTruthy "title" (at_title params) urlParams in
  let urlParams := setIfTruthy "notes" (at_notes params) urlParams in
  let urlParams := setIfTruthy "when" (at_when params) urlParams in
  let urlParams := setIfTruthy "deadline" (at_deadline params) urlParams in
  let urlParams := setIfTruthy "tags" (at_tags params) urlParams in
  let urlParams :=
    setLines "checklist-items" (at_checklist_items params) urlParams in
  let urlParams := setIfTruthy "list-id" (at_list_id params) urlParams in
  let urlParams := setIfTruthy "list" (at_list params) urlParams in
  let urlParams :=
    setIfTruthy "heading-id" (at_heading_id params) urlParams in
  let urlParams := setIfTruthy "heading" (at_heading params) urlParams in
  let urlParams := setFlag "completed" (at_completed params) urlParams in
  let urlParams := setFlag "canceled" (at_canceled params) urlParams in
  let urlParams :=
    setFlag "show-quick-entry" (at_show_quick_entry params) urlParams in
  let urlParams := setFlag "reveal" (at_reveal params) urlParams in
  let urlParams :=
    setIfTruthy "creation-date" (at_creation_date params) urlParams in
  let urlParams :=
    setIfTruthy "completion-date" (at_completion_date params) urlParams in
  urlParams.

Definition buildAddTodoURL (params : AddTodoParams) : string :=
  buildURL "add" (addTodoParams params).

(** *** Add Project *)

Record AddProjectParams : Type := {
  ap_title : option string;
  ap_notes : option string;
  ap_when : option string;
  ap_deadline : option string;
  ap_tags : option string;
  ap_area_id : option string;
  ap_area : option string;
  ap_to_dos : option string;
  ap_completed : option bool;
  ap_canceled : option bool;
  ap_reveal : option bool;
  ap_creation_date : option string;
  ap_completion_date : option string
}.

Definition addProjectParams (params : AddProjectParams) : Params :=
  let urlParams : Params := [] in
  let urlParams := setIfTruthy "title" (ap_title params) urlParams in
  let urlParams := setIfTruthy "notes" (ap_notes params) urlParams in
  let urlParams := setIfTruthy "when" (ap_when params) urlParams in
  let urlParams := setIfTruthy "deadline" (ap_deadline params) urlParams in
  let urlParams := setIfTruthy "tags" (ap_tags params) urlParams in
  let urlParams := setIfTruthy "area-id" (ap_area_id params) urlParams in
  let urlParams := setIfTruthy "area" (ap_area params) urlParams in
  let urlParams := setLines "to-dos" (ap_to_dos params) urlParams in
  let urlParams := setFlag "completed" (ap_completed params) urlParams in
  let urlParams := setFlag "canceled" (ap_canceled params) urlParams in
  let urlParams := setFlag "reveal" (ap_reveal params) urlParams in
  let urlParams :=
    setIfTruthy "creation-date" (ap_creation_date params) urlParams in
  let urlParams :=
    setIfTruthy "completion-date" (ap_completion_date params) urlParams in
  urlParams.

Definition buildAddProjectURL (params : AddProjectParams) : string :=
  buildURL "add-project" (addProjectParams params).

(** *** Update To-Do *)

Record UpdateTodoParams : Type := {
  ut_auth_token : string;
  ut_id : string;
  ut_title : option string;
  ut_notes : option string;
  ut_prepend_notes : option string;
  ut_append_notes : option string;
  ut_when : option string;
  ut_deadline : option string;
  ut_tags : option string;
  ut_add_tags : option string;
  ut_checklist_items : option string;
  ut_prepend_checklist_items : option string;
  ut_append_checklist_items : option string;
  ut_list_id : option string;
  ut_list : option string;
  ut_heading_id : option string;
  ut_heading : option string;
  ut_completed : option bool;
  ut_canceled : option bool;
  ut_reveal : option bool;
  ut_duplicate : option bool;
  ut_creation_date : option string;
  ut_completion_date : option string
}.

Definition updateTodoParams (params : UpdateTodoParams) : Params :=
  let urlParams : Params := [] in
  let urlParams :=
    assign "auth-token" (Some (PString (ut_auth_token params))) urlParams in
  let urlParams := assign "id" (Some (PString (ut_id params))) urlParams in
  let urlParams := setIfDefined "title" (ut_title params) urlParams in
  let urlParams := setIfDefined "notes" (ut_notes params) urlParams in
  let urlParams :=
    setIfTruthy "prepend-notes" (ut_prepend_notes params) urlParams in
  let urlParams :=
    setIfTruthy "append-notes" (ut_append_notes params) urlParams in
  let urlParams := setIfDefined "when" (ut_when params) urlParams in
  let urlParams := setIfDefined "deadline" (ut_deadline params) urlParams in
  let urlParams := setIfDefined "tags" (ut_tags params) urlParams in
  let urlParams := setIfTruthy "add-tags" (ut_add_tags params) urlParams in
  let urlParams :=
    setLines "checklist-items" (ut_checklist_items params) urlParams in
  let urlParams :=
    setLines "prepend-checklist-items"
             (ut_prepend_checklist_items params) urlParams in
  let urlParams :=
    setLines "append-checklist-items"
             (ut_append_checklist_items params) urlParams in
  let urlParams := setIfTruthy "list-id" (ut_list_id params) urlParams in
  let urlParams := setIfTruthy "list" (ut_list params) urlParams in
  let urlParams :=
    setIfTruthy "heading-id" (ut_heading_id params) urlParams in
  let urlParams := setIfTruthy "heading" (ut_heading params) urlParams in
  let urlParams := setFlag "completed" (ut_completed params) urlParams in
  let urlParams := setFlag "canceled" (ut_canceled params) urlParams in
  let urlParams := setFlag "reveal" (ut_reveal params) urlParams in
  let urlParams := setFlag "duplicate" (ut_duplicate params) urlParams in
  let urlParams :=
    setIfTruthy "creation-date" (ut_creation_date params) urlParams in
  let urlParams :=
    setIfTruthy "completion-date" (ut_completion_date params) urlParams in
  urlParams.

Definition buildUpdateTodoURL (params : UpdateTodoParams) : string :=
  buildURL "update" (updateTodoParams params).

(** The same parameters with other notes, or another deadline. *)
Definition ut_withNotes (notes : option string) (p : UpdateTodoParams)
    : UpdateTodoParams :=
  {| ut_auth_token := ut_auth_token p; ut_id := ut_id p;
     ut_title := ut_title p; ut_notes := notes;
     ut_prepend_notes := ut_prepend_notes p;
     ut_append_notes := ut_append_notes p; ut_when := ut_when p;
     ut_deadline := ut_deadline p; ut_tags := ut_tags p;
     ut_add_tags := ut_add_tags p;
     ut_checklist_items := ut_checklist_items p;
     ut_prepend_checklist_items := ut_prepend_checklist_items p;
     ut_append_checklist_items := ut_append_checklist_items p;
     ut_list_id := ut_list_id p; ut_list := ut_list p;
     ut_heading_id := ut_heading_id p; ut_heading := ut_heading p;
     ut_completed := ut_completed p; ut_canceled := ut_canceled p;
     ut_reveal := ut_reveal p; ut_duplicate := ut_duplicate p;
     ut_creation_date := ut_creation_date p;
     ut_completion_date := ut_completion_date p |}.

Definition ut_withDeadline (deadline : option string) (p : UpdateTodoParams)
    : UpdateTodoParams :=
  {| ut_auth_token := ut_auth_token p; ut_id := ut_id p;
     ut_title := ut_title p; ut_notes := ut_notes p;
     ut_prepend_notes := ut_prepend_notes p;
     ut_append_notes := ut_append_notes p; ut_when := ut_when p;
     ut_deadline := deadline; ut_tags := ut_tags p;
     ut_add_tags := ut_add_tags p;
     ut_checklist_items := ut_checklist_items p;
     ut_prepend_checklist_items := ut_prepend_checklist_items p;
     ut_append_checklist_items := ut_append_checklist_items p;
     ut_list_id := ut_list_id p; ut_list := ut_list p;
     ut_heading_id := ut_heading_id p; ut_heading := ut_heading p;
     ut_completed := ut_completed p; ut_canceled := ut_canceled p;
     ut_reveal := ut_reveal p; ut_duplicate := ut_duplicate p;
     ut_creation_date := ut_creation_date p;
     ut_completion_date := ut_completion_date p |}.

(** An update that gives only the token, the id, notes and a deadline. *)
Definition updateOnly (token id : string) (notes deadline : option string)
    : UpdateTodoParams :=
  {| ut_auth_token := token; ut_id := id;
     ut_title := None; ut_notes := notes;
     ut_prepend_notes := None; ut_append_notes := None; ut_when := None;
     ut_deadline := deadline; ut_tags := None; ut_add_tags := None;
     ut_checklist_items := None; ut_prepend_checklist_items := None;
     ut_append_checklist_items := None;
     ut_list_id := None; ut_list := None;
     ut_heading_id := None; ut_heading := None;
     ut_completed := None; ut_canceled := None;
     ut_reveal := None; ut_duplicate := None;
     ut_creation_date := None; ut_completion_date := None |}.

(** *** Update Project *)

Record UpdateProjectParams : Type := {
  up_auth_token : string;
  up_id : string;
  up_title : option string;
  up_notes : option string;
  up_prepend_notes : option string;
  up_append_notes : option string;
  up_when : option string;
  up_deadline : option string;
  up_tags : option string;
  up_add_tags : option string;
  up_area_id : option string;
  up_area : option string;
  up_completed : option bool;
  up_canceled : option bool;
  up_reveal : option bool;
  up_duplicate : option bool;
  up_creation_date : option string;
  up_completion_date : option string
}.

Definition updateProjectParams (params : UpdateProjectParams) : Params :=
  let urlParams : Params := [] in
  let urlParams :=
    assign "auth-token" (Some (PString (up_auth_token params))) urlParams in
  let urlParams := assign "id" (Some (PString (up_id params))) urlParams in
  let urlParams := setIfDefined "title" (up_title params) urlParams in
  let urlParams := setIfDefined "notes" (up_notes params) urlParams in
  let urlParams :=
    setIfTruthy "prepend-notes" (up_prepend_notes params) urlParams in
  let urlParams :=
    setIfTruthy "append-notes" (up_append_notes params) urlParams in
  let urlParams := setIfDefined "when" (up_when params) urlParams in
  let urlParams := setIfDefined "deadline" (up_deadline params) urlParams in
  let urlParams := setIfDefined "tags" (up_tags params) urlParams in
  let urlParams := setIfTruthy "add-tags" (up_add_tags params) urlParams in
  let urlParams := setIfTruthy "area-id" (up_area_id params) urlParams in
  let urlParams := setIfTruthy "area" (up_area params) urlParams in
  let urlParams := setFlag "completed" (up_completed params) urlParams in
  let urlParams := setFlag "canceled" (up_canceled params) urlParams in
  let urlParams := setFlag "reveal" (up_reveal params) urlParams in
  let urlParams := setFlag "duplicate" (up_duplicate params) urlParams in
  let urlParams :=
    setIfTruthy "creation-date" (up_creation_date params) urlParams in
  let urlParams :=
    setIfTruthy "completion-date" (up_completion_date params) urlParams in
  urlParams.

Definition buildUpdateProjectURL (params : UpdateProjectParams) : string :=
  buildURL "update-project" (updateProjectParams params).

Definition up_withNotes (notes : option string) (p : UpdateProjectParams)
    : UpdateProjectParams :=
  {| up_auth_token := up_auth_token p; up_id := up_id p;
     up_title := up_title p; up_notes := notes;
     up_prepend_notes := up_prepend_notes p;
     up_append_notes := up_append_notes p; up_when := up_when p;
     up_deadline := up_deadline p; up_tags := up_tags p;
     up_add_tags := up_add_tags p;
     up_area_id := up_area_id p; up_area := up_area p;
     up_completed := up_completed p; up_canceled := up_canceled p;
     up_reveal := up_reveal p; up_duplicate := up_duplicate p;
     up_creation_date := up_creation_date p;
     up_completion_date := up_completion_date p |}.

Definition up_withDeadline (deadline : option string)
    (p : UpdateProjectParams) : UpdateProjectParams :=
  {| up_auth_token := up_auth_token p; up_id := up_id p;
     up_title := up_title p; up_notes := up_notes p;
     up_prepend_notes := up_prepend_notes p;
     up_append_notes := up_append_notes p; up_when := up_when p;
     up_deadline := deadline; up_tags := up_tags p;
     up_add_tags := up_add_tags p;
     up_area_id := up_area_id p; up_area := up_area p;
     up_completed := up_completed p; up_canceled := up_canceled p;
     up_reveal := up_reveal p; up_duplicate := up_duplicate p;
     up_creation_date := up_creation_date p;
     up_completion_date := up_completion_date p |}.

(** *** Show, Search, Version *)

Record ShowParams : Type := {
  sh_id : option string;
  sh_query : option string;
  sh_filter : option string
}.

Definition showParams (params : ShowParams) : Params :=
  let urlParams : Params := [] in
  let urlParams := setIfTruthy "id" (sh_id params) urlParams in
  let urlParams := setIfTruthy "query" (sh_query params) urlParams in
  let urlParams := setIfTruthy "filter" (sh_filter params) urlParams in
  urlParams.

Definition buildShowURL (params : ShowParams) : string :=
  buildURL "show" (showParams params).

Record SearchParams : Type := { se_query : option string }.

Definition searchParams (params : SearchParams) : Params :=
  setIfTruthy "query" (se_query params) [].

Definition buildSearchURL (params : SearchParams) : string :=
  buildURL "search" (searchParams params).

Definition buildVersionURL : string := buildURL "version" [].

(** *** JSON *)

(** A JSON value, as [JSON.stringify] prints it. *)
#[warnings="-register-all"]
Inductive Json : Type :=
  | JNull
  | JBool (b : bool)
  | JNumber (n : Z)
  | JString (s : string)
  | JArray (items : list Json)
  | JObject (members : list (string * Json)).

Definition escapeChar (c : ascii) : string :=
  let n := nat_of_ascii c in
  if (n =? 34)%nat then String "\" (String c "")
  else if (n =? 92)%nat then "\\"
  else if (n =? 8)%nat then "\b"
  else if (n =? 9)%nat then "\t"
  else if (n =? 10)%nat then "\n"
  else if (n =? 12)%nat then "\f"
  else if (n =? 13)%nat then "\r"
  else if (n <? 32)%nat
  then "\u00" ++ String (hexDigit (n / 16)) (String (hexDigit (n mod 16)) "")
  else String c "".

Fixpoint escape (s : string) : string :=
  match s with
  | EmptyString => ""
  | String c r => escapeChar c ++ escape r
  end.

Definition quote (s : string) : string :=
  String (ascii_of_nat 34) (escape s ++ String (ascii_of_nat 34) "").

Fixpoint stringify (j : Json) : string :=
  match j with
  | JNull => "null"
  | JBool b => if b then "true" else "false"
  | JNumber n => numToString (Some n)
  | JString s => quote s
  | JArray items => "[" ++ String.concat "," (map stringify items) ++ "]"
  | JObject members =>
      "{" ++ String.concat ","
               (map (fun kv => quote (fst kv) ++ ":" ++ stringify (snd kv))
                    members)
      ++ "}"
  end.

Record JsonParams : Type := {
  js_data : list Json;
  js_auth_token : option string;
  js_reveal : option bool
}.

Definition jsonParams (params : JsonParams) : Params :=
  let urlParams : Params := [] in
  let urlParams :=
    assign "data" (Some (PString (stringify (JArray (js_data params)))))
           urlParams in
  let urlParams :=
    setIfTruthy "auth-token" (js_auth_token params) urlParams in
  let urlParams := setFlag "reveal" (js_reveal params) urlParams in
  urlParams.

Definition buildJsonURL (params : JsonParams) : string :=
  buildURL "json" (jsonParams params).

End ThingsURL.

(** ** The reschedule-distant-todos tool *)

Module RescheduleTool.
Import JS JSDate Reschedule ThingsURL.

(** Modelled from the spec: the arguments of the tool invocation (section 6,
    output contract); the file that registers the tool is not among the
    sources. *)
Record Args : Type := {
  authToken : option string;
  dryRun : option bool;
  daysThreshold : option Z;
  bufferDays : option Z
}.

(** Modelled from the spec: what an invocation does outside itself, in the
    order of the control flow of section 2: the read of the Today list, the
    evaluation by the engine, the write command. *)
Inductive Event : Type :=
| ReadToday
| Evaluate
| WriteCommand (url : string).

(** Modelled from the spec: the structured report of section 6. *)
Record Report : Type := {
  rp_dryRun : bool;
  rp_totalToday : nat;
  rp_rescheduledCount : nat;
  rp_skippedSummary : gmap string nat;
  rp_rescheduled : list Decision
}.

(** Modelled from the spec: a response is a structured failure with its
    text, and the command that was attempted when there is one, or the
    report (section 7). *)
Inductive Response : Type :=
| Failure (text : string) (command : option string)
| Success (report : Report).

(** Modelled from the spec: the resolution of the auth token, whose source
    is missing: the explicit parameter first, the process-wide fallback
    second, and a token must be non-empty (sections 6 and 9). *)
Definition resolveAuthToken (explicit fallback : option string)
    : option string :=
  if truthy explicit then explicit
  else if truthy fallback then fallback
  else None.

(** Modelled from the spec: one entry of the batch write command
    (section 6), an update of the schedule date of one to-do. *)
Definition updateEntry (d : Decision) : Json :=
  JObject [("type", JString "to-do");
           ("operation", JString "update");
           ("id", JString (rd_id d));
           ("attributes", JObject [("when", JString (newWhen d))])].

Section Handler.
(** The process-wide fallback token. *)
Variable fallbackToken : option string.
(** The Todo Source: the text of a failure or the Today list. *)
Variable readToday : string + list TodoRecord.
(** The write surface: the text of a failure, if any. *)
Variable openThingsURL : string -> option string.
Variable LocalTZA : Z -> Z.
Variable clock : Date.

(** Modelled from the spec: the handler of the tool, whose source is
    missing (sections 2, 4.3, 6 and 7): the token is resolved before
    anything else, the Today list is read, the engine evaluates it, and
    unless the run is dry or nothing moves one batch command is written. *)
Definition handler (args : Args) : list Event * Response :=
  match resolveAuthToken (authToken args) fallbackToken with
  | None => ([], Failure "Auth token is required" None)
  | Some token =>
      match readToday with
      | inl err =>
          ([ReadToday], Failure ("Error fetching Today list: " ++ err) None)
      | inr todos =>
          let result :=
            simulateRescheduleLogic LocalTZA clock todos
              {| opt_daysThreshold := daysThreshold args;
                 opt_bufferDays := bufferDays args;
                 opt_now := None |} in
          let dry := default false (dryRun args) in
          let report :=
            {| rp_dryRun := dry;
               rp_totalToday := totalToday result;
               rp_rescheduledCount := List.length (res_rescheduled result);
               rp_skippedSummary := res_skippedSummary result;
               rp_rescheduled := res_rescheduled result |} in
          if dry || (List.length (res_rescheduled result) =? 0)%nat
          then ([ReadToday; Evaluate], Success report)
          else
            let url :=
              buildJsonURL
                {| js_data := map updateEntry (res_rescheduled result);
                   js_auth_token := Some token;
                   js_reveal := None |} in
            match openThingsURL url with
            | None => ([ReadToday; Evaluate; WriteCommand url], Success report)
            | Some err =>
                ([ReadToday; Evaluate; WriteCommand url],
                 Failure err (Some url))
            end
      end
  end.
End Handler.

(** [text.includes(part)]. *)
Fixpoint includes (part text : string) : bool :=
  String.prefix part text
  || match text with
     | EmptyString => false
     | String _ rest => includes part rest
     end.

End RescheduleTool.

(** ** Notions about a run of the engine *)

Module Run.
Import JS JSDate DateUtil Reschedule.

(** Two states with the same counters and the same decisions, up to the
    order of the decisions. *)
Definition agree (st st' : State) : Prop :=
  skippedSummary st = skippedSummary st'
  /\ Permutation (rescheduled st) (rescheduled st').

(** The counters that are there are positive, under one of the five
    labels. *)
Definition wellCounted (T : Z) (st : State) : Prop :=
  forall r n,
    skippedSummary st !! r = Some n ->
    (1 <= n)%nat
    /\ In r [reasonStatus; reasonNoDeadline; reasonToday; reasonThreshold T;
             reasonNoMove].

(** What a decision says of a to-do of the list. *)
Definition decides (LocalTZA : Z -> Z) (T : Z) (today : Date)
    (todayStr : string) (todos : list TodoRecord) (d : Decision) : Prop :=
  exists todo due,
    In todo todos
    /\ status todo = "open" /\ dueDate todo = Some due /\ due <> ""
    /\ rd_id d = todo_id todo /\ rd_name d = todo_name todo
    /\ rd_dueDate d = slice 0 10 due
    /\ daysUntilDue d = daysBetween LocalTZA today (parseDateOnly due)
    /\ ltb (daysUntilDue d) (Some T) = false
    /\ oldWhen d <> Some todayStr.

End Run.

(** ** Reading a Things URL back *)

Module Query.
Import JS ThingsURL.

(** [String(v)], the text of a value before it is encoded. *)
Definition textOf (value : option ParamValue) : string :=
  match value with
  | Some (PBoolean b) => if b then "true" else "false"
  | Some (PString s) => s
  | None => "undefined"
  end.

(** The value of a hexadecimal digit. *)
Definition hexValue (c : ascii) : option nat :=
  let n := nat_of_ascii c in
  if inRange 48 57 c then Some (n - 48)%nat
  else if inRange 65 70 c then Some (n - 55)%nat
  else if inRange 97 102 c then Some (n - 87)%nat
  else None.

(** Percent-decoding, the way the receiver of a URL reads a value: [%XY]
    is the byte with the hexadecimal code [XY], every other character is
    itself, and a [%] that two hexadecimal digits do not follow is an
    error. *)
Fixpoint percentDecode (s : string) : option string :=
  match s with
  | EmptyString => Some ""
  | String c r =>
      if Ascii.eqb c "%"
      then
        match r with
        | String h (String l r') =>
            match hexValue h, hexValue l, percentDecode r' with
            | Some a, Some b, Some t =>
                Some (String (ascii_of_nat (16 * a + b)) t)
            | _, _, _ => None
            end
        | _ => None
        end
      else
        match percentDecode r with
        | Some t => Some (String c t)
        | None => None
        end
  end.

(** [s] cut at the first [sep]: what is before it and what is after. *)
Fixpoint cut (sep : ascii) (s : string) : string * string :=
  match s with
  | EmptyString => ("", "")
  | String c r =>
      if Ascii.eqb c sep then ("", r)
      else (String c (fst (cut sep r)), snd (cut sep r))
  end.

(** The query of a URL read back: the parts between the [&], each cut at
    its first [=] into a key and a value, the value decoded. *)
Definition parseQuery (query : string) : list (string * option string) :=
  map (fun part => (fst (cut "=" part), percentDecode (snd (cut "=" part))))
      (split "&" query).

(** A key that does not disturb the reading: no [&] and no [=]. *)
Definition plainKey (key : string) : bool := lacks "&" key && lacks "=" key.

End Query.

(** ** The scripts of the reader ([applescript.ts]) *)

Module AppleScript.
Import JS ThingsURL RescheduleTool.

(** Whether every character is one of ASCII. *)
Definition isAscii (s : string) : bool :=
  forallb (fun c => (nat_of_ascii c <? 128)%nat) (list_ascii_of_string s).

Definition upperChar (c : ascii) : ascii :=
  if inRange 97 122 c then ascii_of_nat (nat_of_ascii c - 32) else c.

Definition lowerChar (c : ascii) : ascii :=
  if inRange 65 90 c then ascii_of_nat (nat_of_ascii c + 32) else c.

Fixpoint mapChars (f : ascii -> ascii) (s : string) : string :=
  match s with
  | EmptyString => ""
  | String c r => String (f c) (mapChars f r)
  end.

(** [s.toUpperCase()] and [s.toLowerCase()], on a text of ASCII. *)
Definition toUpperCase (s : string) : string := mapChars upperChar s.
Definition toLowerCase (s : string) : string := mapChars lowerChar s.

(** [s.charAt(i)]: the empty string when there is no such character. *)
Definition charAt (i : nat) (s : string) : string := substring i 1 s.

(** [s.slice(a)]. *)
Definition sliceFrom (a : nat) (s : string) : string :=
  substring a (String.length s - a) s.

(** *** [formatExecError] *)

(** The white space and line ends of ASCII, which [trim] takes away. *)
Definition isBlank (c : ascii) : bool :=
  inRange 9 13 c || (nat_of_ascii c =? 32)%nat.

Fixpoint trimStart (s : string) : string :=
  match s with
  | EmptyString => ""
  | String c r => if isBlank c then trimStart r else s
  end.

Fixpoint trimEnd (s : string) : string :=
  match s with
  | EmptyString => ""
  | String c r =>
      match trimEnd r with
      | EmptyString => if isBlank c then "" else String c ""
      | t => String c t
      end
  end.

(** [s.trim()], on a text of ASCII. *)
Definition trim (s : string) : string := trimEnd (trimStart s).

(** [formatExecError(error)], given the three properties of the error
    that are read; [None] is a property that is not a string. *)
Definition formatExecError (stderr stdout message : option string)
    : string :=
  let parts :=
    List.filter
      (fun part : option string =>
         match part with
         | Some text => negb (trim text =? "")
         | None => false
         end)
      [stderr; stdout; message] in
  let detail :=
    trim (String.concat (String LF "") (map (default "") parts)) in
  if truthy (Some detail) then detail else "Unknown process execution error".

(** *** [runJXA], when the process fails *)

Definition isAppResolutionError (detail : string) : bool :=
  let lower := toLowerCase detail in
  includes "application can't be found" lower
  || includes "can't get application" lower
  || includes "unable to connect to things via jxa" lower
  || includes "(-2700)" lower
  || includes "(-1728)" lower.

(** The message of the error [runJXA] throws from its [catch], given the
    three properties of the error caught. *)
Definition runJXAFailure (stderr stdout message : option string) : string :=
  let detail := formatExecError stderr stdout message in
  let hint :=
    if isAppResolutionError detail
    then " Check macOS Automation permissions for your MCP host and "
         ++ "ensure Things 3 is installed at /Applications/Things3.app."
    else "" in
  "JXA execution failed: " ++ detail ++ hint.

(** *** [getTodosFromList] *)

Definition validLists : list string :=
  ["Inbox"; "Today"; "Anytime"; "Upcoming"; "Someday"; "Logbook"; "Trash"].

Definition normalizedList (listName : string) : string :=
  toUpperCase (charAt 0 listName) ++ toLowerCase (sliceFrom 1 listName).

(** [xs.includes(x)], for strings. *)
Definition listIncludes (xs : list string) (x : string) : bool :=
  existsb (String.eqb x) xs.

Definition DQ : ascii := ascii_of_nat 34.
Definition BS : ascii := ascii_of_nat 92.
Definition CR : ascii := ascii_of_nat 13.

(** The start of the script of [getTodosFromList], up to the opening quote
    of the name of the list. *)
Definition listScriptHead : string :=
  String LF "    const things = Application(" ++ String DQ "Things3"
  ++ String DQ ");" ++ String LF "    const todos = things.lists.byName("
  ++ String DQ "".

(** [getTodosFromList(listName)] up to the call of [runJXA]: the message of
    the error thrown, or the script from its start to the closing quote of
    the name of the list, followed by [rest], the end of the template. *)
Definition getTodosFromList (rest : string) (listName : string)
    : string + string :=
  let normalizedList := normalizedList listName in
  if negb (listIncludes validLists normalizedList)
  then inl ("Invalid list name: " ++ listName ++ ". Valid lists are: "
            ++ String.concat ", " validLists)
  else inr (listScriptHead ++ normalizedList ++ String DQ rest).

(** *** Names and queries put between quotes *)

(** The name with a backslash put before each double quote, as
    [getTodosFromProject], [getTodosFromArea], [getTodoById],
    [getProjectById] and [getTodosByTag] do with one [replace]. *)
Definition escapedName (name : string) : string :=
  replaceAll DQ (String BS (String DQ "")) name.

(** The two [replace] of [searchTodosByTitle], in their order: a backslash
    before each double quote first, then every backslash doubled. *)
Definition escapedQuery (query : string) : string :=
  replaceAll BS (String BS (String BS ""))
             (replaceAll DQ (String BS (String DQ "")) query).

(** How JavaScript reads a string literal between double quotes, from just
    after the opening quote: the value of the literal and the text that
    follows its closing quote.  A backslash makes the quote or backslash
    after it a character of the value; a quote that is not escaped closes
    the literal.  The other escapes, and literals that a line break or the
    end of the text cuts, are not read ([None]). *)
Fixpoint readLiteral (s : string) : option (string * string) :=
  match s with
  | EmptyString => None
  | String c r =>
      if Ascii.eqb c DQ then Some ("", r)
      else if Ascii.eqb c BS
      then
        match r with
        | String e r' =>
            if Ascii.eqb e DQ || Ascii.eqb e BS
            then
              match readLiteral r' with
              | Some (v, after) => Some (String e v, after)
              | None => None
              end
            else None
        | EmptyString => None
        end
      else if Ascii.eqb c LF || Ascii.eqb c CR then None
      else
        match readLiteral r with
        | Some (v, after) => Some (String c v, after)
        | None => None
        end
  end.

(** A text without quote, backslash and line break. *)
Definition plainChar (c : ascii) : bool :=
  negb (Ascii.eqb c DQ || Ascii.eqb c BS || Ascii.eqb c LF || Ascii.eqb c CR).

Definition plainText (s : string) : bool :=
  forallb plainChar (list_ascii_of_string s).

End AppleScript.

(** ** The classification of failures by the test script
    ([test-all-tools.js]) *)

Module TestAllTools.
Import JS RescheduleTool AppleScript.

Definition isBlocked (message : string) : bool :=
  let lower := toLowerCase message in
  includes "no application knows how to open url things:///" lower
  || includes "klsexecutableincorrectformat" lower
  || includes
       "connection invalid error for service com.apple.hiservices-xpcservice"
       lower
  || includes "parameter is missing. (-1701)" lower
  || includes "application can't be found" lower
  || includes "can't get application" lower
  || includes "unable to connect to things via jxa" lower.

End TestAllTools.

(** ** [Date] objects by their time value

    The reading of a [Date] that follows ECMAScript to the letter, for the
    properties that depend on the range of [Date] or on local times that
    the host's clock never shows.  A [Date] holds a time value, the
    milliseconds of an instant since the epoch in UTC, clipped to the range
    of [Date]; the fields are those of the local time of that instant, and
    a [Date] is built from fields by reading them as a local time.  Where
    a local time is shown by the clock and lies in the range, this reading
    and the one of [JSDate] give the same fields and the same instant. *)

Module HostDate.
Import JS Calendar.
Local Open Scope Z_scope.

Inductive Date : Type :=
  | InvalidDate
  | DateOf (timeValue : Z).

(** The greatest time value of a [Date]: 8.64e15 ms, that is 100,000,000
    days. *)
Definition maxTime : Z := 8640000000000000.

(** [TimeClip(time)]. *)
Definition TimeClip (time : Z) : Date :=
  if Z.abs time <=? maxTime then DateOf time else InvalidDate.

(** The host's time zone, both ways.  [offsetAt u] is the offset of local
    time from UTC, in milliseconds, in force at the instant [u].
    [LocalTZA t] is the offset by which the local time value [t] is read:
    the offset at the earliest instant that shows [t], and, for a [t] that
    no instant shows because the clocks were set forward over it, the
    offset in force before that transition. *)
Record Zone : Type := {
  offsetAt : Z -> Z;
  LocalTZA : Z -> Z
}.

Section Zone.
Variable zone : Zone.

(** [LocalTime(t)], from an instant to its local time value. *)
Definition LocalTime (t : Z) : Z := t + offsetAt zone t.

(** [UTC(t)], from a local time value to its instant. *)
Definition UTC (t : Z) : Z := t - LocalTZA zone t.

(** [new Date(year, month, day)].  A year from 0 to 99 means 1900 +
    year. *)
Definition newDate (year month day : JSNum) : Date :=
  match year, month, day with
  | Some y, Some m, Some d =>
      let yr := if (0 <=? y) && (y <=? 99) then 1900 + y else y in
      TimeClip (UTC (MakeDate (MakeDay yr m d) 0))
  | _, _, _ => InvalidDate
  end.

Definition getFullYear (date : Date) : JSNum :=
  match date with
  | DateOf tv => Some (YearFromTime (LocalTime tv))
  | InvalidDate => None
  end.

Definition getMonth (date : Date) : JSNum :=
  match date with
  | DateOf tv => Some (MonthFromTime (LocalTime tv))
  | InvalidDate => None
  end.

Definition getDate (date : Date) : JSNum :=
  match date with
  | DateOf tv => Some (DateFromTime (LocalTime tv))
  | InvalidDate => None
  end.

(** [date.setDate(dt)], returning the updated object: the day of the month
    of the local time is replaced, the time within the day is kept, and
    the result is read as a local time again. *)
Definition setDate (date : Date) (dt : JSNum) : Date :=
  match date, dt with
  | DateOf tv, Some d =>
      let t := LocalTime tv in
      TimeClip
        (UTC (MakeDate (MakeDay (YearFromTime t) (MonthFromTime t) d)
                       (TimeWithinDay t)))
  | _, _ => InvalidDate
  end.

(** [date.getTime()]. *)
Definition getTime (date : Date) : JSNum :=
  match date with
  | DateOf tv => Some tv
  | InvalidDate => None
  end.

(** The [Date] built for the local midnight of day number [n]. *)
Definition atMidnight (n : Z) : Date := TimeClip (UTC (MakeDate n 0)).

(** The local time value [t] is read as an instant in the range of
    [Date]. *)
Definition inDateRange (t : Z) : Prop := Z.abs (UTC t) <= maxTime.


(** The time of day at which the [Date] built for the midnight of day
    [n] stands: 0 when the clock shows that midnight, and the time the
    clock was set forward to when it does not. *)
Definition standsAt (n : Z) : Z :=
  TimeWithinDay (LocalTime (UTC (MakeDate n 0))).

(** At the time of day [time], day [n] is in the range and the clock
    shows it: the [Date] built for that local time is a time of day
    [n]. *)
Definition shownAt (n time : Z) : Prop :=
  inDateRange (MakeDate n time)
  /\ Day (LocalTime (UTC (MakeDate n time))) = n.

(** Day [n] is in the range and the clock shows it: the [Date] built for
    its midnight is a time of that day. *)
Definition dayShown (n : Z) : Prop := shownAt n 0.

End Zone.

(** A zone with one offset throughout. *)
Definition fixedZone (offset : Z) : Zone :=
  {| offsetAt := fun _ => offset; LocalTZA := fun _ => offset |}.

Definition utcZone : Zone := fixedZone 0.

(** America/Havana by its rules for 2026: UTC-5, and UTC-4 from
    2026-03-08 00:00 to 2026-11-01 01:00 local time, that is between the
    instants 05:00 UTC of these two days.  The hour from midnight on
    2026-03-08 is not shown by the clock; the hour from midnight on
    2026-11-01 is shown twice. *)
Definition havana2026 : Zone :=
  let hour := 3600000 in
  {| offsetAt := fun u =>
       if (MakeDate (MakeDay 2026 2 8) (5 * hour) <=? u)
          && (u <? MakeDate (MakeDay 2026 10 1) (5 * hour))
       then -4 * hour else -5 * hour;
     LocalTZA := fun t =>
       if (MakeDate (MakeDay 2026 2 8) (1 * hour) <=? t)
          && (t <? MakeDate (MakeDay 2026 10 1) (1 * hour))
       then -4 * hour else -5 * hour |}.

(** Pacific/Apia at the end of 2011: UTC-10 until the end of 2011-12-29,
    the instant 2011-12-30 10:00 UTC, and UTC+14 from then on.  The day
    2011-12-30 is not shown by the clock. *)
Definition apia2011 : Zone :=
  let hour := 3600000 in
  {| offsetAt := fun u =>
       if u <? MakeDate (MakeDay 2011 11 30) (10 * hour)
       then -10 * hour else 14 * hour;
     LocalTZA := fun t =>
       if t <? MakeDate (MakeDay 2011 11 31) 0
       then -10 * hour else 14 * hour |}.

(** Pacific/Kwajalein in August 1993: UTC-12 until the end of 1993-08-20,
    the instant 1993-08-21 12:00 UTC, and UTC+12 from then on.  The day
    1993-08-21 is not shown by the clock. *)
Definition kwajalein1993 : Zone :=
  let hour := 3600000 in
  {| offsetAt := fun u =>
       if u <? MakeDate (MakeDay 1993 7 21) (12 * hour)
       then -12 * hour else 12 * hour;
     LocalTZA := fun t =>
       if t <? MakeDate (MakeDay 1993 7 22) 0
       then -12 * hour else 12 * hour |}.

(** A zone in which a local time a day or more later is read as a later
    instant. *)
Definition zoneDayIncreasing (zone : Zone) : Prop :=
  forall a b, a + msPerDay <= b -> UTC zone a < UTC zone b.

End HostDate.

(** ** The date utilities, on [Date] objects by their time value *)

Module HostDateUtil.
Import JS Calendar HostDate.

Section Zone.
Variable zone : Zone.

(** [formatDateLocal(date)]. *)
Definition formatDateLocal (date : Date) : string :=
  let y := getFullYear zone date in
  let m :=
    padStart 2 "0" (numToString (add (getMonth zone date) (Some 1%Z))) in
  let d := padStart 2 "0" (numToString (getDate zone date)) in
  numToString y ++ "-" ++ m ++ "-" ++ d.

(** [parseDateOnly(isoString)]. *)
Definition parseDateOnly (isoString : string) : Date :=
  let datePart := slice 0 10 isoString in
  let parts := map Number (split "-" datePart) in
  let year := item parts 0 in
  let month := item parts 1 in
  let day := item parts 2 in
  newDate zone year (sub month (Some 1%Z)) day.

End Zone.

(** [daysBetween(from, to)]. *)
Definition daysBetween (from to : Date) : JSNum :=
  let msPerDay := (1000 * 60 * 60 * 24)%Z in
  match sub (getTime to) (getTime from) with
  | Some ms => Some (ms / msPerDay)%Z
  | None => None
  end.

End HostDateUtil.

(** ** The reschedule engine, on [Date] objects by their time value *)

Module HostReschedule.
Import JS Calendar HostDate HostDateUtil.
Import Reschedule.

(** The [options] argument; an absent field is [undefined]. *)
Record Options : Type := {
  opt_daysThreshold : option Z;
  opt_bufferDays : option Z;
  opt_now : option Date
}.

Section Engine.
Variable zone : Zone.
(** What [new Date()] returns when the engine runs. *)
Variable clock : Date.

Section Body.
Variables daysThreshold bufferDays : Z.
Variable todayMidnight : Date.
Variable todayStr : string.

(** [activationDate] is set and its day prints as today. *)
Definition scheduledToday (todo : TodoRecord) : bool :=
  match activationDate todo with
  | Some a =>
      if truthy (Some a)
      then formatDateLocal zone (parseDateOnly zone a) =? todayStr
      else false
  | None => false
  end.

(** The date an eligible to-do moves to. *)
Definition newWhenDate (deadlineDate : Date) : Date :=
  setDate zone deadlineDate
          (sub (getDate zone deadlineDate) (Some bufferDays)).

(** One turn of the loop over [todos]. *)
Definition loopBody (st : State) (todo : TodoRecord) : State :=
  if negb (status todo =? "open") then skipWith reasonStatus st
  else
    match dueDate todo with
    | None => skipWith reasonNoDeadline st
    | Some due =>
        if negb (truthy (Some due)) then skipWith reasonNoDeadline st
        else if scheduledToday todo then skipWith reasonToday st
        else
          let deadlineDate := parseDateOnly zone due in
          let daysUntilDue := daysBetween todayMidnight deadlineDate in
          if ltb daysUntilDue (Some daysThreshold)
          then skipWith (reasonThreshold daysThreshold) st
          else
            let newWhenDate := newWhenDate deadlineDate in
            if leb (getTime newWhenDate) (getTime todayMidnight)
            then skipWith reasonNoMove st
            else
              let newWhenStr := formatDateLocal zone newWhenDate in
              let oldWhen :=
                match activationDate todo with
                | Some a =>
                    if truthy (Some a)
                    then Some (formatDateLocal zone (parseDateOnly zone a))
                    else None
                | None => None
                end in
              push {| rd_id := todo_id todo;
                      rd_name := todo_name todo;
                      oldWhen := oldWhen;
                      newWhen := newWhenStr;
                      rd_dueDate := slice 0 10 due;
                      daysUntilDue := daysUntilDue |} st
    end.
End Body.

Definition simulateRescheduleLogic
    (todos : list TodoRecord) (options : Options) : Result :=
  let daysThreshold := default 7%Z (opt_daysThreshold options) in
  let bufferDays := default 3%Z (opt_bufferDays options) in
  let now := default clock (opt_now options) in
  let todayMidnight :=
    newDate zone (getFullYear zone now) (getMonth zone now)
            (getDate zone now) in
  let todayStr := formatDateLocal zone todayMidnight in
  let st :=
    fold_left (loopBody daysThreshold bufferDays todayMidnight todayStr)
              todos initial in
  {| res_rescheduled := rescheduled st;
     res_skippedSummary := skippedSummary st;
     totalToday := List.length todos |}.

(** The midnight [simulateRescheduleLogic] takes for today. *)
Definition todayOf (options : Options) : Date :=
  let now := default clock (opt_now options) in
  newDate zone (getFullYear zone now) (getMonth zone now) (getDate zone now).


End Engine.

(** Due on 2012-01-02, three days after the day that Samoa left out. *)
Definition dueAfterSkippedDay : TodoRecord :=
  {| todo_id := "t-apia"; todo_name := "After the skipped day";
     status := "open"; dueDate := Some "2012-01-02";
     activationDate := None |}.

End HostReschedule.

(* ===================================================================== *)
(** * Properties                                                          *)
(* ===================================================================== *)

(** ** The calendar *)

Module CalendarFacts.
Import Calendar.
Local Open Scope Z_scope.

Ltac euclid := Z.to_euclidean_division_equations; lia.

Lemma DaysInYear_cases y : DaysInYear y = 365 \/ DaysInYear y = 366.
Proof.
  unfold DaysInYear.
  destruct (y mod 4 =? 0), (y mod 100 =? 0), (y mod 400 =? 0); simpl; auto.
Qed.

Lemma DaysInYear_leap y : DaysInYear y = 365 + InLeapYear y.
Proof.
  unfold InLeapYear.
  destruct (DaysInYear_cases y) as [H | H]; rewrite H; reflexivity.
Qed.

Lemma InLeapYear_cases y : InLeapYear y = 0 \/ InLeapYear y = 1.
Proof. unfold InLeapYear. destruct (DaysInYear y =? 366); auto. Qed.

(** The first day of the next year comes a year's length later. *)
Lemma DayFromYear_succ y : DayFromYear (y + 1) = DayFromYear y + DaysInYear y.
Proof.
  unfold DayFromYear, DaysInYear.
  destruct (Z.eqb_spec (y mod 4) 0), (Z.eqb_spec (y mod 100) 0),
    (Z.eqb_spec (y mod 400) 0); simpl negb; cbv iota; euclid.
Qed.

Lemma DayFromYear_bounds y :
  146097 * (y - 1970) - 400 <= 400 * DayFromYear y
  <= 146097 * (y - 1970) + 600.
Proof. unfold DayFromYear. euclid. Qed.

Lemma DayFromYear_mono y1 y2 : y1 <= y2 -> DayFromYear y1 <= DayFromYear y2.
Proof. unfold DayFromYear. intros H. euclid. Qed.

Lemma DayFromYear_lt y1 y2 : y1 < y2 -> DayFromYear y1 < DayFromYear y2.
Proof.
  intros H. pose proof (DayFromYear_mono (y1 + 1) y2 ltac:(lia)) as Hm.
  rewrite DayFromYear_succ in Hm.
  destruct (DaysInYear_cases y1); lia.
Qed.

(** [YearFromDay n] is the year that contains day [n]. *)
Lemma YearFromDay_spec n :
  DayFromYear (YearFromDay n) <= n < DayFromYear (YearFromDay n + 1).
Proof.
  unfold YearFromDay.
  set (y0 := 1970 + (400 * n) / 146097).
  assert (Hlo : DayFromYear (y0 - 1) <= n).
  { pose proof (DayFromYear_bounds (y0 - 1)) as H.
    set (d := DayFromYear _) in *. clearbody d. subst y0. euclid. }
  assert (Hhi : n < DayFromYear (y0 + 1 + 1)).
  { pose proof (DayFromYear_bounds (y0 + 1 + 1)) as H.
    set (d := DayFromYear _) in *. clearbody d. subst y0. euclid. }
  destruct (Z.leb_spec (DayFromYear (y0 + 1)) n).
  - lia.
  - destruct (Z.leb_spec (DayFromYear y0) n).
    + lia.
    + replace (y0 - 1 + 1) with y0 by lia. lia.
Qed.

(** ... and it is the only one. *)
Lemma YearFromDay_unique n y :
  DayFromYear y <= n < DayFromYear (y + 1) -> YearFromDay n = y.
Proof.
  intros [Hlo Hhi]. pose proof (YearFromDay_spec n) as [Slo Shi].
  destruct (Z.lt_trichotomy (YearFromDay n) y) as [Hlt | [Heq | Hgt]].
  - pose proof (DayFromYear_mono (YearFromDay n + 1) y ltac:(lia)). lia.
  - exact Heq.
  - pose proof (DayFromYear_mono (y + 1) (YearFromDay n) ltac:(lia)). lia.
Qed.

Lemma DayWithinYear_range n :
  0 <= DayWithinYear n < 365 + InLeapYear (YearFromDay n).
Proof.
  unfold DayWithinYear. pose proof (YearFromDay_spec n) as H.
  rewrite DayFromYear_succ, DaysInYear_leap in H. lia.
Qed.

Lemma MonthFromDay_range n : 0 <= MonthFromDay n <= 11.
Proof.
  unfold MonthFromDay.
  repeat match goal with |- context [if ?b then _ else _] => destruct b end;
    lia.
Qed.

(** The fields of a day give the day back. *)
Lemma MakeDay_fields n :
  MakeDay (YearFromDay n) (MonthFromDay n) (DateFromDay n) = n.
Proof.
  pose proof (DayWithinYear_range n) as Hr.
  pose proof (MonthFromDay_range n) as Hm.
  unfold MakeDay.
  rewrite (Z.div_small (MonthFromDay n) 12), (Z.mod_small (MonthFromDay n) 12)
    by lia.
  rewrite Z.add_0_r.
  unfold DateFromDay, monthStart, MonthFromDay in *.
  unfold DayWithinYear in *.
  set (L := InLeapYear (YearFromDay n)) in *.
  set (b := DayFromYear (YearFromDay n)) in *.
  repeat match goal with
         | |- context [if ?c then _ else _] => destruct c
         end; lia.
Qed.

Lemma monthStart_bounds y m d :
  0 <= m <= 11 -> 1 <= d <= DaysInMonth y (m + 1) ->
  0 <= monthStart y m + d - 1 < 365 + InLeapYear y.
Proof.
  intros Hm Hd. destruct (InLeapYear_cases y) as [HL | HL].
  all: assert (Hc : m = 0 \/ m = 1 \/ m = 2 \/ m = 3 \/ m = 4 \/ m = 5 \/ m = 6
                \/ m = 7 \/ m = 8 \/ m = 9 \/ m = 10 \/ m = 11) by lia.
  all: repeat destruct Hc as [Hc | Hc]; subst m;
    unfold monthStart, DaysInMonth in *; simpl in *; rewrite ?HL in *; lia.
Qed.

(** A day of the calendar has the fields it was made of. *)
Lemma fields_MakeDay y m d :
  0 <= m <= 11 -> 1 <= d <= DaysInMonth y (m + 1) ->
  YearFromDay (MakeDay y m d) = y
  /\ MonthFromDay (MakeDay y m d) = m
  /\ DateFromDay (MakeDay y m d) = d.
Proof.
  intros Hm Hd. pose proof (monthStart_bounds y m d Hm Hd) as Hb.
  unfold MakeDay.
  rewrite (Z.div_small m 12), (Z.mod_small m 12) by lia.
  rewrite Z.add_0_r.
  assert (Hy : YearFromDay (DayFromYear y + monthStart y m + d - 1) = y).
  { apply YearFromDay_unique. rewrite DayFromYear_succ, DaysInYear_leap. lia. }
  split; [exact Hy |].
  assert (Hmm : MonthFromDay (DayFromYear y + monthStart y m + d - 1) = m).
  { unfold MonthFromDay, DayWithinYear. rewrite Hy.
    destruct (InLeapYear_cases y) as [HL | HL].
    all: assert (Hc : m = 0 \/ m = 1 \/ m = 2 \/ m = 3 \/ m = 4 \/ m = 5
                  \/ m = 6 \/ m = 7 \/ m = 8 \/ m = 9 \/ m = 10 \/ m = 11)
      by lia.
    all: repeat destruct Hc as [Hc | Hc]; subst m;
      unfold monthStart, DaysInMonth in *; simpl in Hd |- *;
      rewrite ?HL in *;
      repeat match goal with
             | |- context [if ?c <? ?e then _ else _] =>
                 destruct (Z.ltb_spec c e)
             end; lia. }
  split; [exact Hmm |].
  unfold DateFromDay. rewrite Hmm. unfold DayWithinYear. rewrite Hy.
  assert (Hc : m = 0 \/ m = 1 \/ m = 2 \/ m = 3 \/ m = 4 \/ m = 5
                \/ m = 6 \/ m = 7 \/ m = 8 \/ m = 9 \/ m = 10 \/ m = 11)
    by lia.
  repeat destruct Hc as [Hc | Hc]; subst m; unfold monthStart; simpl; lia.
Qed.

Lemma DaysInMonth_range y m : 28 <= DaysInMonth y m <= 31.
Proof.
  unfold DaysInMonth. destruct (InLeapYear_cases y) as [HL | HL]; rewrite HL.
  all: repeat match goal with
              | |- context [match ?x with _ => _ end] => destruct x
              end; lia.
Qed.

Lemma Day_MakeDate n : Day (MakeDate n 0) = n.
Proof. unfold Day, MakeDate, msPerDay. euclid. Qed.

Lemma TimeWithinDay_MakeDate n : TimeWithinDay (MakeDate n 0) = 0.
Proof. unfold TimeWithinDay, MakeDate, msPerDay. euclid. Qed.

(** [MakeDay] counts days: a smaller day of the month is as many days
    earlier, whatever months and years lie between. *)
Lemma MakeDay_shift y m d k : MakeDay y m (d - k) = MakeDay y m d - k.
Proof. unfold MakeDay. lia. Qed.

End CalendarFacts.
(** ** Strings and numbers *)

Module JSFacts.
Import JS Enum.

Lemma allFrom_spec (P : Z -> bool) n :
  forall lo, allFrom P lo n = true ->
  forall y, (lo <= y < lo + Z.of_nat n)%Z -> P y = true.
Proof.
  induction n as [| k IH]; intros lo H y Hy; [lia |].
  simpl in H. apply andb_prop in H as [H0 Hk].
  destruct (Z.eq_dec y lo) as [-> | Hne]; [exact H0 |].
  apply (IH (lo + 1)%Z Hk). lia.
Qed.

Lemma length_append (a b : string) :
  String.length (a ++ b) = (String.length a + String.length b)%nat.
Proof. induction a as [| c a IH]; simpl; [reflexivity | f_equal; exact IH]. Qed.

Lemma append_empty_r (a : string) : a ++ "" = a.
Proof.
  induction a as [| c a IH]; [reflexivity |].
  change (String c (a ++ "") = String c a). f_equal. exact IH.
Qed.

(** [slice(0, n)] of a text that starts with [n] characters [p] is [p]. *)
Lemma slice_prefix (p rest : string) :
  slice 0 (String.length p) (p ++ rest) = p.
Proof.
  unfold slice. rewrite Nat.sub_0_r.
  induction p as [| c p IH]; simpl.
  - destruct rest; reflexivity.
  - f_equal. exact IH.
Qed.

(** What comes after the first ten characters is not read. *)
Lemma slice_slice (n : nat) (s : string) :
  slice 0 n (slice 0 n s) = slice 0 n s.
Proof.
  unfold slice. rewrite Nat.sub_0_r. revert s.
  induction n as [| k IH]; intros [| c s]; simpl; try reflexivity.
  f_equal. apply IH.
Qed.

(** The same, between two bounds. *)
Lemma allFrom_between (P : Z -> bool) (lo hi : Z) :
  allFrom P lo (Z.to_nat (hi - lo + 1)) = true ->
  forall y, (lo <= y <= hi)%Z -> P y = true.
Proof.
  intros H y Hy. apply (allFrom_spec P _ lo H). lia.
Qed.

Lemma split_lacks sep (s : string) : lacks sep s = true -> split sep s = [s].
Proof.
  induction s as [| c s IH]; simpl; [reflexivity |].
  destruct (Ascii.eqb c sep); simpl; [discriminate |].
  intros H. rewrite (IH H). reflexivity.
Qed.

Lemma split_app sep (a rest : string) :
  lacks sep a = true ->
  split sep (a ++ String sep rest) = a :: split sep rest.
Proof.
  induction a as [| c a IH]; simpl.
  - rewrite Ascii.eqb_refl. reflexivity.
  - destruct (Ascii.eqb c sep); simpl; [discriminate |].
    intros H. rewrite (IH H). reflexivity.
Qed.

(** Three parts without a dash, joined by dashes, split into the three. *)
Lemma split_three (a b c : string) :
  lacks "-" a = true -> lacks "-" b = true -> lacks "-" c = true ->
  split "-" (a ++ "-" ++ b ++ "-" ++ c) = [a; b; c].
Proof.
  intros Ha Hb Hc.
  change (a ++ "-" ++ b ++ "-" ++ c)
    with (a ++ String "-" (b ++ String "-" c)).
  rewrite (split_app "-" a _ Ha), (split_app "-" b _ Hb).
  rewrite (split_lacks "-" c Hc).
  reflexivity.
Qed.

End JSFacts.
(** ** The date utilities *)

Module DateFacts.
Import JS Enum Calendar JSDate DateUtil CalendarFacts JSFacts.
Local Open Scope Z_scope.

(** [formatDay] prints the calendar fields of the day. *)
Lemma formatDay_fields n :
  formatDay n
  = numToString (Some (YearFromDay n)) ++ "-"
    ++ padStart 2 "0" (numToString (Some (MonthFromDay n + 1))) ++ "-"
    ++ padStart 2 "0" (numToString (Some (DateFromDay n))).
Proof.
  unfold formatDay, formatDateLocal, midnight, getFullYear, getMonth, getDate.
  unfold YearFromTime, MonthFromTime, DateFromTime.
  rewrite Day_MakeDate. reflexivity.
Qed.

Lemma formatDateLocal_midnight n : formatDateLocal (midnight n) = formatDay n.
Proof. reflexivity. Qed.

(** A date that was built parses to a midnight. *)
Lemma newDate_midnight y m d :
  newDate (Some y) (Some m) (Some d)
  = midnight (MakeDay (if (0 <=? y) && (y <=? 99) then 1900 + y else y) m d).
Proof. reflexivity. Qed.

Lemma midnight_inj a b : midnight a = midnight b -> a = b.
Proof.
  unfold midnight, MakeDate, msPerDay. intros H. injection H as H. lia.
Qed.



Lemma yearText_ok y : 0 <= y <= 9999 -> yearTextOk y = true.
Proof.
  intros H. apply (allFrom_between yearTextOk 0 9999);
    [vm_compute; reflexivity | lia].
Qed.

Lemma fieldText_ok v : 0 <= v <= 99 -> fieldTextOk v = true.
Proof.
  intros H. apply (allFrom_between fieldTextOk 0 99);
    [vm_compute; reflexivity | lia].
Qed.

Lemma yearText_unpadded y :
  1000 <= y <= 9999 ->
  padStart 4 "0" (numToString (Some y)) = numToString (Some y).
Proof.
  intros H.
  apply String.eqb_eq.
  apply (allFrom_between
           (fun y => padStart 4 "0" (numToString (Some y))
                     =? numToString (Some y))%string 1000 9999);
    [vm_compute; reflexivity | lia].
Qed.

(** The zero-padded text of a date parses to the midnight of that day, from
    the year 100 on. *)
Lemma parseDateOnly_isoDate y m d :
  100 <= y <= 9999 -> 1 <= m <= 12 -> 1 <= d <= 31 ->
  parseDateOnly (isoDate y m d) = midnight (MakeDay y (m - 1) d).
Proof.
  intros Hy Hm Hd.
  pose proof (yearText_ok y ltac:(lia)) as Ty.
  pose proof (fieldText_ok m ltac:(lia)) as Tm.
  pose proof (fieldText_ok d ltac:(lia)) as Td.
  unfold yearTextOk, fieldTextOk in *. unfold isoDate.
  set (ty := padStart 4 "0" (numToString (Some y))) in *.
  set (tm := padStart 2 "0" (numToString (Some m))) in *.
  set (td := padStart 2 "0" (numToString (Some d))) in *.
  apply andb_prop in Ty as [Ty Ny]. apply andb_prop in Ty as [Ly Sy].
  apply andb_prop in Tm as [Tm Nm]. apply andb_prop in Tm as [Lm Sm].
  apply andb_prop in Td as [Td Nd]. apply andb_prop in Td as [Ld Sd].
  apply Nat.eqb_eq in Sy, Sm, Sd.
  destruct (Number ty) as [vy |] eqn:Ey; [| discriminate].
  destruct (Number tm) as [vm |] eqn:Em; [| discriminate].
  destruct (Number td) as [vd |] eqn:Ed; [| discriminate].
  apply Z.eqb_eq in Ny, Nm, Nd. subst vy vm vd.
  assert (Hlen : String.length (ty ++ "-" ++ tm ++ "-" ++ td) = 10%nat).
  { rewrite !length_append, Sy, Sm, Sd. reflexivity. }
  unfold parseDateOnly.
  assert (Hs : slice 0 10 (ty ++ "-" ++ tm ++ "-" ++ td)
               = ty ++ "-" ++ tm ++ "-" ++ td).
  { rewrite <- Hlen at 1.
    rewrite <- (append_empty_r (ty ++ "-" ++ tm ++ "-" ++ td)) at 2.
    apply slice_prefix. }
  rewrite Hs, (split_three ty tm td Ly Lm Ld).
  cbn [map item nth_error]. rewrite Ey, Em, Ed. cbn [sub].
  rewrite newDate_midnight.
  destruct (Z.leb_spec 0 y); destruct (Z.leb_spec y 99); cbn [andb]; try lia.
  reflexivity.
Qed.

(** *** Round trip, for the years that print with four digits *)

Lemma roundtrip_isoDate y m d :
  1000 <= y <= 9999 -> validDate y m d ->
  formatDateLocal (parseDateOnly (isoDate y m d)) = isoDate y m d.
Proof.
  intros Hy [Hm Hd].
  assert (Hd31 : 1 <= d <= 31).
  { pose proof (DaysInMonth_range y m). lia. }
  rewrite parseDateOnly_isoDate by lia.
  rewrite formatDateLocal_midnight, formatDay_fields.
  destruct (fields_MakeDay y (m - 1) d ltac:(lia)) as (Fy & Fm & Fd).
  { replace (m - 1 + 1) with m by lia. exact Hd. }
  rewrite Fy, Fm, Fd. replace (m - 1 + 1) with m by lia.
  unfold isoDate. rewrite yearText_unpadded by lia. reflexivity.
Qed.

(** *** Day counts *)

Section Zone.
Variable LocalTZA : Z -> Z.

Lemma daysBetween_DateAt a b :
  daysBetween LocalTZA (DateAt a) (DateAt b)
  = Some (((b - LocalTZA b) - (a - LocalTZA a)) / msPerDay).
Proof. reflexivity. Qed.

(** Between two midnights at which the zone has the same offset the count
    is the difference of the day numbers. *)
Lemma daysBetween_same_offset a b :
  LocalTZA (MakeDate a 0) = LocalTZA (MakeDate b 0) ->
  daysBetween LocalTZA (midnight a) (midnight b) = Some (b - a).
Proof.
  intros H. unfold midnight. rewrite daysBetween_DateAt, H. f_equal.
  unfold MakeDate, msPerDay. euclid.
Qed.
End Zone.

Lemma daysBetween_fixedZone offset a b :
  daysBetween (fixedZone offset) (midnight a) (midnight b) = Some (b - a).
Proof. apply daysBetween_same_offset. reflexivity. Qed.

End DateFacts.
(** ** The reschedule engine *)

Module RescheduleFacts.
Import JS Calendar JSDate DateUtil Reschedule CalendarFacts JSFacts DateFacts.

(** *** The counters *)

Lemma count_skipWith_same r st :
  count r (skippedSummary (skipWith r st))
  = (count r (skippedSummary st) + 1)%nat.
Proof.
  unfold count, skipWith. simpl. rewrite lookup_insert_eq. reflexivity.
Qed.

Lemma count_skipWith_other r r' st :
  r <> r' ->
  count r' (skippedSummary (skipWith r st)) = count r' (skippedSummary st).
Proof.
  intros H. unfold count, skipWith. simpl.
  rewrite lookup_insert_ne by exact H. reflexivity.
Qed.

Lemma count_initial r : count r (skippedSummary initial) = 0%nat.
Proof.
  unfold count, initial. cbn [skippedSummary]. rewrite lookup_empty.
  reflexivity.
Qed.

Lemma totalSkipped_insert r (m : gmap string nat) :
  totalSkipped (<[r := (default 0%nat (m !! r) + 1)%nat]> m)
  = S (totalSkipped m).
Proof.
  unfold totalSkipped.
  assert (Hcomm : forall (m' : gmap string nat) (j1 j2 : string)
                         (z1 z2 y : nat),
             j1 <> j2 -> m' !! j1 = Some z1 -> m' !! j2 = Some z2 ->
             (z1 + (z2 + y) = z2 + (z1 + y))%nat) by (intros; lia).
  destruct (m !! r) as [v |] eqn:E; simpl.
  - rewrite <- insert_delete_eq.
    rewrite map_fold_insert_L; [| apply Hcomm | apply lookup_delete_eq].
    rewrite (map_fold_delete_L _ _ r v m); [lia | apply Hcomm | exact E].
  - rewrite map_fold_insert_L; [lia | apply Hcomm | exact E].
Qed.

Lemma totalSkipped_skipWith r st :
  totalSkipped (skippedSummary (skipWith r st))
  = S (totalSkipped (skippedSummary st)).
Proof. apply totalSkipped_insert. Qed.

Lemma push_inj d d' st : push d st = push d' st -> d = d'.
Proof.
  intros H. apply (f_equal rescheduled) in H. simpl in H.
  apply app_inj_tail in H as [_ H]. exact H.
Qed.

Lemma skipWith_not_push r d st : skipWith r st <> push d st.
Proof.
  intros H. apply (f_equal (fun s => List.length (rescheduled s))) in H.
  simpl in H. rewrite length_app in H. simpl in H. lia.
Qed.

(** *** The labels are distinct *)

Lemma reasonThreshold_text T :
  reasonThreshold T
  = "deadline within threshold (< " ++ numToString (Some T) ++ " days)".
Proof. reflexivity. Qed.

Lemma labels_distinct T :
  reasonStatus <> reasonNoDeadline /\ reasonStatus <> reasonToday
  /\ reasonStatus <> reasonThreshold T /\ reasonStatus <> reasonNoMove
  /\ reasonNoDeadline <> reasonToday /\ reasonNoDeadline <> reasonThreshold T
  /\ reasonNoDeadline <> reasonNoMove /\ reasonToday <> reasonThreshold T
  /\ reasonToday <> reasonNoMove /\ reasonThreshold T <> reasonNoMove.
Proof. repeat split; discriminate. Qed.

(** *** The stages of the loop body *)

Section Body.
Variable LocalTZA : Z -> Z.
Variables T B : Z.
Variable today : Date.
Variable todayStr : string.

Lemma truthy_Some s : truthy (Some s) = true <-> s <> "".
Proof.
  unfold truthy. destruct (String.eqb_spec s ""); simpl; split; congruence.
Qed.

Lemma body_status st todo :
  status todo <> "open" ->
  loopBody LocalTZA T B today todayStr st todo = skipWith reasonStatus st.
Proof.
  intros H. unfold loopBody.
  apply String.eqb_neq in H. rewrite H. reflexivity.
Qed.

Lemma body_noDeadline st todo :
  status todo = "open" -> truthy (dueDate todo) = false ->
  loopBody LocalTZA T B today todayStr st todo = skipWith reasonNoDeadline st.
Proof.
  intros Ho Hd. unfold loopBody. rewrite Ho, String.eqb_refl. cbn [negb].
  destruct (dueDate todo) as [due |]; [| reflexivity].
  rewrite Hd. reflexivity.
Qed.

Lemma body_today st todo due :
  status todo = "open" -> dueDate todo = Some due -> due <> "" ->
  scheduledToday todayStr todo = true ->
  loopBody LocalTZA T B today todayStr st todo = skipWith reasonToday st.
Proof.
  intros Ho Hd Hne Hs. unfold loopBody.
  rewrite Ho, String.eqb_refl, Hd. apply truthy_Some in Hne.
  rewrite Hne. cbn [negb]. rewrite Hs. reflexivity.
Qed.

Lemma body_threshold st todo due :
  status todo = "open" -> dueDate todo = Some due -> due <> "" ->
  scheduledToday todayStr todo = false ->
  ltb (daysBetween LocalTZA today (parseDateOnly due)) (Some T) = true ->
  loopBody LocalTZA T B today todayStr st todo
  = skipWith (reasonThreshold T) st.
Proof.
  intros Ho Hd Hne Hs Ht. unfold loopBody.
  rewrite Ho, String.eqb_refl, Hd. apply truthy_Some in Hne.
  rewrite Hne. cbn [negb]. rewrite Hs, Ht. reflexivity.
Qed.

Lemma body_noMove st todo due :
  status todo = "open" -> dueDate todo = Some due -> due <> "" ->
  scheduledToday todayStr todo = false ->
  ltb (daysBetween LocalTZA today (parseDateOnly due)) (Some T) = false ->
  leb (getTime LocalTZA (newWhenDate B (parseDateOnly due)))
      (getTime LocalTZA today) = true ->
  loopBody LocalTZA T B today todayStr st todo = skipWith reasonNoMove st.
Proof.
  intros Ho Hd Hne Hs Ht Hg. unfold loopBody.
  rewrite Ho, String.eqb_refl, Hd. apply truthy_Some in Hne.
  rewrite Hne. cbn [negb]. rewrite Hs, Ht, Hg. reflexivity.
Qed.

Lemma body_push st todo due :
  status todo = "open" -> dueDate todo = Some due -> due <> "" ->
  scheduledToday todayStr todo = false ->
  ltb (daysBetween LocalTZA today (parseDateOnly due)) (Some T) = false ->
  leb (getTime LocalTZA (newWhenDate B (parseDateOnly due)))
      (getTime LocalTZA today) = false ->
  loopBody LocalTZA T B today todayStr st todo
  = push {| rd_id := todo_id todo;
            rd_name := todo_name todo;
            oldWhen :=
              match activationDate todo with
              | Some a =>
                  if truthy (Some a)
                  then Some (formatDateLocal (parseDateOnly a))
                  else None
              | None => None
              end;
            newWhen := formatDateLocal (newWhenDate B (parseDateOnly due));
            rd_dueDate := slice 0 10 due;
            daysUntilDue := daysBetween LocalTZA today (parseDateOnly due) |}
         st.
Proof.
  intros Ho Hd Hne Hs Ht Hg. unfold loopBody.
  rewrite Ho, String.eqb_refl, Hd. apply truthy_Some in Hne.
  rewrite Hne. cbn [negb]. rewrite Hs, Ht, Hg. reflexivity.
Qed.

(** Every turn of the loop is a skip or a push. *)
Lemma body_outcome st todo :
  (exists r, loopBody LocalTZA T B today todayStr st todo = skipWith r st)
  \/ (exists d, loopBody LocalTZA T B today todayStr st todo = push d st).
Proof.
  unfold loopBody.
  repeat match goal with
         | |- context [if ?c then _ else _] => destruct c
         | |- context [match dueDate todo with _ => _ end] =>
             destruct (dueDate todo)
         end; eauto.
Qed.

Lemma skipWith_inj r r' st : skipWith r st = skipWith r' st -> r = r'.
Proof.
  intros H. destruct (String.eqb_spec r r') as [-> | Hne]; [reflexivity |].
  apply (f_equal (fun s => count r (skippedSummary s))) in H.
  rewrite count_skipWith_same, (count_skipWith_other r' r) in H
    by congruence.
  lia.
Qed.

(** A decision is pushed only at the end of the chain of filters. *)
Lemma body_push_inv st todo d :
  loopBody LocalTZA T B today todayStr st todo = push d st ->
  exists due,
    status todo = "open" /\ dueDate todo = Some due /\ due <> ""
    /\ scheduledToday todayStr todo = false
    /\ ltb (daysBetween LocalTZA today (parseDateOnly due)) (Some T) = false
    /\ leb (getTime LocalTZA (newWhenDate B (parseDateOnly due)))
           (getTime LocalTZA today) = false
    /\ newWhen d = formatDateLocal (newWhenDate B (parseDateOnly due))
    /\ daysUntilDue d = daysBetween LocalTZA today (parseDateOnly due)
    /\ rd_dueDate d = slice 0 10 due
    /\ rd_id d = todo_id todo /\ rd_name d = todo_name todo
    /\ oldWhen d
       = match activationDate todo with
         | Some a =>
             if truthy (Some a)
             then Some (formatDateLocal (parseDateOnly a))
             else None
         | None => None
         end.
Proof.
  intros H.
  destruct (String.eqb_spec (status todo) "open") as [Ho | Ho];
    [| rewrite (body_status st todo Ho) in H;
       destruct (skipWith_not_push _ _ _ H)].
  destruct (truthy (dueDate todo)) eqn:Hd;
    [| rewrite (body_noDeadline st todo Ho Hd) in H;
       destruct (skipWith_not_push _ _ _ H)].
  destruct (dueDate todo) as [due |] eqn:Ed; [| discriminate].
  apply truthy_Some in Hd. exists due.
  destruct (scheduledToday todayStr todo) eqn:Hs;
    [rewrite (body_today st todo due Ho Ed Hd Hs) in H;
     destruct (skipWith_not_push _ _ _ H) |].
  destruct (ltb (daysBetween LocalTZA today (parseDateOnly due)) (Some T))
    eqn:Ht;
    [rewrite (body_threshold st todo due Ho Ed Hd Hs Ht) in H;
     destruct (skipWith_not_push _ _ _ H) |].
  destruct (leb (getTime LocalTZA (newWhenDate B (parseDateOnly due)))
                (getTime LocalTZA today)) eqn:Hg;
    [rewrite (body_noMove st todo due Ho Ed Hd Hs Ht Hg) in H;
     destruct (skipWith_not_push _ _ _ H) |].
  rewrite (body_push st todo due Ho Ed Hd Hs Ht Hg) in H.
  apply push_inj in H. subst d. repeat split; auto.
Qed.

(** ... and which one does not depend on what was counted before. *)
Lemma body_uniform todo :
  (exists r, forall st,
      loopBody LocalTZA T B today todayStr st todo = skipWith r st)
  \/ (exists d, forall st,
         loopBody LocalTZA T B today todayStr st todo = push d st).
Proof.
  unfold loopBody.
  repeat match goal with
         | |- context [if ?c then _ else _] => destruct c
         | |- context [match dueDate todo with _ => _ end] =>
             destruct (dueDate todo)
         end; eauto.
Qed.


(** *** The loop *)

Lemma run_state todos :
  forall st,
    rescheduled (fold_left (loopBody LocalTZA T B today todayStr) todos st)
    = (rescheduled st
       ++ rescheduled
            (fold_left (loopBody LocalTZA T B today todayStr) todos initial))
      %list
    /\ forall r,
         count r (skippedSummary
                    (fold_left (loopBody LocalTZA T B today todayStr)
                               todos st))
         = (count r (skippedSummary st)
            + count r (skippedSummary
                         (fold_left (loopBody LocalTZA T B today todayStr)
                                    todos initial)))%nat.
Proof.
  induction todos as [| todo todos IH]; intros st.
  - simpl. rewrite app_nil_r. split; [reflexivity |].
    intros r. rewrite count_initial. lia.
  - cbn [fold_left].
    destruct (body_uniform todo) as [[r Hb] | [d Hb]]; rewrite !Hb.
    + destruct (IH (skipWith r st)) as [IHr IHc].
      destruct (IH (skipWith r initial)) as [IHr0 IHc0].
      rewrite IHr, IHr0. split; [reflexivity |].
      intros r'. rewrite IHc, IHc0.
      destruct (String.eqb_spec r r') as [-> | Hne].
      * rewrite !count_skipWith_same, count_initial. lia.
      * rewrite !count_skipWith_other by exact Hne.
        rewrite count_initial. lia.
    + destruct (IH (push d st)) as [IHr IHc].
      destruct (IH (push d initial)) as [IHr0 IHc0].
      rewrite IHr, IHr0. split; [simpl; rewrite <- app_assoc; reflexivity |].
      intros r'. rewrite IHc, IHc0. cbn [push skippedSummary].
      rewrite count_initial. lia.
Qed.

Lemma run_conserves todos :
  forall st,
    (List.length
       (rescheduled (fold_left (loopBody LocalTZA T B today todayStr)
                               todos st))
     + totalSkipped
         (skippedSummary (fold_left (loopBody LocalTZA T B today todayStr)
                                    todos st)))%nat
    = (List.length (rescheduled st) + totalSkipped (skippedSummary st)
       + List.length todos)%nat.
Proof.
  induction todos as [| todo todos IH]; intros st.
  - simpl. lia.
  - cbn [fold_left]. rewrite IH.
    destruct (body_outcome st todo)
      as [[r Hb] | [d Hb]]; rewrite Hb.
    + rewrite totalSkipped_skipWith. simpl. lia.
    + simpl. rewrite length_app. simpl. lia.
Qed.

End Body.

(** The comparison of the guard is the order of the days, in a zone whose
    days increase. *)
Lemma guard_days LocalTZA a b :
  zoneDayIncreasing LocalTZA ->
  leb (getTime LocalTZA (midnight a)) (getTime LocalTZA (midnight b))
  = (a <=? b)%Z.
Proof.
  intros Hz. unfold midnight, getTime, leb.
  destruct (Z.leb_spec a b) as [Hab | Hab].
  - apply Z.leb_le. destruct (Z.eq_dec a b) as [-> | Hne]; [lia |].
    assert (MakeDate a 0 + msPerDay <= MakeDate b 0)%Z
      by (unfold MakeDate, msPerDay; lia).
    pose proof (Hz _ _ H). lia.
  - apply Z.leb_gt.
    assert (MakeDate b 0 + msPerDay <= MakeDate a 0)%Z
      by (unfold MakeDate, msPerDay; lia).
    pose proof (Hz _ _ H). lia.
Qed.

Lemma fixedZone_increasing offset : zoneDayIncreasing (fixedZone offset).
Proof. intros a b H. unfold fixedZone, msPerDay in *. lia. Qed.

Lemma usEastern2026_increasing : zoneDayIncreasing usEastern2026.
Proof.
  intros a b H. unfold usEastern2026, msPerDay in *.
  repeat match goal with
         | |- context [if ?c then _ else _] => destruct c
         end; lia.
Qed.

(** The date an eligible to-do moves to is the midnight [bufferDays] days
    before the deadline. *)
Lemma newWhenDate_midnight B n : newWhenDate B (midnight n) = midnight (n - B).
Proof.
  unfold newWhenDate, midnight, setDate, getDate, sub.
  unfold YearFromTime, MonthFromTime, DateFromTime.
  rewrite Day_MakeDate, TimeWithinDay_MakeDate, MakeDay_shift, MakeDay_fields.
  reflexivity.
Qed.

End RescheduleFacts.
(** ** The URL builder *)

Module ThingsURLFacts.
Import JS ThingsURL JSFacts.

Lemma encodeURIComponent_nonempty s : s <> "" -> encodeURIComponent s <> "".
Proof.
  destruct s as [| c s]; [congruence |]. intros _. simpl.
  unfold percentEncode. destruct (isUnreserved c); discriminate.
Qed.

Lemma kept_false key value :
  kept (key, value) = false <-> value = None \/ value = Some (PString "").
Proof.
  unfold kept. simpl. destruct value as [[s | b] |]; simpl.
  - destruct (String.eqb_spec s ""); simpl; split.
    + intros _. right. congruence.
    + reflexivity.
    + discriminate.
    + intros [H | H]; congruence.
  - split; [discriminate | intros [H | H]; discriminate].
  - split; [auto | reflexivity].
Qed.

(** What is kept has a text that is not empty. *)
Lemma kept_valueText key value :
  kept (key, value) = true ->
  valueText value <> "" /\ value <> None /\ value <> Some (PString "").
Proof.
  unfold kept. simpl. destruct value as [[s | b] |]; simpl.
  - intros H. apply negb_true_iff, String.eqb_neq in H.
    split; [apply encodeURIComponent_nonempty; exact H |].
    split; congruence.
  - intros _. split; [destruct b; discriminate | split; discriminate].
  - discriminate.
Qed.

Lemma buildURL_bare command params :
  filteredParams params = [] ->
  buildURL command params = THINGS_SCHEME ++ command.
Proof. intros H. unfold buildURL. rewrite H. reflexivity. Qed.

Lemma buildURL_query command params :
  filteredParams params <> [] ->
  buildURL command params
  = THINGS_SCHEME ++ command ++ "?"
    ++ String.concat "&" (map serialize (filteredParams params)).
Proof.
  intros H. unfold buildURL.
  destruct (filteredParams params); [congruence | reflexivity].
Qed.

Lemma buildURL_drop command before key value after :
  kept (key, value) = false ->
  buildURL command (before ++ (key, value) :: after)%list
  = buildURL command (before ++ after)%list.
Proof.
  intros H. unfold buildURL, filteredParams.
  rewrite !List.filter_app. simpl. rewrite H. reflexivity.
Qed.

Lemma buildURL_extra command key later earlier :
  extra key later earlier -> buildURL command later = buildURL command earlier.
Proof.
  intros (before & value & after & Hk & -> & ->).
  apply buildURL_drop. exact Hk.
Qed.

(** *** Assignments *)

Lemma assign_keys key value obj x :
  In x (map fst (assign key value obj)) -> x = key \/ In x (map fst obj).
Proof.
  induction obj as [| [k v] obj IH]; simpl.
  - intros [H | []]. left. congruence.
  - destruct (String.eqb_spec k key) as [-> | Hne]; simpl.
    + intros [H | H]; auto.
    + intros [H | H]; [auto |]. destruct (IH H); auto.
Qed.

Lemma assign_fresh key value obj :
  ~ In key (map fst obj) -> assign key value obj = (obj ++ [(key, value)])%list.
Proof.
  induction obj as [| [k v] obj IH]; simpl; [reflexivity |].
  intros H. destruct (String.eqb_spec k key) as [-> | Hne].
  - destruct H. left. reflexivity.
  - f_equal. apply IH. intros Hin. apply H. right. exact Hin.
Qed.

Lemma extra_fresh key value obj :
  kept (key, value) = false -> ~ In key (map fst obj) ->
  extra key (assign key value obj) obj.
Proof.
  intros Hk Hf. exists obj, value, []. rewrite app_nil_r.
  split; [exact Hk |]. split; [apply assign_fresh; exact Hf | reflexivity].
Qed.

Lemma extra_assign key k' v' later earlier :
  key <> k' -> extra key later earlier ->
  extra key (assign k' v' later) (assign k' v' earlier).
Proof.
  intros Hne (before & value & after & Hk & -> & ->).
  induction before as [| [k0 v0] before IH]; simpl.
  - destruct (String.eqb_spec key k') as [E | _]; [congruence |].
    exists [], value, (assign k' v' after). auto.
  - destruct (String.eqb_spec k0 k') as [-> | Hne0].
    + exists ((k', v') :: before), value, after. auto.
    + destruct IH as (b' & value' & a' & Hk' & E1 & E2).
      exists ((k0, v0) :: b'), value', a'. simpl. rewrite E1, E2. auto.
Qed.

Lemma extra_setIfTruthy key k' v later earlier :
  key <> k' -> extra key later earlier ->
  extra key (setIfTruthy k' v later) (setIfTruthy k' v earlier).
Proof.
  intros Hne H. unfold setIfTruthy. destruct v as [s |]; [| exact H].
  destruct (truthy (Some s)); [apply extra_assign; assumption | exact H].
Qed.

Lemma extra_setIfDefined key k' v later earlier :
  key <> k' -> extra key later earlier ->
  extra key (setIfDefined k' v later) (setIfDefined k' v earlier).
Proof.
  intros Hne H. unfold setIfDefined. destruct v as [s |]; [| exact H].
  apply extra_assign; assumption.
Qed.

Lemma extra_setFlag key k' v later earlier :
  key <> k' -> extra key later earlier ->
  extra key (setFlag k' v later) (setFlag k' v earlier).
Proof.
  intros Hne H. unfold setFlag. destruct v as [b |]; [| exact H].
  apply extra_assign; assumption.
Qed.

Lemma extra_setLines key k' v later earlier :
  key <> k' -> extra key later earlier ->
  extra key (setLines k' v later) (setLines k' v earlier).
Proof.
  intros Hne H. unfold setLines. destruct v as [s |]; [| exact H].
  destruct (truthy (Some s)); [apply extra_assign; assumption | exact H].
Qed.

Lemma setIfTruthy_keys key v obj x :
  In x (map fst (setIfTruthy key v obj)) -> x = key \/ In x (map fst obj).
Proof.
  unfold setIfTruthy. destruct v as [s |]; [| auto].
  destruct (truthy (Some s)); [apply assign_keys | auto].
Qed.

Lemma setIfDefined_keys key v obj x :
  In x (map fst (setIfDefined key v obj)) -> x = key \/ In x (map fst obj).
Proof.
  unfold setIfDefined. destruct v as [s |]; [apply assign_keys | auto].
Qed.

(** Replacing a line feed by a line feed changes nothing. *)
Lemma replaceAll_LF s : replaceAll LF (String LF "") s = s.
Proof.
  induction s as [| c s IH]; simpl; [reflexivity |].
  destruct (Ascii.eqb_spec c LF) as [-> | _]; simpl; rewrite IH; reflexivity.
Qed.

Ltac step_extra :=
  first [ apply extra_setIfTruthy | apply extra_setIfDefined
        | apply extra_setFlag | apply extra_setLines ];
  [discriminate |].

Ltac fresh_key H :=
  repeat first
    [ apply setIfTruthy_keys in H as [H | H]; [discriminate H |]
    | apply setIfDefined_keys in H as [H | H]; [discriminate H |]
    | apply assign_keys in H as [H | H]; [discriminate H |] ];
  exact H.

(** An empty string for the notes of an update is as good as no notes. *)
Lemma updateTodo_notes_empty p :
  buildUpdateTodoURL (ut_withNotes (Some "") p)
  = buildUpdateTodoURL (ut_withNotes None p).
Proof.
  unfold buildUpdateTodoURL. apply (buildURL_extra _ "notes").
  unfold updateTodoParams.
  cbn [ut_withNotes ut_auth_token ut_id ut_title ut_notes
    ut_prepend_notes ut_append_notes ut_when ut_deadline ut_tags ut_add_tags
    ut_checklist_items ut_prepend_checklist_items ut_append_checklist_items
    ut_list_id ut_list ut_heading_id ut_heading ut_completed ut_canceled
    ut_reveal ut_duplicate ut_creation_date ut_completion_date].
  repeat step_extra.
  cbn [setIfDefined]. apply extra_fresh; [reflexivity |].
  intros H. fresh_key H.
Qed.

Lemma updateTodo_deadline_empty p :
  buildUpdateTodoURL (ut_withDeadline (Some "") p)
  = buildUpdateTodoURL (ut_withDeadline None p).
Proof.
  unfold buildUpdateTodoURL. apply (buildURL_extra _ "deadline").
  unfold updateTodoParams.
  cbn [ut_withDeadline ut_auth_token ut_id ut_title ut_notes
    ut_prepend_notes ut_append_notes ut_when ut_deadline ut_tags ut_add_tags
    ut_checklist_items ut_prepend_checklist_items ut_append_checklist_items
    ut_list_id ut_list ut_heading_id ut_heading ut_completed ut_canceled
    ut_reveal ut_duplicate ut_creation_date ut_completion_date].
  repeat step_extra.
  cbn [setIfDefined]. apply extra_fresh; [reflexivity |].
  intros H. fresh_key H.
Qed.

Lemma updateProject_notes_empty p :
  buildUpdateProjectURL (up_withNotes (Some "") p)
  = buildUpdateProjectURL (up_withNotes None p).
Proof.
  unfold buildUpdateProjectURL. apply (buildURL_extra _ "notes").
  unfold updateProjectParams.
  cbn [up_withNotes up_auth_token up_id up_title up_notes
    up_prepend_notes up_append_notes up_when up_deadline up_tags up_add_tags
    up_area_id up_area up_completed up_canceled
    up_reveal up_duplicate up_creation_date up_completion_date].
  repeat step_extra.
  cbn [setIfDefined]. apply extra_fresh; [reflexivity |].
  intros H. fresh_key H.
Qed.

Lemma updateProject_deadline_empty p :
  buildUpdateProjectURL (up_withDeadline (Some "") p)
  = buildUpdateProjectURL (up_withDeadline None p).
Proof.
  unfold buildUpdateProjectURL. apply (buildURL_extra _ "deadline").
  unfold updateProjectParams.
  cbn [up_withDeadline up_auth_token up_id up_title up_notes
    up_prepend_notes up_append_notes up_when up_deadline up_tags up_add_tags
    up_area_id up_area up_completed up_canceled
    up_reveal up_duplicate up_creation_date up_completion_date].
  repeat step_extra.
  cbn [setIfDefined]. apply extra_fresh; [reflexivity |].
  intros H. fresh_key H.
Qed.

End ThingsURLFacts.
(** ** [Date] objects by their time value *)

Module HostFacts.
Import JS Enum Calendar DateUtil CalendarFacts JSFacts.
Import HostDate HostDateUtil.
Local Open Scope Z_scope.

Lemma TimeClip_inside t : Z.abs t <= maxTime -> TimeClip t = DateOf t.
Proof.
  intros H. unfold TimeClip. apply Z.leb_le in H. rewrite H. reflexivity.
Qed.

Lemma TimeClip_outside t : maxTime < Z.abs t -> TimeClip t = InvalidDate.
Proof.
  intros H. unfold TimeClip. apply Z.leb_gt in H. rewrite H. reflexivity.
Qed.

Section Zone.
Variable zone : Zone.

Lemma atMidnight_inside n :
  inDateRange zone (MakeDate n 0) ->
  atMidnight zone n = DateOf (UTC zone (MakeDate n 0)).
Proof. intros H. apply TimeClip_inside. exact H. Qed.


(** A date that was built is the midnight of a day, read by the zone. *)
Lemma newDate_atMidnight y m d :
  newDate zone (Some y) (Some m) (Some d)
  = atMidnight zone
      (MakeDay (if (0 <=? y) && (y <=? 99) then 1900 + y else y) m d).
Proof. reflexivity. Qed.

(** What the wall-clock reading parses to a midnight, this reading parses
    to the midnight of the same day. *)
Lemma parseDateOnly_atMidnight s n :
  DateUtil.parseDateOnly s = JSDate.midnight n ->
  parseDateOnly zone s = atMidnight zone n.
Proof.
  unfold DateUtil.parseDateOnly, parseDateOnly.
  destruct (item (map Number (split "-" (slice 0 10 s))) 0) as [y |];
    [| discriminate].
  destruct (sub (item (map Number (split "-" (slice 0 10 s))) 1) (Some 1))
    as [m |]; [| discriminate].
  destruct (item (map Number (split "-" (slice 0 10 s))) 2) as [d |];
    [| discriminate].
  rewrite DateFacts.newDate_midnight, newDate_atMidnight. intros H.
  apply DateFacts.midnight_inj in H. rewrite H. reflexivity.
Qed.

(** Only the first ten characters are read. *)
Lemma host_parseDateOnly_slice s :
  parseDateOnly zone (slice 0 10 s) = parseDateOnly zone s.
Proof. unfold parseDateOnly. rewrite slice_slice. reflexivity. Qed.

(** A [Date] prints the day of its local time. *)
Lemma formatDateLocal_DateOf tv :
  formatDateLocal zone (DateOf tv)
  = formatDay (Day (LocalTime zone tv)).
Proof. rewrite DateFacts.formatDay_fields. reflexivity. Qed.

Lemma formatDateLocal_InvalidDate :
  formatDateLocal zone InvalidDate = "NaN-NaN-NaN"%string.
Proof. reflexivity. Qed.

(** A time of a day that the clock shows prints as that day. *)
Lemma formatDateLocal_shownAt n time :
  shownAt zone n time ->
  formatDateLocal zone (TimeClip (UTC zone (MakeDate n time)))
  = formatDay n.
Proof.
  intros [Hr Hd]. rewrite TimeClip_inside by exact Hr.
  rewrite formatDateLocal_DateOf, Hd. reflexivity.
Qed.

Lemma formatDateLocal_atMidnight n :
  dayShown zone n ->
  formatDateLocal zone (atMidnight zone n) = formatDay n.
Proof. apply formatDateLocal_shownAt. Qed.


(** Two days that the clock shows have different midnights. *)
Lemma atMidnight_inj a b :
  dayShown zone a -> dayShown zone b ->
  atMidnight zone a = atMidnight zone b -> a = b.
Proof.
  intros [Ra Da] [Rb Db] H.
  rewrite (atMidnight_inside a Ra), (atMidnight_inside b Rb) in H.
  injection H as H. rewrite <- Da, <- Db, H. reflexivity.
Qed.

(** *** Round trip *)

Lemma host_roundtrip_isoDate y m d :
  1000 <= y <= 9999 -> validDate y m d ->
  dayShown zone (MakeDay y (m - 1) d) ->
  formatDateLocal zone (parseDateOnly zone (isoDate y m d)) = isoDate y m d.
Proof.
  intros Hy Hv Hs. pose proof Hv as [Hm Hd].
  assert (Hd31 : 1 <= d <= 31).
  { pose proof (DaysInMonth_range y m). lia. }
  rewrite (parseDateOnly_atMidnight (isoDate y m d) (MakeDay y (m - 1) d))
    by (apply DateFacts.parseDateOnly_isoDate; lia).
  rewrite formatDateLocal_atMidnight by exact Hs.
  rewrite <- (DateFacts.roundtrip_isoDate y m d Hy Hv).
  rewrite DateFacts.parseDateOnly_isoDate by lia. reflexivity.
Qed.

End Zone.

(** *** Zones with one offset *)



(** *** Zones with a transition *)


End HostFacts.

(** ** The reschedule engine, on [Date] objects by their time value *)

Module HostRescheduleFacts.
Import JS Calendar DateUtil CalendarFacts JSFacts.
Import HostDate HostDateUtil Reschedule HostReschedule.
Import RescheduleFacts HostFacts.
Local Open Scope Z_scope.

Section Body.
Variable zone : Zone.
Variables T B : Z.
Variable today : Date.
Variable todayStr : string.

Local Abbreviation body := (loopBody zone T B today todayStr).

Lemma host_body_noMove st todo due :
  status todo = "open" -> dueDate todo = Some due -> due <> ""%string ->
  scheduledToday zone todayStr todo = false ->
  ltb (daysBetween today (parseDateOnly zone due)) (Some T) = false ->
  leb (getTime (newWhenDate zone B (parseDateOnly zone due)))
      (getTime today) = true ->
  body st todo = skipWith reasonNoMove st.
Proof.
  intros Ho Hd Hne Hs Ht Hg. unfold loopBody.
  rewrite Ho, String.eqb_refl, Hd. apply truthy_Some in Hne.
  rewrite Hne. cbn [negb]. rewrite Hs, Ht, Hg. reflexivity.
Qed.

Lemma host_body_push st todo due :
  status todo = "open" -> dueDate todo = Some due -> due <> ""%string ->
  scheduledToday zone todayStr todo = false ->
  ltb (daysBetween today (parseDateOnly zone due)) (Some T) = false ->
  leb (getTime (newWhenDate zone B (parseDateOnly zone due)))
      (getTime today) = false ->
  body st todo
  = push {| rd_id := todo_id todo;
            rd_name := todo_name todo;
            oldWhen :=
              match activationDate todo with
              | Some a =>
                  if truthy (Some a)
                  then Some (formatDateLocal zone (parseDateOnly zone a))
                  else None
              | None => None
              end;
            newWhen :=
              formatDateLocal zone
                (newWhenDate zone B (parseDateOnly zone due));
            rd_dueDate := slice 0 10 due;
            daysUntilDue := daysBetween today (parseDateOnly zone due) |}
         st.
Proof.
  intros Ho Hd Hne Hs Ht Hg. unfold loopBody.
  rewrite Ho, String.eqb_refl, Hd. apply truthy_Some in Hne.
  rewrite Hne. cbn [negb]. rewrite Hs, Ht, Hg. reflexivity.
Qed.



End Body.

Section Zone.
Variable zone : Zone.

(** The date an eligible to-do moves to is [bufferDays] days before the
    deadline, at the time of day at which the [Date] of the deadline
    stands. *)
Lemma newWhenDate_shown B n :
  dayShown zone n ->
  newWhenDate zone B (atMidnight zone n)
  = TimeClip (UTC zone (MakeDate (n - B) (standsAt zone n))).
Proof.
  intros [Hr Hd]. rewrite (atMidnight_inside zone n Hr).
  unfold newWhenDate, setDate, getDate, sub, standsAt.
  unfold YearFromTime, MonthFromTime, DateFromTime.
  rewrite Hd, MakeDay_shift, MakeDay_fields. reflexivity.
Qed.



End Zone.

End HostRescheduleFacts.
(** ** The claims about the engine *)

Module EngineSpec.
Import JS Calendar JSDate DateUtil Reschedule.
Import CalendarFacts JSFacts DateFacts RescheduleFacts.

(** The day numbers of 2026-03-07 and of 2026-02-28, the day the
    repository's tests take for today. *)
Example exact7_parse :
  parseDateOnly "2026-03-07T00:00:00.000Z" = midnight 20519
  /\ formatDay 20512 = "2026-02-28".
Proof. split; reflexivity. Qed.

(** C1 and C3 depend on the range of [Date] and on the clock of the
    host; they are stated in [HostEngineSpec], on [Date] objects by their
    time value. *)

(** The subtraction rolls over the ends of months and years, leap days
    included. *)
Example newWhen_rolls_over_boundaries :
  newWhenDate 3 (parseDateOnly "2026-03-02T00:00:00.000Z") = midnight 20511
  /\ formatDay 20511 = "2026-02-27"
  /\ formatDateLocal (newWhenDate 3 (parseDateOnly "2026-01-02"))
     = "2025-12-30"
  /\ formatDateLocal (newWhenDate 1 (parseDateOnly "2024-03-01"))
     = "2024-02-29"
  /\ formatDateLocal (newWhenDate 1 (parseDateOnly "2100-03-01"))
     = "2100-02-28"
  /\ formatDateLocal (newWhenDate 366 (parseDateOnly "2025-01-01"))
     = "2024-01-01".
Proof. repeat split; reflexivity. Qed.

(** C2. The threshold filter compares strictly.  For an open to-do with a
    deadline that is not scheduled for today, with [daysUntilDue] the value
    of [daysBetween] from today to the day of the deadline: below the
    threshold the to-do is skipped under the label that carries the
    threshold; from the threshold on it is eligible, that is, it goes on
    to the no-op guard and is never counted under that label; exactly at
    the threshold it is eligible, one day below it is not. *)
Theorem threshold_filter_is_strict
    (LocalTZA : Z -> Z) (T B : Z) (today : Date) (todayStr : string)
    (st : State) (todo : TodoRecord) (due : string) :
  status todo = "open" ->
  dueDate todo = Some due -> due <> "" ->
  scheduledToday todayStr todo = false ->
  (forall k,
      daysBetween LocalTZA today (parseDateOnly due) = Some k ->
      (k < T)%Z ->
      loopBody LocalTZA T B today todayStr st todo
      = skipWith (reasonThreshold T) st)
  /\ (forall k,
        daysBetween LocalTZA today (parseDateOnly due) = Some k ->
        (T <= k)%Z ->
        (loopBody LocalTZA T B today todayStr st todo
         = skipWith reasonNoMove st
         \/ exists d,
              loopBody LocalTZA T B today todayStr st todo = push d st
              /\ daysUntilDue d = Some k)
        /\ loopBody LocalTZA T B today todayStr st todo
           <> skipWith (reasonThreshold T) st)
  /\ (daysBetween LocalTZA today (parseDateOnly due) = Some T ->
      loopBody LocalTZA T B today todayStr st todo
      <> skipWith (reasonThreshold T) st)
  /\ (daysBetween LocalTZA today (parseDateOnly due) = Some (T - 1)%Z ->
      loopBody LocalTZA T B today todayStr st todo
      = skipWith (reasonThreshold T) st)
  /\ reasonThreshold T
     = "deadline within threshold (< " ++ numToString (Some T) ++ " days)".
Proof.
  intros Ho Hd Hne Hs.
  assert (Hlow : forall k,
             daysBetween LocalTZA today (parseDateOnly due) = Some k ->
             (k < T)%Z ->
             loopBody LocalTZA T B today todayStr st todo
             = skipWith (reasonThreshold T) st).
  { intros k Hk Hlt.
    apply (body_threshold LocalTZA T B today todayStr st todo due Ho Hd Hne Hs).
    rewrite Hk. apply Z.ltb_lt. exact Hlt. }
  assert (Hhigh : forall k,
             daysBetween LocalTZA today (parseDateOnly due) = Some k ->
             (T <= k)%Z ->
             (loopBody LocalTZA T B today todayStr st todo
              = skipWith reasonNoMove st
              \/ exists d,
                   loopBody LocalTZA T B today todayStr st todo = push d st
                   /\ daysUntilDue d = Some k)
             /\ loopBody LocalTZA T B today todayStr st todo
                <> skipWith (reasonThreshold T) st).
  { intros k Hk Hge.
    assert (Ht : ltb (daysBetween LocalTZA today (parseDateOnly due)) (Some T)
                 = false) by (rewrite Hk; apply Z.ltb_ge; exact Hge).
    destruct (leb (getTime LocalTZA (newWhenDate B (parseDateOnly due)))
                  (getTime LocalTZA today)) eqn:Hg.
    - rewrite (body_noMove LocalTZA T B today todayStr st todo due
                 Ho Hd Hne Hs Ht Hg).
      split; [left; reflexivity |].
      intros H. apply skipWith_inj in H.
      destruct (labels_distinct T) as (_ & _ & _ & _ & _ & _ & _ & _ & _ & HT).
      congruence.
    - rewrite (body_push LocalTZA T B today todayStr st todo due
                 Ho Hd Hne Hs Ht Hg).
      split; [right; eexists; split; [reflexivity | exact Hk] |].
      intros H. symmetry in H. destruct (skipWith_not_push _ _ _ H). }
  split; [exact Hlow |]. split; [exact Hhigh |].
  split; [intros HT; apply (Hhigh T HT); lia |].
  split; [intros HT; apply (Hlow (T - 1)%Z HT); lia | reflexivity].
Qed.

Lemma threshold_witness :
  daysBetween utcZone (midnight 20512)
              (parseDateOnly "2026-03-07T00:00:00.000Z") = Some 7%Z
  /\ loopBody utcZone 7 3 (midnight 20512) "2026-02-28" initial exact7
     <> skipWith (reasonThreshold 7) initial
  /\ daysBetween utcZone (midnight 20512)
                 (parseDateOnly "2026-03-06T00:00:00.000Z") = Some 6%Z
  /\ loopBody utcZone 7 3 (midnight 20512) "2026-02-28" initial under7
     = skipWith "deadline within threshold (< 7 days)" initial.
Proof.
  split; [reflexivity |]. split.
  - apply (threshold_filter_is_strict utcZone 7 3 (midnight 20512)
             "2026-02-28" initial exact7 "2026-03-07T00:00:00.000Z");
      try reflexivity; discriminate.
  - split; [reflexivity |].
    apply (threshold_filter_is_strict utcZone 7 3 (midnight 20512)
             "2026-02-28" initial under7 "2026-03-06T00:00:00.000Z");
      try reflexivity; discriminate.
Defined.

(** The distance the filter compares is the one [daysBetween] measures:
    under US Eastern time a deadline ten days of the calendar away, across
    the start of daylight saving time, counts as nine days (see C6) and is
    kept under a threshold of ten. *)
Example threshold_across_dst :
  loopBody usEastern2026 10 3 (midnight 20512) "2026-02-28" initial dueIn10
  = skipWith "deadline within threshold (< 10 days)" initial
  /\ exists d,
       loopBody utcZone 10 3 (midnight 20512) "2026-02-28" initial dueIn10
       = push d initial
       /\ newWhen d = "2026-03-07" /\ daysUntilDue d = Some 10%Z.
Proof.
  split; [vm_compute; reflexivity |].
  eexists. split; [vm_compute; reflexivity |]. split; reflexivity.
Qed.

(** C4. The filters apply in a fixed order and the first that matches
    decides: status, presence of a deadline, explicit-today protection,
    threshold, no-op guard, and a decision only when none matched.  A turn
    of the loop has exactly one outcome, one more under one label (the
    decisions and the other labels untouched) or one decision more (the
    counters untouched), never both.  A to-do that is not open and has no
    deadline counts under "status is not open", not under "no deadline
    set". *)
Theorem filter_precedence
    (LocalTZA : Z -> Z) (T B : Z) (today : Date) (todayStr : string)
    (st : State) (todo : TodoRecord) :
  ((status todo <> "open"
    /\ loopBody LocalTZA T B today todayStr st todo
       = skipWith "status is not open" st)
   \/ (status todo = "open" /\ truthy (dueDate todo) = false
       /\ loopBody LocalTZA T B today todayStr st todo
          = skipWith "no deadline set" st)
   \/ (exists due,
         status todo = "open" /\ dueDate todo = Some due /\ due <> ""
         /\ ((scheduledToday todayStr todo = true
              /\ loopBody LocalTZA T B today todayStr st todo
                 = skipWith
                     "explicitly scheduled for today (activationDate = today)"
                     st)
             \/ (scheduledToday todayStr todo = false
                 /\ ltb (daysBetween LocalTZA today (parseDateOnly due))
                        (Some T) = true
                 /\ loopBody LocalTZA T B today todayStr st todo
                    = skipWith (reasonThreshold T) st)
             \/ (scheduledToday todayStr todo = false
                 /\ ltb (daysBetween LocalTZA today (parseDateOnly due))
                        (Some T) = false
                 /\ leb (getTime LocalTZA
                           (newWhenDate B (parseDateOnly due)))
                        (getTime LocalTZA today) = true
                 /\ loopBody LocalTZA T B today todayStr st todo
                    = skipWith
                        "computed new date would not move to-do out of Today"
                        st)
             \/ (scheduledToday todayStr todo = false
                 /\ ltb (daysBetween LocalTZA today (parseDateOnly due))
                        (Some T) = false
                 /\ leb (getTime LocalTZA
                           (newWhenDate B (parseDateOnly due)))
                        (getTime LocalTZA today) = false
                 /\ exists d,
                      loopBody LocalTZA T B today todayStr st todo
                      = push d st))))
  /\ (((exists r, loopBody LocalTZA T B today todayStr st todo
                  = skipWith r st)
       /\ ~ (exists d, loopBody LocalTZA T B today todayStr st todo
                       = push d st))
      \/ ((exists d, loopBody LocalTZA T B today todayStr st todo
                     = push d st)
          /\ ~ (exists r, loopBody LocalTZA T B today todayStr st todo
                          = skipWith r st)))
  /\ (forall r,
        rescheduled (skipWith r st) = rescheduled st
        /\ count r (skippedSummary (skipWith r st))
           = (count r (skippedSummary st) + 1)%nat
        /\ forall r', r <> r' ->
             count r' (skippedSummary (skipWith r st))
             = count r' (skippedSummary st))
  /\ (forall d,
        rescheduled (push d st) = (rescheduled st ++ [d])%list
        /\ skippedSummary (push d st) = skippedSummary st)
  /\ (status todo <> "open" -> dueDate todo = None ->
      loopBody LocalTZA T B today todayStr st todo
      = skipWith "status is not open" st
      /\ count "no deadline set"
               (skippedSummary
                  (loopBody LocalTZA T B today todayStr st todo))
         = count "no deadline set" (skippedSummary st)).
Proof.
  split; [| split; [| split; [| split]]].
  - destruct (String.eqb_spec (status todo) "open") as [Ho | Ho];
      [| left; split;
         [exact Ho | apply body_status; exact Ho]].
    right. destruct (truthy (dueDate todo)) eqn:Hd;
      [| left; split; [exact Ho |]; split;
         [reflexivity | apply body_noDeadline; assumption]].
    right. destruct (dueDate todo) as [due |] eqn:Ed; [| discriminate].
    apply truthy_Some in Hd. exists due.
    split; [exact Ho |]. split; [reflexivity |]. split; [exact Hd |].
    destruct (scheduledToday todayStr todo) eqn:Hs;
      [left; split; [reflexivity |];
       apply (body_today LocalTZA T B today todayStr st todo due);
       assumption |].
    right.
    destruct (ltb (daysBetween LocalTZA today (parseDateOnly due)) (Some T))
      eqn:Ht;
      [left; split; [reflexivity |]; split; [reflexivity |];
       apply (body_threshold LocalTZA T B today todayStr st todo due);
       assumption |].
    right.
    destruct (leb (getTime LocalTZA (newWhenDate B (parseDateOnly due)))
                  (getTime LocalTZA today)) eqn:Hg.
    + left. repeat (split; [reflexivity |]).
      apply (body_noMove LocalTZA T B today todayStr st todo due);
        assumption.
    + right. repeat (split; [reflexivity |]). eexists.
      apply (body_push LocalTZA T B today todayStr st todo due);
        assumption.
  - destruct (body_outcome LocalTZA T B today todayStr st todo)
      as [[r Hb] | [d Hb]].
    + left. split; [exists r; exact Hb |].
      intros [d Hd]. rewrite Hb in Hd.
      exact (skipWith_not_push _ _ _ Hd).
    + right. split; [exists d; exact Hb |].
      intros [r Hr]. rewrite Hb in Hr. symmetry in Hr.
      exact (skipWith_not_push _ _ _ Hr).
  - intros r. split; [reflexivity |].
    split; [apply count_skipWith_same |].
    intros r' Hne. apply count_skipWith_other. exact Hne.
  - intros d. split; reflexivity.
  - intros Ho _.
    rewrite (body_status LocalTZA T B today todayStr st todo Ho).
    split; [reflexivity |].
    apply count_skipWith_other. discriminate.
Qed.

Lemma filter_precedence_witness :
  status doneNoDeadline <> "open" /\ dueDate doneNoDeadline = None
  /\ loopBody utcZone 7 3 (midnight 20512) "2026-02-28" initial
              doneNoDeadline
     = skipWith "status is not open" initial
  /\ count "no deadline set"
           (skippedSummary
              (loopBody utcZone 7 3 (midnight 20512) "2026-02-28" initial
                        doneNoDeadline))
     = count "no deadline set" (skippedSummary initial).
Proof.
  split; [discriminate |]. split; [reflexivity |].
  apply (filter_precedence utcZone 7 3 (midnight 20512) "2026-02-28"
           initial doneNoDeadline);
    [discriminate | reflexivity].
Defined.



(** C8. Conservation of items.  [totalToday] is the number of to-dos given;
    the decisions and the counters of all labels add up to it; counts add
    up over a list cut in two, and so do the decisions; three to-dos that
    lack a deadline count 3 under "no deadline set"; and the empty list
    gives no decision, no label and the total 0. *)
Theorem conservation_of_items
    (LocalTZA : Z -> Z) (clock : Date) (options : Options)
    (todos : list TodoRecord) :
  totalToday (simulateRescheduleLogic LocalTZA clock todos options)
  = List.length todos
  /\ (List.length
        (res_rescheduled
           (simulateRescheduleLogic LocalTZA clock todos options))
      + totalSkipped
          (res_skippedSummary
             (simulateRescheduleLogic LocalTZA clock todos options)))%nat
     = totalToday (simulateRescheduleLogic LocalTZA clock todos options)
  /\ (forall (first rest : list TodoRecord) (reason : string),
        count reason
              (res_skippedSummary
                 (simulateRescheduleLogic LocalTZA clock (first ++ rest)
                                          options))
        = (count reason
                 (res_skippedSummary
                    (simulateRescheduleLogic LocalTZA clock first options))
           + count reason
                   (res_skippedSummary
                      (simulateRescheduleLogic LocalTZA clock rest options)))
          %nat
        /\ res_rescheduled
             (simulateRescheduleLogic LocalTZA clock (first ++ rest) options)
           = (res_rescheduled
                (simulateRescheduleLogic LocalTZA clock first options)
              ++ res_rescheduled
                   (simulateRescheduleLogic LocalTZA clock rest options))
             %list)
  /\ (forall i1 n1 a1 i2 n2 a2 i3 n3 a3,
        res_skippedSummary
          (simulateRescheduleLogic LocalTZA clock
             [noDeadline i1 n1 a1; noDeadline i2 n2 a2; noDeadline i3 n3 a3]
             options)
        !! "no deadline set" = Some 3%nat)
  /\ simulateRescheduleLogic LocalTZA clock [] options
     = {| res_rescheduled := []; res_skippedSummary := ∅; totalToday := 0 |}.
Proof.
  split; [reflexivity |]. split; [| split; [| split; [| reflexivity]]].
  - unfold simulateRescheduleLogic.
    cbn [res_rescheduled res_skippedSummary totalToday].
    rewrite run_conserves. reflexivity.
  - intros first rest reason. unfold simulateRescheduleLogic.
    cbn [res_rescheduled res_skippedSummary].
    rewrite fold_left_app.
    match goal with
    | |- context [fold_left ?f rest (fold_left ?f first initial)] =>
        destruct (run_state LocalTZA
                    (default 7%Z (opt_daysThreshold options))
                    (default 3%Z (opt_bufferDays options))
                    (todayOf clock options)
                    (formatDateLocal (todayOf clock options))
                    rest (fold_left f first initial)) as [Hr Hc]
    end.
    split; [apply Hc | apply Hr].
  - intros i1 n1 a1 i2 n2 a2 i3 n3 a3. unfold simulateRescheduleLogic.
    cbn [res_skippedSummary fold_left].
    rewrite !(body_noDeadline LocalTZA _ _ _ _ _ (noDeadline _ _ _))
      by reflexivity.
    unfold skipWith, reasonNoDeadline. cbn [skippedSummary initial].
    rewrite lookup_insert_eq.
    rewrite lookup_insert_eq. rewrite lookup_insert_eq.
    rewrite lookup_empty. reflexivity.
Qed.


(** The scenario of six to-dos of the specification, on 2026-02-28 with
    the default threshold and buffer. *)
Example six_todos_scenario :
  let todo id st due act :=
    {| todo_id := id; todo_name := id; status := st;
       dueDate := due; activationDate := act |} in
  let r :=
    simulateRescheduleLogic utcZone InvalidDate
      [todo "1" "open" (Some "2026-06-01T00:00:00.000Z") None;
       todo "2" "open" (Some "2026-03-03T00:00:00.000Z") None;
       todo "3" "open" None None;
       todo "4" "completed" (Some "2026-06-01T00:00:00.000Z") None;
       todo "5" "open" (Some "2026-06-01T00:00:00.000Z")
            (Some "2026-02-28T00:00:00.000Z");
       todo "6" "open" (Some "2026-05-15T00:00:00.000Z") None]
      {| opt_daysThreshold := None; opt_bufferDays := None;
         opt_now := Some (midnight 20512) |} in
  totalToday r = 6%nat
  /\ map (fun d => (rd_id d, newWhen d)) (res_rescheduled r)
     = [("1", "2026-05-29"); ("6", "2026-05-12")]
  /\ count "no deadline set" (res_skippedSummary r) = 1%nat
  /\ count "status is not open" (res_skippedSummary r) = 1%nat
  /\ count "explicitly scheduled for today (activationDate = today)"
           (res_skippedSummary r) = 1%nat
  /\ count "deadline within threshold (< 7 days)" (res_skippedSummary r)
     = 1%nat.
Proof. vm_compute. repeat split; reflexivity. Qed.

End EngineSpec.
(** ** The claims about the date utilities *)

Module DateSpec.
Import JS Calendar JSDate DateUtil.
Import CalendarFacts JSFacts DateFacts.

(** Where the offset of the zone does not change, [daysBetween] is the
    difference of the day numbers, across leap days, years and
    centuries. *)
Lemma daysBetween_exact_without_transition LocalTZA offset y1 m1 d1 y2 m2 d2 :
  (forall t, LocalTZA t = offset) ->
  daysBetween LocalTZA (midnight (MakeDay y1 m1 d1))
              (midnight (MakeDay y2 m2 d2))
  = Some (MakeDay y2 m2 d2 - MakeDay y1 m1 d1)%Z.
Proof.
  intros H. apply daysBetween_same_offset. rewrite !H. reflexivity.
Qed.

(** Where the offset grows between the two midnights, by less than a day,
    the count is one short. *)
Lemma daysBetween_short_when_offset_grows LocalTZA a b :
  (0 < LocalTZA (MakeDate b 0) - LocalTZA (MakeDate a 0) < msPerDay)%Z ->
  daysBetween LocalTZA (midnight a) (midnight b) = Some (b - a - 1)%Z.
Proof.
  intros H. unfold midnight. rewrite daysBetween_DateAt. f_equal.
  set (x := LocalTZA (MakeDate a 0)) in *.
  set (y := LocalTZA (MakeDate b 0)) in *. clearbody x y.
  unfold MakeDate, msPerDay in *. euclid.
Qed.

Example daysBetween_leap_year_and_century :
  daysBetween utcZone (parseDateOnly "2024-02-28") (parseDateOnly "2024-02-29")
  = Some 1%Z
  /\ daysBetween utcZone (parseDateOnly "2024-02-29")
                 (parseDateOnly "2024-03-01") = Some 1%Z
  /\ daysBetween utcZone (parseDateOnly "2000-01-01")
                 (parseDateOnly "2100-01-01") = Some 36525%Z
  /\ daysBetween utcZone (parseDateOnly "2025-12-31")
                 (parseDateOnly "2026-01-01") = Some 1%Z.
Proof. repeat split; reflexivity. Qed.

(** C6 (the code falls short of the claim).  Between two local midnights
    that lie on the two sides of the start of daylight saving time there
    are an hour less than whole days, and the floor of the quotient loses a
    day: from 2026-02-28 to 2026-03-10, ten calendar days, [daysBetween]
    gives 9 under US Eastern time, where the repository's own test of
    these two dates expects 10. *)
Theorem daysBetween_loses_a_day_across_dst :
  newDate (Some 2026%Z) (Some 1%Z) (Some 28%Z) = midnight 20512
  /\ newDate (Some 2026%Z) (Some 2%Z) (Some 10%Z) = midnight (20512 + 10)
  /\ daysBetween usEastern2026
                 (newDate (Some 2026%Z) (Some 1%Z) (Some 28%Z))
                 (newDate (Some 2026%Z) (Some 2%Z) (Some 10%Z))
     = Some 9%Z
  /\ daysBetween utcZone
                 (newDate (Some 2026%Z) (Some 1%Z) (Some 28%Z))
                 (newDate (Some 2026%Z) (Some 2%Z) (Some 10%Z))
     = Some 10%Z.
Proof. repeat split; reflexivity. Qed.

(** C7 depends on the clock of the host; it is stated in
    [HostDateSpec], on [Date] objects by their time value. *)

End DateSpec.

(** ** The claim about the tool *)

Module ToolSpec.
Import JS JSDate Reschedule ThingsURL RescheduleTool.

Lemma resolveAuthToken_None explicit fallback :
  resolveAuthToken explicit fallback = None
  <-> truthy explicit = false /\ truthy fallback = false.
Proof.
  unfold resolveAuthToken.
  destruct explicit as [e |], fallback as [f |]; simpl;
    try destruct (String.eqb_spec e ""); try destruct (String.eqb_spec f "");
    simpl; split; intros H; try tauto; try discriminate;
    destruct H; discriminate.
Qed.

(** C9.  When no auth token can be resolved, neither from the parameter
    nor from the process-wide fallback, the invocation answers with the
    structured failure "Auth token is required" and has done nothing
    outside itself: no read of the Today list, no evaluation, no write.
    The handler is a total function into responses, so nothing escapes
    the invocation. *)
Theorem auth_precondition
    (fallbackToken : option string)
    (readToday : string + list TodoRecord)
    (openThingsURL : string -> option string)
    (LocalTZA : Z -> Z) (clock : Date) (args : Args) :
  truthy (authToken args) = false ->
  truthy fallbackToken = false ->
  resolveAuthToken (authToken args) fallbackToken = None
  /\ exists text,
       handler fallbackToken readToday openThingsURL LocalTZA clock args
       = ([], Failure text None)
       /\ includes "Auth token is required" text = true.
Proof.
  intros He Hf.
  assert (Hr : resolveAuthToken (authToken args) fallbackToken = None)
    by (apply resolveAuthToken_None; split; assumption).
  split; [exact Hr |].
  exists "Auth token is required". unfold handler. rewrite Hr.
  split; reflexivity.
Qed.

Lemma auth_precondition_witness :
  exists text,
    handler None (inr [exact7]) (fun _ => None) utcZone (midnight 20512)
            {| authToken := Some ""; dryRun := Some true;
               daysThreshold := Some 7%Z; bufferDays := Some 3%Z |}
    = ([], Failure text None)
    /\ includes "Auth token is required" text = true.
Proof.
  apply (auth_precondition None (inr [exact7]) (fun _ => None) utcZone
           (midnight 20512)
           {| authToken := Some ""; dryRun := Some true;
              daysThreshold := Some 7%Z; bufferDays := Some 3%Z |});
    reflexivity.
Defined.

End ToolSpec.

(** ** The claim about the URL builder *)

Module URLSpec.
Import JS ThingsURL JSFacts ThingsURLFacts.

(** C10.  [buildURL] drops every parameter whose value is [undefined] or
    the empty string before it serializes: the URL is the one built
    without that parameter, it is the bare [things:///command] when nothing
    is left, and every [key=value] it holds has a value that is not empty.
    Every [build*URL] function is [buildURL] on the parameters it
    collected; so an update whose notes or deadline is the empty string
    gives the very URL of an update that leaves them out. *)
Theorem buildURL_drops_empty :
  (forall command params,
      Forall (fun entry => snd entry = None \/ snd entry = Some (PString ""))
             params ->
      buildURL command params = THINGS_SCHEME ++ command)
  /\ (forall command before key value after,
        value = None \/ value = Some (PString "") ->
        buildURL command (before ++ (key, value) :: after)%list
        = buildURL command (before ++ after)%list)
  /\ (forall command params,
        (filteredParams params = []
         /\ buildURL command params = THINGS_SCHEME ++ command)
        \/ (filteredParams params <> []
            /\ buildURL command params
               = THINGS_SCHEME ++ command ++ "?"
                 ++ String.concat "&"
                      (map serialize (filteredParams params))))
  /\ (forall params key value,
        In (key, value) (filteredParams params) ->
        In (key, value) params
        /\ serialize (key, value) = key ++ "=" ++ valueText value
        /\ valueText value <> ""
        /\ value <> None /\ value <> Some (PString ""))
  /\ (forall p, buildAddTodoURL p = buildURL "add" (addTodoParams p))
  /\ (forall p,
        buildAddProjectURL p = buildURL "add-project" (addProjectParams p))
  /\ (forall p, buildUpdateTodoURL p = buildURL "update" (updateTodoParams p))
  /\ (forall p,
        buildUpdateProjectURL p
        = buildURL "update-project" (updateProjectParams p))
  /\ (forall p, buildShowURL p = buildURL "show" (showParams p))
  /\ (forall p, buildSearchURL p = buildURL "search" (searchParams p))
  /\ buildVersionURL = "things:///version"
  /\ (forall p, buildJsonURL p = buildURL "json" (jsonParams p))
  /\ (forall p,
        buildUpdateTodoURL (ut_withNotes (Some "") p)
        = buildUpdateTodoURL (ut_withNotes None p))
  /\ (forall p,
        buildUpdateTodoURL (ut_withDeadline (Some "") p)
        = buildUpdateTodoURL (ut_withDeadline None p))
  /\ (forall p,
        buildUpdateProjectURL (up_withNotes (Some "") p)
        = buildUpdateProjectURL (up_withNotes None p))
  /\ (forall p,
        buildUpdateProjectURL (up_withDeadline (Some "") p)
        = buildUpdateProjectURL (up_withDeadline None p))
  /\ buildUpdateTodoURL (updateOnly "tok123" "abc-123" (Some "") (Some ""))
     = "things:///update?auth-token=tok123&id=abc-123".
Proof.
  split.
  { intros command params H. apply buildURL_bare.
    unfold filteredParams. induction H as [| [k v] params Hv _ IH];
      [reflexivity |].
    simpl. apply (kept_false k v) in Hv. rewrite Hv. exact IH. }
  split.
  { intros command before key value after H. apply buildURL_drop.
    apply kept_false. exact H. }
  split.
  { intros command params. destruct (filteredParams params) eqn:E.
    - left. split; [reflexivity |]. apply buildURL_bare. exact E.
    - right. split; [discriminate |]. rewrite <- E.
      apply buildURL_query. rewrite E. discriminate. }
  split.
  { intros params key value H. unfold filteredParams in H.
    apply List.filter_In in H as [Hin Hk].
    split; [exact Hin |]. split; [reflexivity |].
    apply (kept_valueText key value Hk). }
  repeat (split; [reflexivity |]).
  split; [apply updateTodo_notes_empty |].
  split; [apply updateTodo_deadline_empty |].
  split; [apply updateProject_notes_empty |].
  split; [apply updateProject_deadline_empty |].
  reflexivity.
Qed.

Lemma buildURL_drops_empty_witness :
  buildURL "update"
           [("auth-token", Some (PString "tok123"));
            ("notes", Some (PString ""));
            ("id", Some (PString "abc-123"));
            ("deadline", None)]
  = "things:///update?auth-token=tok123&id=abc-123"
  /\ buildURL "search" [("query", Some (PString "")); ("filter", None)]
     = "things:///search".
Proof.
  destruct buildURL_drops_empty as (Hbare & Hdrop & _).
  split.
  - etransitivity;
      [exact (Hdrop "update" [("auth-token", Some (PString "tok123"))]
                    "notes" (Some (PString ""))
                    [("id", Some (PString "abc-123")); ("deadline", None)]
                    (or_intror eq_refl))
      | reflexivity].
  - apply (Hbare "search").
    constructor; [right; reflexivity |].
    constructor; [left; reflexivity | constructor].
Defined.

End URLSpec.
(** ** The claims that depend on the range of [Date] and on the clock of
    the host *)

Module HostEngineSpec.
Import JS Calendar DateUtil CalendarFacts JSFacts.
Import HostDate HostDateUtil Reschedule HostReschedule.
Import RescheduleFacts HostFacts HostRescheduleFacts.
Local Open Scope Z_scope.

(** C1, as stated, fails in two places.  With a buffer of 1,000,000,000
    days the day of the deadline minus the buffer is outside the range of
    [Date]: [setDate] leaves an Invalid Date, which the guard lets through
    and which prints as NaN-NaN-NaN.  And in Samoa, whose clock never
    showed 2011-12-30, a deadline on 2012-01-02 with a buffer of 3 moves
    to 2011-12-31. *)
Lemma newWhen_fails_off_the_clock :
  (status dueIn10 = "open"
   /\ dueDate dueIn10 = Some "2026-03-10T00:00:00.000Z"
   /\ scheduledToday utcZone "2026-02-28" dueIn10 = false
   /\ parseDateOnly utcZone "2026-03-10T00:00:00.000Z"
      = atMidnight utcZone 20522
   /\ formatDateLocal utcZone (atMidnight utcZone 20512) = "2026-02-28"
   /\ ltb (daysBetween (atMidnight utcZone 20512)
                       (parseDateOnly utcZone "2026-03-10T00:00:00.000Z"))
          (Some 7) = false
   /\ exists d,
        loopBody utcZone 7 1000000000 (atMidnight utcZone 20512)
                 "2026-02-28" initial dueIn10
        = push d initial
        /\ newWhen d = "NaN-NaN-NaN"
        /\ newWhen d <> formatDay (20522 - 1000000000))
  /\ (status dueAfterSkippedDay = "open"
      /\ dueDate dueAfterSkippedDay = Some "2012-01-02"
      /\ scheduledToday apia2011 "2011-12-20" dueAfterSkippedDay = false
      /\ parseDateOnly apia2011 "2012-01-02" = atMidnight apia2011 15341
      /\ formatDateLocal apia2011 (atMidnight apia2011 15341) = "2012-01-02"
      /\ formatDateLocal apia2011 (atMidnight apia2011 15328) = "2011-12-20"
      /\ ltb (daysBetween (atMidnight apia2011 15328)
                          (parseDateOnly apia2011 "2012-01-02"))
             (Some 7) = false
      /\ formatDay (15341 - 3) = "2011-12-30"
      /\ exists d,
           loopBody apia2011 7 3 (atMidnight apia2011 15328) "2011-12-20"
                    initial dueAfterSkippedDay
           = push d initial
           /\ newWhen d = "2011-12-31"
           /\ newWhen d <> formatDay (15341 - 3)).
Proof.
  split.
  - repeat (split; [vm_compute; reflexivity |]).
    eexists. split; [vm_compute; reflexivity |].
    split; [reflexivity | vm_compute; discriminate].
  - repeat (split; [vm_compute; reflexivity |]).
    eexists. split; [vm_compute; reflexivity |].
    split; [reflexivity | vm_compute; discriminate].
Qed.

(** C1 (amended).  An open to-do with a deadline that passes the status,
    deadline, explicit-today and threshold filters gets as its new date
    the calendar day of the deadline minus [bufferDays], counted in days of
    the calendar, provided the clock of the host shows the day of the
    deadline and, at the time of day at which the [Date] of the deadline
    stands (midnight, unless the clock is set forward over it), the day
    [bufferDays] before it, both in the range of [Date].  [n] is the day
    of the deadline, the day the zero-padded date at the head of [dueDate]
    names: the date computed is a time of day [n - B], and a decision that
    is emitted carries the text of that day, which prints the year, month
    and day of the calendar that day [n - B] has.  The case of the
    specification, deadline 2026-03-07 and buffer 3 giving 2026-03-04, is
    [newWhen_witness]. *)
Theorem newWhen_is_deadline_minus_buffer
    (zone : Zone) (T B : Z) (today : Date) (todayStr : string)
    (st : State) (todo : TodoRecord) (due : string) (n : Z) :
  status todo = "open" ->
  dueDate todo = Some due -> due <> ""%string ->
  scheduledToday zone todayStr todo = false ->
  parseDateOnly zone due = atMidnight zone n ->
  dayShown zone n ->
  shownAt zone (n - B) (standsAt zone n) ->
  ltb (daysBetween today (parseDateOnly zone due)) (Some T) = false ->
  newWhenDate zone B (parseDateOnly zone due)
  = DateOf (UTC zone (MakeDate (n - B) (standsAt zone n)))
  /\ Day (LocalTime zone (UTC zone (MakeDate (n - B) (standsAt zone n))))
     = n - B
  /\ (loopBody zone T B today todayStr st todo = skipWith reasonNoMove st
      \/ exists d, loopBody zone T B today todayStr st todo = push d st)
  /\ (forall d, loopBody zone T B today todayStr st todo = push d st ->
                newWhen d = formatDay (n - B))
  /\ formatDay (n - B)
     = (numToString (Some (YearFromDay (n - B))) ++ "-"
        ++ padStart 2 "0" (numToString (Some (MonthFromDay (n - B) + 1)))
        ++ "-" ++ padStart 2 "0" (numToString (Some (DateFromDay (n - B)))))
       %string
  /\ MakeDay (YearFromDay (n - B)) (MonthFromDay (n - B)) (DateFromDay (n - B))
     = n - B
  /\ (forall y m d,
        100 <= y <= 9999 -> validDate y m d ->
        slice 0 10 due = isoDate y m d ->
        dayShown zone (MakeDay y (m - 1) d) ->
        n = MakeDay y (m - 1) d).
Proof.
  intros Ho Hd Hne Hs Hp Hc Hsh Ht.
  assert (Hnew : newWhenDate zone B (parseDateOnly zone due)
                 = TimeClip (UTC zone (MakeDate (n - B) (standsAt zone n))))
    by (rewrite Hp; apply newWhenDate_shown; exact Hc).
  assert (Hday : forall y m d,
             100 <= y <= 9999 -> validDate y m d ->
             slice 0 10 due = isoDate y m d ->
             dayShown zone (MakeDay y (m - 1) d) ->
             n = MakeDay y (m - 1) d).
  { intros y m d Hy [Hm Hdd] Hiso Hk.
    apply (atMidnight_inj zone); [exact Hc | exact Hk |].
    rewrite <- Hp, <- host_parseDateOnly_slice, Hiso.
    apply parseDateOnly_atMidnight. apply DateFacts.parseDateOnly_isoDate;
      [exact Hy | exact Hm |].
    pose proof (DaysInMonth_range y m). lia. }
  split; [rewrite Hnew; apply TimeClip_inside; exact (proj1 Hsh) |].
  split; [exact (proj2 Hsh) |].
  destruct (leb (getTime (newWhenDate zone B (parseDateOnly zone due)))
                (getTime today)) eqn:Hg.
  - pose proof (host_body_noMove zone T B today todayStr st todo due
                  Ho Hd Hne Hs Ht Hg) as Hb.
    split; [left; exact Hb |].
    split;
      [| split; [apply DateFacts.formatDay_fields
                | split; [apply MakeDay_fields | exact Hday]]].
    intros d Hd'. rewrite Hb in Hd'. destruct (skipWith_not_push _ _ _ Hd').
  - pose proof (host_body_push zone T B today todayStr st todo due
                  Ho Hd Hne Hs Ht Hg) as Hb.
    split; [right; eexists; exact Hb |].
    split;
      [| split; [apply DateFacts.formatDay_fields
                | split; [apply MakeDay_fields | exact Hday]]].
    intros d Hd'. rewrite Hb in Hd'. apply push_inj in Hd'. subst d.
    cbn [newWhen]. rewrite Hnew. apply formatDateLocal_shownAt.
    exact Hsh.
Qed.

Lemma newWhen_witness :
  (dayShown utcZone 20519
   /\ shownAt utcZone (20519 - 3) (standsAt utcZone 20519)
   /\ newWhenDate utcZone 3
        (parseDateOnly utcZone "2026-03-07T00:00:00.000Z")
      = atMidnight utcZone 20516
   /\ formatDay 20516 = "2026-03-04"
   /\ exists d,
        loopBody utcZone 7 3 (atMidnight utcZone 20512) "2026-02-28" initial
                 exact7
        = push d initial
        /\ newWhen d = "2026-03-04")
  /\ (dayShown havana2026 20520
      /\ standsAt havana2026 20520 = 3600000
      /\ shownAt havana2026 (20520 - 3) (standsAt havana2026 20520)
      /\ formatDay (20520 - 3) = "2026-03-05"
      /\ exists d,
           loopBody havana2026 7 3 (atMidnight havana2026 20512)
                    "2026-02-28" initial guardTest
           = push d initial
           /\ newWhen d = "2026-03-05").
Proof.
  split.
  - assert (Hc : dayShown utcZone 20519)
      by (split; [vm_compute; discriminate | reflexivity]).
    assert (Hs : shownAt utcZone (20519 - 3) (standsAt utcZone 20519))
      by (split; [vm_compute; discriminate | reflexivity]).
    split; [exact Hc |]. split; [exact Hs |].
    destruct (newWhen_is_deadline_minus_buffer utcZone 7 3
                (atMidnight utcZone 20512) "2026-02-28" initial exact7
                "2026-03-07T00:00:00.000Z" 20519)
      as (H1 & _ & [H2 | [d H2]] & H3 & _);
      try reflexivity; try assumption; [discriminate | |].
    + apply (f_equal (fun s => List.length (rescheduled s))) in H2.
      vm_compute in H2. discriminate.
    + split; [exact H1 |]. split; [reflexivity |].
      exists d. split; [exact H2 | exact (H3 d H2)].
  - assert (Hc : dayShown havana2026 20520)
      by (split; [vm_compute; discriminate | vm_compute; reflexivity]).
    assert (Hs : shownAt havana2026 (20520 - 3) (standsAt havana2026 20520))
      by (split; [vm_compute; discriminate | vm_compute; reflexivity]).
    split; [exact Hc |]. split; [vm_compute; reflexivity |].
    split; [exact Hs |]. split; [reflexivity |].
    destruct (newWhen_is_deadline_minus_buffer havana2026 7 3
                (atMidnight havana2026 20512) "2026-02-28" initial guardTest
                "2026-03-08T00:00:00.000Z" 20520)
      as (_ & _ & [H2 | [d H2]] & H3 & _);
      try reflexivity; try assumption; [discriminate | |].
    + apply (f_equal (fun s => List.length (rescheduled s))) in H2.
      vm_compute in H2. discriminate.
    + exists d. split; [exact H2 | exact (H3 d H2)].
Defined.




End HostEngineSpec.

Module HostDateSpec.
Import JS Calendar DateUtil CalendarFacts JSFacts.
Import HostDate HostDateUtil HostFacts.
Local Open Scope Z_scope.

(** C7, as stated, fails below the year 1000, where the year is printed
    without padding and a year from 0 to 99 is taken for 1900 + year, and
    on a day that the clock of the host never showed: in Samoa the text
    2011-12-30 reads as the instant the day after began and prints as
    2011-12-31. *)
Lemma roundtrip_fails_off_the_clock :
  (validDate 999 1 1
   /\ slice 0 10 "0999-01-01T00:00:00.000Z" = isoDate 999 1 1
   /\ formatDateLocal utcZone
        (parseDateOnly utcZone "0999-01-01T00:00:00.000Z") = "999-01-01"
   /\ formatDateLocal utcZone
        (parseDateOnly utcZone "0999-01-01T00:00:00.000Z")
      <> slice 0 10 "0999-01-01T00:00:00.000Z")
  /\ (validDate 50 6 15
      /\ slice 0 10 "0050-06-15" = isoDate 50 6 15
      /\ formatDateLocal utcZone (parseDateOnly utcZone "0050-06-15")
         = "1950-06-15")
  /\ (validDate 2011 12 30
      /\ slice 0 10 "2011-12-30" = isoDate 2011 12 30
      /\ formatDateLocal apia2011 (parseDateOnly apia2011 "2011-12-30")
         = "2011-12-31"
      /\ formatDateLocal apia2011 (parseDateOnly apia2011 "2011-12-30")
         <> slice 0 10 "2011-12-30").
Proof.
  repeat split; vm_compute; first [reflexivity | discriminate].
Qed.

(** C7 (amended).  For a text whose first ten characters are the
    zero-padded date of a day of the calendar in the years 1000 to 9999,
    a day that the clock of the host shows, formatting what was parsed
    gives those ten characters back, whatever follows them. *)
Theorem roundtrip_four_digit_years (zone : Zone) (s : string) (y m d : Z) :
  1000 <= y <= 9999 ->
  validDate y m d ->
  slice 0 10 s = isoDate y m d ->
  dayShown zone (MakeDay y (m - 1) d) ->
  formatDateLocal zone (parseDateOnly zone s) = slice 0 10 s.
Proof.
  intros Hy Hv Hs Hk. rewrite <- host_parseDateOnly_slice, Hs.
  apply host_roundtrip_isoDate; assumption.
Qed.

Lemma roundtrip_witness :
  1000 <= 2026 <= 9999
  /\ validDate 2026 7 4
  /\ slice 0 10 "2026-07-04T14:30:00+09:00" = isoDate 2026 7 4
  /\ dayShown havana2026 (MakeDay 2026 (7 - 1) 4)
  /\ formatDateLocal havana2026
       (parseDateOnly havana2026 "2026-07-04T14:30:00+09:00")
     = "2026-07-04".
Proof.
  assert (Hv : validDate 2026 7 4)
    by (repeat split; vm_compute; discriminate).
  assert (Hk : dayShown havana2026 (MakeDay 2026 (7 - 1) 4))
    by (split; [vm_compute; discriminate | vm_compute; reflexivity]).
  split; [lia |]. split; [exact Hv |]. split; [reflexivity |].
  split; [exact Hk |].
  apply (roundtrip_four_digit_years havana2026
           "2026-07-04T14:30:00+09:00" 2026 7 4);
    [lia | exact Hv | reflexivity | exact Hk].
Defined.

End HostDateSpec.

(* ===================================================================== *)
(** * Further properties of the code                                      *)
(* ===================================================================== *)

(** ** The run of the engine over a list *)

Module RunFacts.
Import JS Calendar JSDate DateUtil Reschedule.
Import CalendarFacts JSFacts DateFacts RescheduleFacts Run.

Section Run.
Variable LocalTZA : Z -> Z.
Variables T B : Z.
Variable today : Date.
Variable todayStr : string.

Local Abbreviation body := (loopBody LocalTZA T B today todayStr).

(** The first turn, then the rest of the list. *)
Lemma run_cons todo todos :
  rescheduled (fold_left body (todo :: todos) initial)
  = (rescheduled (body initial todo)
     ++ rescheduled (fold_left body todos initial))%list
  /\ forall r,
       count r (skippedSummary (fold_left body (todo :: todos) initial))
       = (count r (skippedSummary (body initial todo))
          + count r (skippedSummary (fold_left body todos initial)))%nat.
Proof. cbn [fold_left]. apply run_state. Qed.

(** The label of a skip is one of the five. *)
Lemma body_labels st todo r :
  body st todo = skipWith r st ->
  In r [reasonStatus; reasonNoDeadline; reasonToday; reasonThreshold T;
        reasonNoMove].
Proof.
  intros H.
  destruct (String.eqb_spec (status todo) "open") as [Ho | Ho];
    [| rewrite (body_status LocalTZA T B today todayStr st todo Ho) in H;
       apply skipWith_inj in H; subst r; simpl; auto].
  destruct (truthy (dueDate todo)) eqn:Hd;
    [| rewrite (body_noDeadline LocalTZA T B today todayStr st todo Ho Hd)
         in H;
       apply skipWith_inj in H; subst r; simpl; auto].
  destruct (dueDate todo) as [due |] eqn:Ed; [| discriminate].
  apply truthy_Some in Hd.
  destruct (scheduledToday todayStr todo) eqn:Hs;
    [rewrite (body_today LocalTZA T B today todayStr st todo due Ho Ed Hd Hs)
       in H;
     apply skipWith_inj in H; subst r; simpl; auto |].
  destruct (ltb (daysBetween LocalTZA today (parseDateOnly due)) (Some T))
    eqn:Ht;
    [rewrite (body_threshold LocalTZA T B today todayStr st todo due
                Ho Ed Hd Hs Ht) in H;
     apply skipWith_inj in H; subst r; simpl; auto |].
  destruct (leb (getTime LocalTZA (newWhenDate B (parseDateOnly due)))
                (getTime LocalTZA today)) eqn:Hg;
    [rewrite (body_noMove LocalTZA T B today todayStr st todo due
                Ho Ed Hd Hs Ht Hg) in H;
     apply skipWith_inj in H; subst r; simpl; auto 6 |].
  rewrite (body_push LocalTZA T B today todayStr st todo due
             Ho Ed Hd Hs Ht Hg) in H.
  symmetry in H. destruct (skipWith_not_push _ _ _ H).
Qed.

(** A skip by the guard comes after the threshold filter let the to-do
    pass, and the comparison of the guard held. *)
Lemma body_noMove_inv st todo :
  body st todo = skipWith reasonNoMove st ->
  exists due,
    ltb (daysBetween LocalTZA today (parseDateOnly due)) (Some T) = false
    /\ leb (getTime LocalTZA (newWhenDate B (parseDateOnly due)))
           (getTime LocalTZA today) = true.
Proof.
  intros H.
  destruct (String.eqb_spec (status todo) "open") as [Ho | Ho];
    [| rewrite (body_status LocalTZA T B today todayStr st todo Ho) in H;
       apply skipWith_inj in H; discriminate H].
  destruct (truthy (dueDate todo)) eqn:Hd;
    [| rewrite (body_noDeadline LocalTZA T B today todayStr st todo Ho Hd)
         in H;
       apply skipWith_inj in H; discriminate H].
  destruct (dueDate todo) as [due |] eqn:Ed; [| discriminate].
  apply truthy_Some in Hd. exists due.
  destruct (scheduledToday todayStr todo) eqn:Hs;
    [rewrite (body_today LocalTZA T B today todayStr st todo due Ho Ed Hd Hs)
       in H;
     apply skipWith_inj in H; discriminate H |].
  destruct (ltb (daysBetween LocalTZA today (parseDateOnly due)) (Some T))
    eqn:Ht;
    [rewrite (body_threshold LocalTZA T B today todayStr st todo due
                Ho Ed Hd Hs Ht) in H;
     apply skipWith_inj in H; discriminate H |].
  destruct (leb (getTime LocalTZA (newWhenDate B (parseDateOnly due)))
                (getTime LocalTZA today)) eqn:Hg;
    [split; reflexivity |].
  rewrite (body_push LocalTZA T B today todayStr st todo due
             Ho Ed Hd Hs Ht Hg) in H.
  symmetry in H. destruct (skipWith_not_push _ _ _ H).
Qed.

(** *** States that agree up to the order of the decisions *)

Lemma agree_refl st : agree st st.
Proof. split; reflexivity. Qed.

Lemma agree_trans st1 st2 st3 : agree st1 st2 -> agree st2 st3 -> agree st1 st3.
Proof.
  intros [H1 P1] [H2 P2]. split; [congruence | etransitivity; eassumption].
Qed.

Lemma body_respects st st' todo :
  agree st st' -> agree (body st todo) (body st' todo).
Proof.
  intros [Hs Hp].
  destruct (body_uniform LocalTZA T B today todayStr todo)
    as [[r Hb] | [d Hb]]; rewrite !Hb.
  - split; [| exact Hp]. unfold skipWith. cbn [skippedSummary].
    rewrite Hs. reflexivity.
  - split; [exact Hs |]. cbn [push rescheduled].
    apply Permutation_app_tail. exact Hp.
Qed.

Lemma run_respects todos :
  forall st st', agree st st' ->
                 agree (fold_left body todos st) (fold_left body todos st').
Proof.
  induction todos as [| todo todos IH]; intros st st' H; [exact H |].
  cbn [fold_left]. apply IH, body_respects, H.
Qed.

Lemma skipWith_comm r1 r2 st :
  skippedSummary (skipWith r1 (skipWith r2 st))
  = skippedSummary (skipWith r2 (skipWith r1 st)).
Proof.
  destruct (String.eqb_spec r1 r2) as [-> | Hne]; [reflexivity |].
  unfold skipWith. cbn [skippedSummary].
  rewrite !lookup_insert_ne by congruence.
  apply insert_insert_ne. congruence.
Qed.

Lemma body_swap st x y :
  agree (body (body st x) y) (body (body st y) x).
Proof.
  destruct (body_uniform LocalTZA T B today todayStr x)
    as [[rx Hx] | [dx Hx]];
    destruct (body_uniform LocalTZA T B today todayStr y)
      as [[ry Hy] | [dy Hy]]; rewrite ?Hx, ?Hy, ?Hx.
  - split; [apply skipWith_comm | reflexivity].
  - apply agree_refl.
  - apply agree_refl.
  - split; [reflexivity |]. cbn [push rescheduled].
    rewrite <- !app_assoc. apply Permutation_app_head. simpl.
    apply perm_swap.
Qed.

Lemma run_perm todos todos' :
  Permutation todos todos' ->
  forall st st', agree st st' ->
                 agree (fold_left body todos st) (fold_left body todos' st').
Proof.
  induction 1 as [| x l l' _ IH | x y l | l1 l2 l3 _ IH1 _ IH2];
    intros st st' H.
  - exact H.
  - cbn [fold_left]. apply IH, body_respects, H.
  - cbn [fold_left]. apply run_respects.
    apply (agree_trans _ (body (body st' y) x)).
    + apply body_respects, body_respects, H.
    + apply body_swap.
  - apply (agree_trans _ (fold_left body l2 st')).
    + apply IH1, H.
    + apply IH2, agree_refl.
Qed.

(** *** What the loop keeps true *)

Lemma body_wellCounted st todo :
  wellCounted T st -> wellCounted T (body st todo).
Proof.
  intros Hw.
  destruct (body_outcome LocalTZA T B today todayStr st todo)
    as [[r Hb] | [d Hb]].
  - pose proof (body_labels st todo r Hb) as Hl. rewrite Hb.
    intros r' n. unfold skipWith. cbn [skippedSummary].
    destruct (String.eqb_spec r r') as [<- | Hne].
    + rewrite lookup_insert_eq. intros [= <-]. split; [lia | exact Hl].
    + rewrite lookup_insert_ne by exact Hne. apply Hw.
  - rewrite Hb. exact Hw.
Qed.

Lemma run_wellCounted todos :
  forall st, wellCounted T st -> wellCounted T (fold_left body todos st).
Proof.
  induction todos as [| todo todos IH]; intros st H; [exact H |].
  cbn [fold_left]. apply IH, body_wellCounted, H.
Qed.

Lemma initial_wellCounted : wellCounted T initial.
Proof.
  intros r n. unfold initial. cbn [skippedSummary].
  rewrite lookup_empty. discriminate.
Qed.

(** Who the decisions are about, in the order of the list. *)
Lemma run_sublist todos :
  sublist (map (fun d => (rd_id d, rd_name d))
               (rescheduled (fold_left body todos initial)))
          (map (fun t => (todo_id t, todo_name t)) todos).
Proof.
  induction todos as [| todo todos IH]; [constructor |].
  destruct (run_cons todo todos) as [Hr _]. rewrite Hr.
  destruct (body_outcome LocalTZA T B today todayStr initial todo)
    as [[r Hb] | [d Hb]].
  - rewrite Hb. cbn [skipWith rescheduled initial app map].
    apply sublist_cons. exact IH.
  - destruct (body_push_inv LocalTZA T B today todayStr initial todo d Hb)
      as (due & _ & _ & _ & _ & _ & _ & _ & _ & _ & Hid & Hname & _).
    rewrite Hb. cbn [push rescheduled initial app map].
    rewrite Hid, Hname. apply sublist_skip. exact IH.
Qed.

Lemma run_decides todos :
  Forall (decides LocalTZA T today todayStr todos) (rescheduled (fold_left body todos initial)).
Proof.
  induction todos as [| todo todos IH]; [constructor |].
  destruct (run_cons todo todos) as [Hr _]. rewrite Hr.
  apply Forall_app. split.
  - destruct (body_outcome LocalTZA T B today todayStr initial todo)
      as [[r Hb] | [d Hb]]; rewrite Hb; [constructor |].
    destruct (body_push_inv LocalTZA T B today todayStr initial todo d Hb)
      as (due & Ho & Hd & Hne & Hs & Ht & _ & _ & Hdays & Hdue & Hid & Hname
          & Hold).
    cbn [push rescheduled initial app]. constructor; [| constructor].
    exists todo, due. split; [left; reflexivity |].
    repeat (split; [assumption |]). split; [rewrite Hdays; exact Ht |].
    rewrite Hold. unfold scheduledToday in Hs.
    destruct (activationDate todo) as [a |]; [| discriminate].
    destruct (truthy (Some a)); [| discriminate].
    intros [= E]. rewrite E, String.eqb_refl in Hs. discriminate.
  - eapply Forall_impl; [exact IH |].
    intros d (todo' & due & Hin & Hrest). exists todo', due.
    split; [right; exact Hin | exact Hrest].
Qed.

End Run.

(** *** Two thresholds *)

Lemma body_threshold_mono LocalTZA T T' B today todayStr st st' todo d :
  (T <= T')%Z ->
  loopBody LocalTZA T' B today todayStr st todo = push d st ->
  loopBody LocalTZA T B today todayStr st' todo = push d st'.
Proof.
  intros Hle H.
  destruct (body_push_inv LocalTZA T' B today todayStr st todo d H)
    as (due & Ho & Hd & Hne & Hs & Ht & Hg & _).
  rewrite (body_push LocalTZA T' B today todayStr st todo due
             Ho Hd Hne Hs Ht Hg) in H.
  apply push_inj in H. subst d.
  apply (body_push LocalTZA T B today todayStr st' todo due Ho Hd Hne Hs);
    [| exact Hg].
  destruct (daysBetween LocalTZA today (parseDateOnly due)) as [k |];
    [| reflexivity].
  simpl in Ht |- *. apply Z.ltb_ge. apply Z.ltb_ge in Ht. lia.
Qed.

Lemma run_threshold_mono LocalTZA T T' B today todayStr todos :
  (T <= T')%Z ->
  sublist
    (rescheduled
       (fold_left (loopBody LocalTZA T' B today todayStr) todos initial))
    (rescheduled
       (fold_left (loopBody LocalTZA T B today todayStr) todos initial)).
Proof.
  intros Hle. induction todos as [| todo todos IH]; [constructor |].
  destruct (run_cons LocalTZA T B today todayStr todo todos) as [Hr _].
  destruct (run_cons LocalTZA T' B today todayStr todo todos) as [Hr' _].
  rewrite Hr, Hr'. apply sublist_app; [| exact IH].
  destruct (body_outcome LocalTZA T' B today todayStr initial todo)
    as [[r Hb] | [d Hb]].
  - rewrite Hb. apply sublist_nil_l.
  - rewrite Hb,
      (body_threshold_mono LocalTZA T T' B today todayStr initial initial
         todo d Hle Hb).
    reflexivity.
Qed.

(** *** The guard and the two settings *)

(** What [parseDateOnly] and the [Date] constructor give is a midnight or
    is not a date. *)
Lemma newDate_cases y m d :
  newDate y m d = InvalidDate \/ exists n, newDate y m d = midnight n.
Proof.
  destruct y as [y |], m as [m |], d as [d |]; simpl; auto.
  right. eexists. apply newDate_midnight.
Qed.

Lemma parseDateOnly_cases s :
  parseDateOnly s = InvalidDate \/ exists n, parseDateOnly s = midnight n.
Proof. unfold parseDateOnly. apply newDate_cases. Qed.

Lemma newWhenDate_invalid B : newWhenDate B InvalidDate = InvalidDate.
Proof. reflexivity. Qed.

(** With a buffer below the threshold, what passed the threshold filter
    passes the guard. *)
Lemma guard_unreachable LocalTZA T B today due :
  (forall a b, Z.abs (LocalTZA b - LocalTZA a) < msPerDay)%Z ->
  (B < T)%Z ->
  ltb (daysBetween LocalTZA today (parseDateOnly due)) (Some T) = false ->
  leb (getTime LocalTZA (newWhenDate B (parseDateOnly due)))
      (getTime LocalTZA today) = false.
Proof.
  intros Hz Hlt Ht.
  destruct (parseDateOnly_cases due) as [E | [n E]]; rewrite E in *;
    [reflexivity |].
  rewrite newWhenDate_midnight.
  destruct today as [| t0]; [reflexivity |].
  unfold midnight in *. rewrite daysBetween_DateAt in Ht.
  cbn [getTime leb]. cbn [ltb] in Ht.
  apply Z.ltb_ge in Ht. apply Z.leb_gt.
  pose proof (Hz (MakeDate (n - B) 0) (MakeDate n 0)) as Hd.
  set (x := LocalTZA (MakeDate n 0)) in *.
  set (y := LocalTZA (MakeDate (n - B) 0)) in *.
  set (z := LocalTZA t0) in *. clearbody x y z.
  unfold MakeDate, msPerDay in *.
  Z.to_euclidean_division_equations; lia.
Qed.

Lemma body_never_noMove LocalTZA T B today todayStr st todo :
  (forall a b, Z.abs (LocalTZA b - LocalTZA a) < msPerDay)%Z ->
  (B < T)%Z ->
  loopBody LocalTZA T B today todayStr st todo <> skipWith reasonNoMove st.
Proof.
  intros Hz Hlt H.
  destruct (body_noMove_inv LocalTZA T B today todayStr st todo H)
    as (due & Ht & Hg).
  rewrite (guard_unreachable LocalTZA T B today due Hz Hlt Ht) in Hg.
  discriminate.
Qed.

Lemma run_never_noMove LocalTZA T B today todayStr todos :
  (forall a b, Z.abs (LocalTZA b - LocalTZA a) < msPerDay)%Z ->
  (B < T)%Z ->
  count reasonNoMove
        (skippedSummary
           (fold_left (loopBody LocalTZA T B today todayStr) todos initial))
  = 0%nat.
Proof.
  intros Hz Hlt. induction todos as [| todo todos IH]; [apply count_initial |].
  destruct (run_cons LocalTZA T B today todayStr todo todos) as [_ Hc].
  rewrite Hc, IH.
  destruct (body_outcome LocalTZA T B today todayStr initial todo)
    as [[r Hb] | [d Hb]]; rewrite Hb.
  - rewrite count_skipWith_other, count_initial; [reflexivity |].
    intros ->.
    exact (body_never_noMove LocalTZA T B today todayStr initial todo
             Hz Hlt Hb).
  - cbn [push skippedSummary]. rewrite count_initial. reflexivity.
Qed.

(** *** A deadline that is not a date *)

Lemma parseDateOnly_short s :
  (List.length (split "-" (slice 0 10 s)) <= 2)%nat ->
  parseDateOnly s = InvalidDate.
Proof.
  intros H. unfold parseDateOnly.
  assert (E : item (map Number (split "-" (slice 0 10 s))) 2 = None).
  { unfold item.
    rewrite (proj2 (nth_error_None _ 2)); [reflexivity |].
    rewrite length_map. exact H. }
  rewrite E.
  destruct (item _ 0), (sub (item _ 1) _); reflexivity.
Qed.

(** *** Today *)

Lemma todayOf_DateAt clock options t :
  default clock (opt_now options) = DateAt t ->
  ~ (0 <= YearFromTime t <= 99)%Z ->
  todayOf clock options = midnight (Day t).
Proof.
  intros E Hy. unfold todayOf. rewrite E. cbn [getFullYear getMonth getDate].
  rewrite newDate_midnight.
  replace ((0 <=? YearFromTime t)%Z && (YearFromTime t <=? 99)%Z)
    with false
    by (symmetry; apply andb_false_iff;
        rewrite Z.leb_gt, Z.leb_gt; lia).
  unfold YearFromTime, MonthFromTime, DateFromTime.
  rewrite MakeDay_fields. reflexivity.
Qed.

End RunFacts.

(** ** The engine: further properties *)

Module EngineMore.
Import JS Calendar JSDate DateUtil Reschedule.
Import CalendarFacts JSFacts DateFacts RescheduleFacts RunFacts.

(** X1.  A deadline in which the first ten characters hold fewer than two
    dashes is not a date: [parseDateOnly] gives the Invalid Date, both
    comparisons of the engine are false on it, and the open to-do is
    not skipped: a decision is emitted for it whose new date is the text
    NaN-NaN-NaN and whose [daysUntilDue] is not a number. *)
Theorem malformed_deadline_is_rescheduled
    (LocalTZA : Z -> Z) (T B : Z) (today : Date) (todayStr : string)
    (st : State) (todo : TodoRecord) (due : string) :
  status todo = "open" ->
  dueDate todo = Some due -> due <> "" ->
  scheduledToday todayStr todo = false ->
  (List.length (split "-" (slice 0 10 due)) <= 2)%nat ->
  parseDateOnly due = InvalidDate
  /\ exists d,
       loopBody LocalTZA T B today todayStr st todo = push d st
       /\ rd_id d = todo_id todo
       /\ newWhen d = "NaN-NaN-NaN"
       /\ daysUntilDue d = None
       /\ rd_dueDate d = slice 0 10 due.
Proof.
  intros Ho Hd Hne Hs Hlen.
  pose proof (parseDateOnly_short due Hlen) as Hp.
  split; [exact Hp |].
  eexists. split.
  - apply (body_push LocalTZA T B today todayStr st todo due Ho Hd Hne Hs);
      rewrite Hp; destruct today; reflexivity.
  - cbn [rd_id newWhen daysUntilDue rd_dueDate]. rewrite Hp.
    repeat split; destruct today; reflexivity.
Qed.

Lemma malformed_deadline_witness :
  exists d,
    loopBody utcZone 7 3 (midnight 20512) "2026-02-28" initial
             {| todo_id := "t-bad"; todo_name := "Bad deadline";
                status := "open"; dueDate := Some "next week";
                activationDate := None |}
    = push d initial
    /\ rd_id d = "t-bad"
    /\ newWhen d = "NaN-NaN-NaN"
    /\ daysUntilDue d = None
    /\ rd_dueDate d = "next week".
Proof.
  assert (Hne : "next week" <> "") by discriminate.
  apply (malformed_deadline_is_rescheduled utcZone 7 3 (midnight 20512)
           "2026-02-28" initial
           {| todo_id := "t-bad"; todo_name := "Bad deadline";
              status := "open"; dueDate := Some "next week";
              activationDate := None |}
           "next week" eq_refl eq_refl Hne eq_refl).
  vm_compute. lia.
Defined.

(** X2.  The decisions come in the order of the to-dos they are about:
    their identifiers and names, in order, are those of a sublist of the
    list given, so no to-do is decided twice or out of its place. *)
Theorem decisions_follow_input_order
    (LocalTZA : Z -> Z) (clock : Date) (todos : list TodoRecord)
    (options : Options) :
  sublist
    (map (fun d => (rd_id d, rd_name d))
         (res_rescheduled
            (simulateRescheduleLogic LocalTZA clock todos options)))
    (map (fun t => (todo_id t, todo_name t)) todos).
Proof. unfold simulateRescheduleLogic. cbn [res_rescheduled]. apply run_sublist. Qed.

(** X3.  The order of the to-dos does not matter to the outcome: over a
    list that holds the same to-dos in another order the skip report is
    the same, the decisions are the same up to their order, and so is the
    total. *)
Theorem result_up_to_order
    (LocalTZA : Z -> Z) (clock : Date) (options : Options)
    (todos todos' : list TodoRecord) :
  Permutation todos todos' ->
  res_skippedSummary (simulateRescheduleLogic LocalTZA clock todos options)
  = res_skippedSummary
      (simulateRescheduleLogic LocalTZA clock todos' options)
  /\ Permutation
       (res_rescheduled
          (simulateRescheduleLogic LocalTZA clock todos options))
       (res_rescheduled
          (simulateRescheduleLogic LocalTZA clock todos' options))
  /\ totalToday (simulateRescheduleLogic LocalTZA clock todos options)
     = totalToday (simulateRescheduleLogic LocalTZA clock todos' options).
Proof.
  intros Hp. unfold simulateRescheduleLogic.
  cbn [res_skippedSummary res_rescheduled totalToday].
  match goal with
  | |- context [fold_left ?f todos initial] =>
      match f with
      | loopBody _ ?T ?B ?today ?todayStr =>
          destruct (run_perm LocalTZA T B today todayStr todos todos' Hp
                      initial initial (agree_refl initial)) as [Hs Hr]
      end
  end.
  split; [exact Hs |]. split; [exact Hr |].
  apply Permutation_length. exact Hp.
Qed.

Lemma result_up_to_order_witness :
  Permutation [exact7; doneNoDeadline; dueIn10]
              [dueIn10; exact7; doneNoDeadline]
  /\ res_skippedSummary
       (simulateRescheduleLogic utcZone (midnight 20512)
          [exact7; doneNoDeadline; dueIn10]
          {| opt_daysThreshold := None; opt_bufferDays := None;
             opt_now := None |})
     = res_skippedSummary
         (simulateRescheduleLogic utcZone (midnight 20512)
            [dueIn10; exact7; doneNoDeadline]
            {| opt_daysThreshold := None; opt_bufferDays := None;
               opt_now := None |}).
Proof.
  assert (Hp : Permutation [exact7; doneNoDeadline; dueIn10]
                           [dueIn10; exact7; doneNoDeadline]).
  { apply Permutation_sym.
    apply (Permutation_cons_app [exact7; doneNoDeadline] [] dueIn10).
    rewrite app_nil_r. reflexivity. }
  split; [exact Hp |].
  apply (result_up_to_order utcZone (midnight 20512)
           {| opt_daysThreshold := None; opt_bufferDays := None;
              opt_now := None |} _ _ Hp).
Defined.

(** X4.  Raising the threshold only takes decisions away: with the same
    to-dos, buffer and day, the decisions under the greater threshold are a
    sublist of the decisions under the smaller one, each unchanged. *)
Theorem raising_threshold_keeps_fewer
    (LocalTZA : Z -> Z) (clock : Date) (todos : list TodoRecord)
    (T T' : Z) (buffer : option Z) (now : option Date) :
  (T <= T')%Z ->
  sublist
    (res_rescheduled
       (simulateRescheduleLogic LocalTZA clock todos
          {| opt_daysThreshold := Some T'; opt_bufferDays := buffer;
             opt_now := now |}))
    (res_rescheduled
       (simulateRescheduleLogic LocalTZA clock todos
          {| opt_daysThreshold := Some T; opt_bufferDays := buffer;
             opt_now := now |})).
Proof.
  intros Hle. unfold simulateRescheduleLogic.
  cbn [res_rescheduled opt_daysThreshold opt_bufferDays opt_now default].
  apply run_threshold_mono. exact Hle.
Qed.

Lemma raising_threshold_witness :
  (7 <= 10)%Z
  /\ sublist
       (res_rescheduled
          (simulateRescheduleLogic utcZone InvalidDate
             [exact7; dueIn10; under7]
             {| opt_daysThreshold := Some 10%Z; opt_bufferDays := None;
                opt_now := Some (midnight 20512) |}))
       (res_rescheduled
          (simulateRescheduleLogic utcZone InvalidDate
             [exact7; dueIn10; under7]
             {| opt_daysThreshold := Some 7%Z; opt_bufferDays := None;
                opt_now := Some (midnight 20512) |})).
Proof.
  split; [lia |].
  apply (raising_threshold_keeps_fewer utcZone InvalidDate
           [exact7; dueIn10; under7] 7 10 None (Some (midnight 20512))).
  lia.
Defined.

(** X5.  Today is the local midnight of the day of [now], whatever the
    time of day: the engine takes the midnight of the day number of the
    local time of [now], so two values of [now] on the same day give the
    same result.  (In the years 0 to 99 the [Date] constructor reads the
    year as 1900 + year, hence the condition.) *)
Theorem today_is_the_day_of_now
    (LocalTZA : Z -> Z) (clock : Date) (T B : option Z) (t : Z) :
  ~ (0 <= YearFromTime t <= 99)%Z ->
  todayOf clock {| opt_daysThreshold := T; opt_bufferDays := B;
                   opt_now := Some (DateAt t) |}
  = midnight (Day t)
  /\ forall (t' : Z) (todos : list TodoRecord),
       Day t' = Day t ->
       simulateRescheduleLogic LocalTZA clock todos
         {| opt_daysThreshold := T; opt_bufferDays := B;
            opt_now := Some (DateAt t') |}
       = simulateRescheduleLogic LocalTZA clock todos
           {| opt_daysThreshold := T; opt_bufferDays := B;
              opt_now := Some (DateAt t) |}.
Proof.
  intros Hy. split; [apply todayOf_DateAt; [reflexivity | exact Hy] |].
  intros t' todos Hd. unfold simulateRescheduleLogic.
  cbn [opt_now opt_daysThreshold opt_bufferDays].
  change (default clock (Some (DateAt t'))) with (DateAt t').
  change (default clock (Some (DateAt t))) with (DateAt t).
  cbn [getFullYear getMonth getDate].
  unfold YearFromTime, MonthFromTime, DateFromTime. rewrite Hd. reflexivity.
Qed.

Lemma today_is_the_day_of_now_witness :
  todayOf InvalidDate
          {| opt_daysThreshold := None; opt_bufferDays := None;
             opt_now := Some (DateAt (MakeDate 20512 52200000)) |}
  = midnight 20512
  /\ simulateRescheduleLogic utcZone InvalidDate [exact7]
       {| opt_daysThreshold := None; opt_bufferDays := None;
          opt_now := Some (DateAt (MakeDate 20512 1)) |}
     = simulateRescheduleLogic utcZone InvalidDate [exact7]
         {| opt_daysThreshold := None; opt_bufferDays := None;
            opt_now := Some (DateAt (MakeDate 20512 52200000)) |}.
Proof.
  assert (Hy : ~ (0 <= YearFromTime (MakeDate 20512 52200000) <= 99)%Z)
    by (vm_compute; intros [_ H]; apply H; reflexivity).
  destruct (today_is_the_day_of_now utcZone InvalidDate None None
              (MakeDate 20512 52200000) Hy) as [H1 H2].
  split; [exact H1 |].
  apply (H2 (MakeDate 20512 1) [exact7]). reflexivity.
Defined.

(** X6.  The skip report holds nothing but counts of skipped to-dos: every
    label in it is one of the five of the engine (the threshold label
    carrying the threshold of the run) and every count in it is at least
    1. *)
Theorem skip_report_is_well_formed
    (LocalTZA : Z -> Z) (clock : Date) (todos : list TodoRecord)
    (options : Options) (r : string) (n : nat) :
  res_skippedSummary (simulateRescheduleLogic LocalTZA clock todos options)
  !! r = Some n ->
  (1 <= n)%nat
  /\ In r ["status is not open"; "no deadline set";
           "explicitly scheduled for today (activationDate = today)";
           reasonThreshold (default 7%Z (opt_daysThreshold options));
           "computed new date would not move to-do out of Today"].
Proof.
  unfold simulateRescheduleLogic. cbn [res_skippedSummary].
  apply run_wellCounted, initial_wellCounted.
Qed.

Lemma skip_report_witness :
  res_skippedSummary
    (simulateRescheduleLogic utcZone (midnight 20512)
       [under7; doneNoDeadline; under7]
       {| opt_daysThreshold := None; opt_bufferDays := None;
          opt_now := None |})
  !! "deadline within threshold (< 7 days)" = Some 2%nat
  /\ (1 <= 2)%nat
  /\ In "deadline within threshold (< 7 days)"
        ["status is not open"; "no deadline set";
         "explicitly scheduled for today (activationDate = today)";
         reasonThreshold 7;
         "computed new date would not move to-do out of Today"].
Proof.
  assert (H : res_skippedSummary
                (simulateRescheduleLogic utcZone (midnight 20512)
                   [under7; doneNoDeadline; under7]
                   {| opt_daysThreshold := None; opt_bufferDays := None;
                      opt_now := None |})
              !! "deadline within threshold (< 7 days)" = Some 2%nat)
    by (vm_compute; reflexivity).
  split; [exact H |].
  exact (skip_report_is_well_formed utcZone (midnight 20512)
           [under7; doneNoDeadline; under7]
           {| opt_daysThreshold := None; opt_bufferDays := None;
              opt_now := None |}
           "deadline within threshold (< 7 days)" 2%nat H).
Defined.

(** X7.  Every decision is about an open to-do of the list that has a
    deadline: it carries the identifier and the name of that to-do and the
    first ten characters of its deadline, its [daysUntilDue] is the count
    of days from today to the deadline and is not below the threshold,
    and its former date is not today.  A to-do that is completed or
    canceled, or one scheduled for today, never shows among the
    decisions. *)
Theorem decisions_are_about_open_todos
    (LocalTZA : Z -> Z) (clock : Date) (todos : list TodoRecord)
    (options : Options) :
  Forall
    (fun d =>
       exists todo due,
         In todo todos
         /\ status todo = "open" /\ dueDate todo = Some due /\ due <> ""
         /\ rd_id d = todo_id todo /\ rd_name d = todo_name todo
         /\ rd_dueDate d = slice 0 10 due
         /\ daysUntilDue d
            = daysBetween LocalTZA (todayOf clock options)
                          (parseDateOnly due)
         /\ ltb (daysUntilDue d)
                (Some (default 7%Z (opt_daysThreshold options))) = false
         /\ oldWhen d <> Some (formatDateLocal (todayOf clock options)))
    (res_rescheduled (simulateRescheduleLogic LocalTZA clock todos options)).
Proof.
  unfold simulateRescheduleLogic. cbn [res_rescheduled].
  apply (run_decides LocalTZA
           (default 7%Z (opt_daysThreshold options))
           (default 3%Z (opt_bufferDays options))
           (todayOf clock options)
           (formatDateLocal (todayOf clock options)) todos).
Qed.

(** X8.  With a buffer below the threshold the no-op guard never fires: a
    to-do that the threshold filter lets pass has its deadline at least
    [daysThreshold] days away, so the day [bufferDays] before it is after
    today, and nothing is counted under "computed new date would not move
    to-do out of Today".  This holds with the settings by default (7 and
    3), in every zone whose offsets differ by less than a day. *)
Theorem guard_never_fires_when_buffer_below_threshold
    (LocalTZA : Z -> Z) (clock : Date) (todos : list TodoRecord)
    (options : Options) :
  (forall a b, Z.abs (LocalTZA b - LocalTZA a) < msPerDay)%Z ->
  (default 3 (opt_bufferDays options)
   < default 7 (opt_daysThreshold options))%Z ->
  count "computed new date would not move to-do out of Today"
        (res_skippedSummary
           (simulateRescheduleLogic LocalTZA clock todos options))
  = 0%nat.
Proof.
  intros Hz Hlt. unfold simulateRescheduleLogic. cbn [res_skippedSummary].
  apply run_never_noMove; assumption.
Qed.

Lemma guard_never_fires_witness :
  count "computed new date would not move to-do out of Today"
        (res_skippedSummary
           (simulateRescheduleLogic usEastern2026 (midnight 20512)
              [exact7; guardTest; overdue; dueIn10]
              {| opt_daysThreshold := None; opt_bufferDays := None;
                 opt_now := None |}))
  = 0%nat.
Proof.
  apply (guard_never_fires_when_buffer_below_threshold usEastern2026
           (midnight 20512) [exact7; guardTest; overdue; dueIn10]
           {| opt_daysThreshold := None; opt_bufferDays := None;
              opt_now := None |}).
  - intros a b. unfold usEastern2026, msPerDay.
    repeat match goal with
           | |- context [if ?c then _ else _] => destruct c
           end; lia.
  - simpl. lia.
Defined.

End EngineMore.

(** ** The date utilities: further facts *)

Module DateMoreFacts.
Import JS Enum Calendar JSDate DateUtil CalendarFacts JSFacts DateFacts.
Local Open Scope Z_scope.

Lemma DateFromDay_range n : 1 <= DateFromDay n <= 31.
Proof.
  pose proof (DayWithinYear_range n) as Hr.
  unfold DateFromDay, MonthFromDay.
  set (d := DayWithinYear n) in *.
  destruct (InLeapYear_cases (YearFromDay n)) as [HL | HL]; rewrite HL in *.
  all: repeat match goal with
              | |- context [if ?c <? ?e then _ else _] =>
                  destruct (Z.ltb_spec c e)
              end; lia.
Qed.

(** The first of the month after month [m] (1 to 12) of year [y] comes
    [DaysInMonth y m] days after the first of that month. *)
Lemma MakeDay_next_month y m k :
  1 <= m <= 12 ->
  MakeDay y (m - 1) (DaysInMonth y m + k)
  = MakeDay (if m =? 12 then y + 1 else y) (if m =? 12 then 0 else m) k.
Proof.
  intros Hm. unfold MakeDay.
  pose proof (DayFromYear_succ y) as Hs. rewrite DaysInYear_leap in Hs.
  destruct (Z.eqb_spec m 12) as [-> | Hne].
  - change ((12 - 1) / 12) with 0. change ((12 - 1) mod 12) with 11.
    change (0 / 12) with 0. change (0 mod 12) with 0.
    rewrite !Z.add_0_r. unfold monthStart, DaysInMonth. lia.
  - rewrite (Z.div_small (m - 1) 12), (Z.mod_small (m - 1) 12),
      (Z.div_small m 12), (Z.mod_small m 12) by lia.
    rewrite Z.add_0_r.
    assert (Hc : m = 1 \/ m = 2 \/ m = 3 \/ m = 4 \/ m = 5 \/ m = 6
                 \/ m = 7 \/ m = 8 \/ m = 9 \/ m = 10 \/ m = 11) by lia.
    repeat destruct Hc as [Hc | Hc]; subst m;
      unfold monthStart, DaysInMonth; simpl; lia.
Qed.

(** The text of a date with any two digits for the month and for the day
    is read as that many months and days counted from the start of the
    year and of the month: nothing is checked against the calendar. *)
Lemma parseDateOnly_isoDate_any y m d :
  100 <= y <= 9999 -> 0 <= m <= 99 -> 0 <= d <= 99 ->
  parseDateOnly (isoDate y m d) = midnight (MakeDay y (m - 1) d).
Proof.
  intros Hy Hm Hd.
  pose proof (yearText_ok y ltac:(lia)) as Ty.
  pose proof (fieldText_ok m ltac:(lia)) as Tm.
  pose proof (fieldText_ok d ltac:(lia)) as Td.
  unfold yearTextOk, fieldTextOk in *. unfold isoDate.
  set (ty := padStart 4 "0" (numToString (Some y))) in *.
  set (tm := padStart 2 "0" (numToString (Some m))) in *.
  set (td := padStart 2 "0" (numToString (Some d))) in *.
  apply andb_prop in Ty as [Ty Ny]. apply andb_prop in Ty as [Ly Sy].
  apply andb_prop in Tm as [Tm Nm]. apply andb_prop in Tm as [Lm Sm].
  apply andb_prop in Td as [Td Nd]. apply andb_prop in Td as [Ld Sd].
  apply Nat.eqb_eq in Sy, Sm, Sd.
  destruct (Number ty) as [vy |] eqn:Ey; [| discriminate].
  destruct (Number tm) as [vm |] eqn:Em; [| discriminate].
  destruct (Number td) as [vd |] eqn:Ed; [| discriminate].
  apply Z.eqb_eq in Ny, Nm, Nd. subst vy vm vd.
  assert (Hlen : String.length (ty ++ "-" ++ tm ++ "-" ++ td) = 10%nat).
  { rewrite !length_append, Sy, Sm, Sd. reflexivity. }
  unfold parseDateOnly.
  assert (Hs : slice 0 10 (ty ++ "-" ++ tm ++ "-" ++ td)
               = ty ++ "-" ++ tm ++ "-" ++ td).
  { rewrite <- Hlen at 1.
    rewrite <- (append_empty_r (ty ++ "-" ++ tm ++ "-" ++ td)) at 2.
    apply slice_prefix. }
  rewrite Hs, (split_three ty tm td Ly Lm Ld).
  cbn [map item nth_error]. rewrite Ey, Em, Ed. cbn [sub].
  rewrite newDate_midnight.
  destruct (Z.leb_spec 0 y); destruct (Z.leb_spec y 99); cbn [andb]; try lia.
  reflexivity.
Qed.

(** What [formatDateLocal] prints depends on the day only. *)
Lemma formatDateLocal_DateAt t : formatDateLocal (DateAt t) = formatDay (Day t).
Proof. rewrite formatDay_fields. reflexivity. Qed.

(** From the year 1000 to the year 9999 the text of a day is the
    zero-padded text of its fields. *)
Lemma formatDay_isoDate n :
  1000 <= YearFromDay n <= 9999 ->
  formatDay n = isoDate (YearFromDay n) (MonthFromDay n + 1) (DateFromDay n).
Proof.
  intros Hy. rewrite formatDay_fields. unfold isoDate.
  rewrite yearText_unpadded by exact Hy. reflexivity.
Qed.

(** The text of a day, parsed, is the midnight of that day. *)
Lemma parseDateOnly_formatDay n :
  1000 <= YearFromDay n <= 9999 -> parseDateOnly (formatDay n) = midnight n.
Proof.
  intros Hy. rewrite formatDay_isoDate by exact Hy.
  pose proof (MonthFromDay_range n). pose proof (DateFromDay_range n).
  rewrite parseDateOnly_isoDate by lia.
  replace (MonthFromDay n + 1 - 1) with (MonthFromDay n) by lia.
  rewrite MakeDay_fields. reflexivity.
Qed.


End DateMoreFacts.

(** ** The date utilities: further properties *)

Module DateMore.
Import JS Calendar JSDate DateUtil.
Import CalendarFacts JSFacts DateFacts DateMoreFacts.
Local Open Scope Z_scope.

(** X10.  Parsing what was formatted gives the local midnight of the day
    of the date, whatever its time of day, for the years that print with
    four digits; so formatting, parsing and formatting again gives the
    first text back. *)
Theorem parse_of_format_is_midnight (t : Z) :
  1000 <= YearFromTime t <= 9999 ->
  parseDateOnly (formatDateLocal (DateAt t)) = midnight (Day t)
  /\ formatDateLocal (parseDateOnly (formatDateLocal (DateAt t)))
     = formatDateLocal (DateAt t).
Proof.
  intros Hy. unfold YearFromTime in Hy.
  assert (H : parseDateOnly (formatDateLocal (DateAt t)) = midnight (Day t))
    by (rewrite formatDateLocal_DateAt; apply parseDateOnly_formatDay;
        exact Hy).
  split; [exact H |].
  rewrite H, formatDateLocal_midnight, formatDateLocal_DateAt. reflexivity.
Qed.

Lemma parse_of_format_witness :
  formatDateLocal (DateAt (MakeDate 20512 52200000)) = "2026-02-28"
  /\ parseDateOnly (formatDateLocal (DateAt (MakeDate 20512 52200000)))
     = midnight 20512.
Proof.
  split; [reflexivity |].
  apply (parse_of_format_is_midnight (MakeDate 20512 52200000)).
  vm_compute. split; discriminate.
Defined.

(** X11.  Between two local midnights, in a zone whose offset changes by
    less than a day between them, [daysBetween] is the difference of the
    day numbers when the offset from UTC at the second midnight is not
    greater than at the first, and one less when it is greater: it never
    counts a day too many, and it loses one exactly when the clocks were
    set forward in between (or back, when the count runs backwards). *)
Theorem daysBetween_of_midnights (LocalTZA : Z -> Z) (a b : Z) :
  Z.abs (LocalTZA (MakeDate b 0) - LocalTZA (MakeDate a 0)) < msPerDay ->
  daysBetween LocalTZA (midnight a) (midnight b)
  = Some (if 0 <? LocalTZA (MakeDate b 0) - LocalTZA (MakeDate a 0)
          then b - a - 1 else b - a).
Proof.
  intros H. unfold midnight. rewrite daysBetween_DateAt. f_equal.
  set (x := LocalTZA (MakeDate a 0)) in *.
  set (y := LocalTZA (MakeDate b 0)) in *. clearbody x y.
  unfold MakeDate, msPerDay in *.
  destruct (Z.ltb_spec 0 (y - x)); euclid.
Qed.

Lemma daysBetween_of_midnights_witness :
  daysBetween usEastern2026 (midnight 20512) (midnight 20522) = Some 9
  /\ daysBetween usEastern2026 (midnight 20522) (midnight 20512)
     = Some (-10)
  /\ daysBetween usEastern2026 (midnight 20522) (midnight 20532) = Some 10.
Proof.
  split; [| split].
  - apply (daysBetween_of_midnights usEastern2026 20512 20522).
    vm_compute. reflexivity.
  - apply (daysBetween_of_midnights usEastern2026 20522 20512).
    vm_compute. reflexivity.
  - apply (daysBetween_of_midnights usEastern2026 20522 20532).
    vm_compute. reflexivity.
Defined.

End DateMore.

Module HostDateMore.
Import JS Calendar DateUtil CalendarFacts JSFacts DateFacts DateMoreFacts.
Import HostDate HostDateUtil HostFacts.
Local Open Scope Z_scope.

(** X9.  [parseDateOnly] checks nothing against the calendar.  A text
    with any two digits for the month and the day is a date, the day
    counted from the first of the month; so a day past the end of its
    month is read as a day of the next month (the 30th of February as the
    2nd of March, or the 1st in a leap year), over the end of the year as
    well, and prints as that day, when the clock of the host shows that
    day. *)
Theorem parseDateOnly_rolls_over (zone : Zone) (y m k : Z) :
  1000 <= y <= 9998 -> 1 <= m <= 12 -> 1 <= k <= 28 ->
  dayShown zone (MakeDay (if m =? 12 then y + 1 else y)
                         (if m =? 12 then 0 else m) k) ->
  parseDateOnly zone (isoDate y m (DaysInMonth y m + k))
  = atMidnight zone (MakeDay (if m =? 12 then y + 1 else y)
                             (if m =? 12 then 0 else m) k)
  /\ parseDateOnly zone (isoDate y m (DaysInMonth y m + k))
     = parseDateOnly zone (isoDate (if m =? 12 then y + 1 else y)
                                   (if m =? 12 then 1 else m + 1) k)
  /\ formatDateLocal zone
       (parseDateOnly zone (isoDate y m (DaysInMonth y m + k)))
     = isoDate (if m =? 12 then y + 1 else y)
               (if m =? 12 then 1 else m + 1) k.
Proof.
  intros Hy Hm Hk Hs. pose proof (DaysInMonth_range y m) as Hr.
  assert (H1 : parseDateOnly zone (isoDate y m (DaysInMonth y m + k))
               = atMidnight zone (MakeDay (if m =? 12 then y + 1 else y)
                                          (if m =? 12 then 0 else m) k)).
  { apply parseDateOnly_atMidnight.
    rewrite parseDateOnly_isoDate_any by lia.
    rewrite MakeDay_next_month by exact Hm. reflexivity. }
  assert (Hm' : (if m =? 12 then 1 else m + 1) - 1
                = (if m =? 12 then 0 else m))
    by (destruct (m =? 12); lia).
  assert (H2 : parseDateOnly zone
                 (isoDate (if m =? 12 then y + 1 else y)
                          (if m =? 12 then 1 else m + 1) k)
               = atMidnight zone (MakeDay (if m =? 12 then y + 1 else y)
                                          (if m =? 12 then 0 else m) k)).
  { apply parseDateOnly_atMidnight. rewrite <- Hm'.
    apply parseDateOnly_isoDate; destruct (Z.eqb_spec m 12); lia. }
  split; [exact H1 |]. split; [rewrite H1, H2; reflexivity |].
  rewrite H1, <- H2. apply host_roundtrip_isoDate.
  - destruct (m =? 12); lia.
  - split; [destruct (Z.eqb_spec m 12); lia |].
    pose proof (DaysInMonth_range (if m =? 12 then y + 1 else y)
                  (if m =? 12 then 1 else m + 1)).
    lia.
  - rewrite Hm'. exact Hs.
Qed.

Lemma parseDateOnly_rolls_over_witness :
  isoDate 2026 2 (DaysInMonth 2026 2 + 2) = "2026-02-30"
  /\ dayShown havana2026 (MakeDay 2026 2 2)
  /\ formatDateLocal havana2026 (parseDateOnly havana2026 "2026-02-30")
     = "2026-03-02"
  /\ isoDate 2025 12 (DaysInMonth 2025 12 + 1) = "2025-12-32"
  /\ dayShown utcZone (MakeDay 2026 0 1)
  /\ formatDateLocal utcZone (parseDateOnly utcZone "2025-12-32")
     = "2026-01-01".
Proof.
  assert (Ha : dayShown havana2026 (MakeDay 2026 2 2))
    by (split; [vm_compute; discriminate | vm_compute; reflexivity]).
  assert (Hb : dayShown utcZone (MakeDay 2026 0 1))
    by (split; [vm_compute; discriminate | vm_compute; reflexivity]).
  split; [reflexivity |]. split; [exact Ha |]. split.
  - apply (parseDateOnly_rolls_over havana2026 2026 2 2);
      [lia | lia | lia | exact Ha].
  - split; [reflexivity |]. split; [exact Hb |].
    apply (parseDateOnly_rolls_over utcZone 2025 12 1);
      [lia | lia | lia | exact Hb].
Defined.

(** A day that the clock never showed prints as the day after: on
    Kwajalein the 52nd of July 1993 is the 21st of August, the day that
    was left out. *)
Example parseDateOnly_rolls_into_a_skipped_day :
  isoDate 1993 7 (DaysInMonth 1993 7 + 21) = "1993-07-52"
  /\ parseDateOnly kwajalein1993 "1993-07-52"
     = atMidnight kwajalein1993 (MakeDay 1993 7 21)
  /\ formatDateLocal kwajalein1993 (parseDateOnly kwajalein1993 "1993-07-52")
     = "1993-08-22".
Proof. repeat split; vm_compute; reflexivity. Qed.

End HostDateMore.

(** ** The protection of what is scheduled for today *)

Module ProtectionMore.
Import JS Calendar JSDate DateUtil Reschedule.
Import CalendarFacts JSFacts DateFacts DateMoreFacts RescheduleFacts.
Local Open Scope Z_scope.



End ProtectionMore.

(** ** The URL builder: further facts *)

Module URLMoreFacts.
Import JS ThingsURL Query JSFacts ThingsURLFacts.

(** *** Characters and texts *)

Lemma nat_of_ascii_bound c : (nat_of_ascii c < 256)%nat.
Proof. destruct c as [[] [] [] [] [] [] [] []]; vm_compute; lia. Qed.

(** A check that holds of the 256 characters holds of every character. *)
Lemma ascii_all (P : ascii -> bool) :
  forallb P (map ascii_of_nat (seq 0 256)) = true -> forall c, P c = true.
Proof.
  intros H c. rewrite forallb_forall in H. apply H.
  rewrite <- (ascii_nat_embedding c). apply in_map, in_seq.
  pose proof (nat_of_ascii_bound c). lia.
Qed.

Lemma append_assoc (a b c : string) : (a ++ b) ++ c = a ++ (b ++ c).
Proof.
  induction a as [| x a IH]; [reflexivity |].
  change (String x ((a ++ b) ++ c) = String x (a ++ (b ++ c))).
  f_equal. exact IH.
Qed.

Lemma chars_app (a b : string) :
  list_ascii_of_string (a ++ b)
  = (list_ascii_of_string a ++ list_ascii_of_string b)%list.
Proof.
  induction a as [| x a IH]; [reflexivity |].
  change (x :: list_ascii_of_string (a ++ b)
          = x :: (list_ascii_of_string a ++ list_ascii_of_string b)%list).
  f_equal. exact IH.
Qed.

Lemma lacks_forallb sep (s : string) :
  lacks sep s
  = forallb (fun c => negb (Ascii.eqb c sep)) (list_ascii_of_string s).
Proof.
  induction s as [| c s IH]; [reflexivity |]. simpl. rewrite IH. reflexivity.
Qed.

Lemma lacks_app sep (a b : string) :
  lacks sep (a ++ b) = lacks sep a && lacks sep b.
Proof. rewrite !lacks_forallb, chars_app. apply forallb_app. Qed.

(** *** The characters of an encoded value *)

(** What an encoded value is made of: the characters that are left as they
    are, and the percent sign. *)
Lemma chunk_safe c :
  forallb (fun x => isUnreserved x || Ascii.eqb x "%")
          (list_ascii_of_string
             (if isUnreserved c then String c "" else percentEncode c))
  = true.
Proof.
  revert c. apply ascii_all. vm_compute. reflexivity.
Qed.

Lemma encode_safe (s : string) :
  forallb (fun x => isUnreserved x || Ascii.eqb x "%")
          (list_ascii_of_string (encodeURIComponent s))
  = true.
Proof.
  induction s as [| c s IH]; [reflexivity |].
  cbn [encodeURIComponent]. rewrite chars_app, forallb_app, chunk_safe, IH.
  reflexivity.
Qed.

Lemma safe_lacks sep (t : string) :
  isUnreserved sep || Ascii.eqb sep "%" = false ->
  forallb (fun x => isUnreserved x || Ascii.eqb x "%")
          (list_ascii_of_string t) = true ->
  lacks sep t = true.
Proof.
  intros Hsep H. rewrite lacks_forallb.
  rewrite forallb_forall in H |- *. intros x Hx. specialize (H x Hx).
  destruct (Ascii.eqb_spec x sep) as [-> | _]; [congruence | reflexivity].
Qed.

Lemma encode_lacks sep (s : string) :
  isUnreserved sep || Ascii.eqb sep "%" = false ->
  lacks sep (encodeURIComponent s) = true.
Proof. intros H. apply safe_lacks; [exact H | apply encode_safe]. Qed.

(** *** Decoding *)

Lemma chunk_decode c (rest : string) :
  percentDecode
    ((if isUnreserved c then String c "" else percentEncode c) ++ rest)
  = match percentDecode rest with
    | Some t => Some (String c t)
    | None => None
    end.
Proof.
  destruct c as [[] [] [] [] [] [] [] []]; reflexivity.
Qed.

Lemma decode_encode (s : string) :
  percentDecode (encodeURIComponent s) = Some s.
Proof.
  induction s as [| c s IH]; [reflexivity |].
  cbn [encodeURIComponent]. rewrite chunk_decode, IH. reflexivity.
Qed.

(** *** The query *)

Lemma concat_split sep (parts : list string) :
  parts <> [] ->
  Forall (fun s => lacks sep s = true) parts ->
  split sep (String.concat (String sep "") parts) = parts.
Proof.
  intros Hne H. induction H as [| x l Hx Hl IH]; [congruence |].
  destruct l as [| y l].
  - simpl. apply split_lacks. exact Hx.
  - change (String.concat (String sep "") (x :: y :: l))
      with (x ++ String sep (String.concat (String sep "") (y :: l))).
    rewrite (split_app sep x _ Hx), IH by discriminate. reflexivity.
Qed.

Lemma cut_app sep (key value : string) :
  lacks sep key = true ->
  cut sep (key ++ String sep value) = (key, value).
Proof.
  induction key as [| c key IH]; simpl.
  - rewrite Ascii.eqb_refl. reflexivity.
  - destruct (Ascii.eqb c sep); simpl; [discriminate |].
    intros H. rewrite (IH H). reflexivity.
Qed.

Lemma valueText_lacks sep value :
  isUnreserved sep || Ascii.eqb sep "%" = false ->
  lacks sep (valueText value) = true.
Proof.
  intros H. destruct value as [[s | b] |]; cbn [valueText]; unfold encodeParam.
  - apply encode_lacks. exact H.
  - apply safe_lacks; [exact H |]. destruct b; reflexivity.
  - apply encode_lacks. exact H.
Qed.

Lemma serialize_lacks entry :
  plainKey (fst entry) = true -> lacks "&" (serialize entry) = true.
Proof.
  intros H. apply andb_prop in H as [H _]. unfold serialize.
  rewrite !lacks_app, H, valueText_lacks by reflexivity. reflexivity.
Qed.

Lemma decode_valueText value :
  value <> None -> percentDecode (valueText value) = Some (textOf value).
Proof.
  destruct value as [[s | b] |]; simpl; [| | congruence]; intros _.
  - apply decode_encode.
  - destruct b; reflexivity.
Qed.

Lemma read_serialize entry :
  plainKey (fst entry) = true -> snd entry <> None ->
  (fst (cut "=" (serialize entry)),
   percentDecode (snd (cut "=" (serialize entry))))
  = (fst entry, Some (textOf (snd entry))).
Proof.
  intros H Hv. apply andb_prop in H as [_ H]. unfold serialize.
  change (fst entry ++ "=" ++ valueText (snd entry))
    with (fst entry ++ String "=" (valueText (snd entry))).
  rewrite (cut_app "=" _ _ H). cbn [fst snd].
  rewrite decode_valueText by exact Hv. reflexivity.
Qed.

Lemma parseQuery_serialized (entries : Params) :
  entries <> [] ->
  Forall (fun e => plainKey (fst e) = true) entries ->
  Forall (fun e => snd e <> None) entries ->
  parseQuery (String.concat "&" (map serialize entries))
  = map (fun e => (fst e, Some (textOf (snd e)))) entries.
Proof.
  intros Hne Hk Hv. unfold parseQuery.
  rewrite (concat_split "&").
  - rewrite map_map. apply map_ext_in. intros e He.
    rewrite List.Forall_forall in Hk, Hv.
    apply read_serialize; [apply Hk | apply Hv]; exact He.
  - destruct entries; [congruence | discriminate].
  - rewrite List.Forall_forall in Hk |- *. intros t Ht.
    apply in_map_iff in Ht as (e & <- & He).
    apply serialize_lacks, Hk, He.
Qed.

Lemma filtered_plain (params : Params) :
  Forall (fun e => plainKey (fst e) = true) params ->
  Forall (fun e => plainKey (fst e) = true) (filteredParams params).
Proof.
  rewrite !List.Forall_forall. intros H e He.
  apply List.filter_In in He as [He _]. apply H, He.
Qed.

Lemma filtered_defined (params : Params) :
  Forall (fun e => snd e <> None) (filteredParams params).
Proof.
  rewrite List.Forall_forall. intros [k v] He.
  apply List.filter_In in He as [_ He].
  apply (kept_valueText k v) in He as (_ & He & _). exact He.
Qed.

(** *** The keys the builders assign *)

Section Keys.
Variable P : string -> Prop.

Lemma assign_all key value obj :
  P key -> Forall (fun e => P (fst e)) obj ->
  Forall (fun e => P (fst e)) (assign key value obj).
Proof.
  intros Hk H. induction H as [| [k v] obj Hx Ho IH]; simpl.
  - constructor; [exact Hk | constructor].
  - destruct (k =? key); constructor; assumption.
Qed.

Lemma setIfTruthy_all key v obj :
  P key -> Forall (fun e => P (fst e)) obj ->
  Forall (fun e => P (fst e)) (setIfTruthy key v obj).
Proof.
  intros Hk H. unfold setIfTruthy. destruct v as [s |]; [| exact H].
  destruct (truthy (Some s)); [apply assign_all; assumption | exact H].
Qed.

Lemma setIfDefined_all key v obj :
  P key -> Forall (fun e => P (fst e)) obj ->
  Forall (fun e => P (fst e)) (setIfDefined key v obj).
Proof.
  intros Hk H. unfold setIfDefined. destruct v as [s |]; [| exact H].
  apply assign_all; assumption.
Qed.

Lemma setFlag_all key v obj :
  P key -> Forall (fun e => P (fst e)) obj ->
  Forall (fun e => P (fst e)) (setFlag key v obj).
Proof.
  intros Hk H. unfold setFlag. destruct v as [b |]; [| exact H].
  apply assign_all; assumption.
Qed.

Lemma setLines_all key v obj :
  P key -> Forall (fun e => P (fst e)) obj ->
  Forall (fun e => P (fst e)) (setLines key v obj).
Proof.
  intros Hk H. unfold setLines. destruct v as [s |]; [| exact H].
  destruct (truthy (Some s)); [apply assign_all; assumption | exact H].
Qed.
End Keys.

Ltac all_keys :=
  repeat first
    [ apply (setIfTruthy_all (fun k => plainKey k = true))
    | apply (setIfDefined_all (fun k => plainKey k = true))
    | apply (setFlag_all (fun k => plainKey k = true))
    | apply (setLines_all (fun k => plainKey k = true))
    | apply (assign_all (fun k => plainKey k = true)) ];
  try reflexivity; try (constructor; fail).

(** *** No key twice *)

Lemma assign_NoDup key value obj :
  List.NoDup (map fst obj) -> List.NoDup (map fst (assign key value obj)).
Proof.
  induction obj as [| [k v] obj IH]; simpl; intros H.
  - constructor; [intros [] | constructor].
  - apply List.NoDup_cons_iff in H as [Hk Ho].
    destruct (String.eqb_spec k key) as [-> | Hne]; simpl.
    + apply List.NoDup_cons_iff. split; assumption.
    + apply List.NoDup_cons_iff. split; [| apply IH, Ho].
      intros Hin. apply assign_keys in Hin as [E | Hin]; [congruence |].
      exact (Hk Hin).
Qed.

Lemma setIfTruthy_NoDup key v obj :
  List.NoDup (map fst obj) -> List.NoDup (map fst (setIfTruthy key v obj)).
Proof.
  intros H. unfold setIfTruthy. destruct v as [s |]; [| exact H].
  destruct (truthy (Some s)); [apply assign_NoDup, H | exact H].
Qed.

Lemma setIfDefined_NoDup key v obj :
  List.NoDup (map fst obj) -> List.NoDup (map fst (setIfDefined key v obj)).
Proof.
  intros H. unfold setIfDefined. destruct v as [s |]; [| exact H].
  apply assign_NoDup, H.
Qed.

Lemma setFlag_NoDup key v obj :
  List.NoDup (map fst obj) -> List.NoDup (map fst (setFlag key v obj)).
Proof.
  intros H. unfold setFlag. destruct v as [b |]; [| exact H].
  apply assign_NoDup, H.
Qed.

Lemma setLines_NoDup key v obj :
  List.NoDup (map fst obj) -> List.NoDup (map fst (setLines key v obj)).
Proof.
  intros H. unfold setLines. destruct v as [s |]; [| exact H].
  destruct (truthy (Some s)); [apply assign_NoDup, H | exact H].
Qed.

Lemma filtered_NoDup (params : Params) :
  List.NoDup (map fst params) -> List.NoDup (map fst (filteredParams params)).
Proof.
  unfold filteredParams. induction params as [| e params IH]; simpl;
    intros H; [constructor |].
  apply List.NoDup_cons_iff in H as [He Hp].
  destruct (kept e); simpl; [| apply IH, Hp].
  apply List.NoDup_cons_iff. split; [| apply IH, Hp].
  intros Hin. apply He. apply in_map_iff in Hin as (x & Hx & Hin).
  apply List.filter_In in Hin as [Hin _].
  apply in_map_iff. exists x. split; assumption.
Qed.

Ltac no_dup :=
  apply filtered_NoDup;
  repeat first
    [ apply setIfTruthy_NoDup | apply setIfDefined_NoDup
    | apply setFlag_NoDup | apply setLines_NoDup | apply assign_NoDup ];
  constructor.

(** *** What an assignment keeps, and what it adds *)

Lemma assign_entry key value obj k v :
  k <> key -> In (k, v) obj -> In (k, v) (assign key value obj).
Proof.
  intros Hne. induction obj as [| [k0 v0] obj IH]; simpl; [tauto |].
  intros [E | Hin].
  - injection E as -> ->.
    destruct (String.eqb_spec k key); [congruence | left; reflexivity].
  - destruct (String.eqb_spec k0 key); right; auto.
Qed.

Lemma setIfTruthy_entry key w obj k v :
  k <> key -> In (k, v) obj -> In (k, v) (setIfTruthy key w obj).
Proof.
  intros Hne H. unfold setIfTruthy. destruct w as [s |]; [| exact H].
  destruct (truthy (Some s)); [apply assign_entry; assumption | exact H].
Qed.

Lemma setFlag_entry key w obj k v :
  k <> key -> In (k, v) obj -> In (k, v) (setFlag key w obj).
Proof.
  intros Hne H. unfold setFlag. destruct w as [b |]; [| exact H].
  apply assign_entry; assumption.
Qed.

Lemma setLines_entry key w obj k v :
  k <> key -> In (k, v) obj -> In (k, v) (setLines key w obj).
Proof.
  intros Hne H. unfold setLines. destruct w as [s |]; [| exact H].
  destruct (truthy (Some s)); [apply assign_entry; assumption | exact H].
Qed.

Lemma setFlag_keys key v obj x :
  In x (map fst (setFlag key v obj)) -> x = key \/ In x (map fst obj).
Proof.
  unfold setFlag. destruct v as [b |]; [apply assign_keys | auto].
Qed.

Lemma setLines_keys key v obj x :
  In x (map fst (setLines key v obj)) -> x = key \/ In x (map fst obj).
Proof.
  unfold setLines. destruct v as [s |]; [| auto].
  destruct (truthy (Some s)); [apply assign_keys | auto].
Qed.

Ltac keep_entry :=
  repeat first
    [ apply setIfTruthy_entry; [discriminate |]
    | apply setFlag_entry; [discriminate |]
    | apply setLines_entry; [discriminate |] ].

Ltac trace_key H :=
  repeat first
    [ apply setIfTruthy_keys in H as [H | H]; [discriminate H |]
    | apply setFlag_keys in H as [H | H]; [discriminate H |]
    | apply setLines_keys in H as [H | H]; [discriminate H |] ].

Lemma setLines_truthy key s obj :
  s <> "" -> setLines key (Some s) obj = assign key (Some (PString s)) obj.
Proof.
  intros H. unfold setLines, truthy. apply String.eqb_neq in H. rewrite H.
  cbn [negb]. rewrite replaceAll_LF. reflexivity.
Qed.

Lemma setIfTruthy_truthy key s obj :
  s <> "" -> setIfTruthy key (Some s) obj = assign key (Some (PString s)) obj.
Proof.
  intros H. unfold setIfTruthy, truthy. apply String.eqb_neq in H. rewrite H.
  reflexivity.
Qed.

Lemma kept_text key s : s <> "" -> kept (key, Some (PString s)) = true.
Proof.
  intros H. unfold kept. cbn [snd]. apply String.eqb_neq in H. rewrite H.
  reflexivity.
Qed.

Lemma filtered_entry (params : Params) k v :
  In (k, v) params -> kept (k, v) = true ->
  In k (map fst (filteredParams params)).
Proof.
  intros Hin Hk. apply in_map_iff. exists (k, v). split; [reflexivity |].
  apply List.filter_In. split; assumption.
Qed.

End URLMoreFacts.

(** ** The URL builder: further properties *)

Module URLMore.
Import JS ThingsURL Query JSFacts RescheduleFacts ThingsURLFacts URLMoreFacts.

(** X13.  An encoded value can be decoded: percent-decoding what
    [encodeParam] gives returns the value, byte for byte, so two values
    that differ are encoded differently. *)
Theorem encodeParam_decodes (value : string) :
  percentDecode (encodeParam value) = Some value
  /\ forall other, encodeParam other = encodeParam value -> other = value.
Proof.
  split; [apply decode_encode |].
  intros other H. apply (f_equal percentDecode) in H.
  unfold encodeParam in H. rewrite !decode_encode in H. congruence.
Qed.

(** X14.  An encoded value is made of letters, digits, the nine marks
    [- _ . ! ~ * ' ( )] and percent signs only.  No [&], [=], [?], [#],
    [/], [+] and no blank is in it, so a value cannot end its parameter,
    start another one or touch the command. *)
Theorem encodeParam_is_url_safe (value : string) :
  Forall (fun c => isUnreserved c = true \/ c = "%"%char)
         (list_ascii_of_string (encodeParam value))
  /\ lacks "&" (encodeParam value) = true
  /\ lacks "=" (encodeParam value) = true
  /\ lacks "?" (encodeParam value) = true
  /\ lacks "#" (encodeParam value) = true
  /\ lacks "/" (encodeParam value) = true
  /\ lacks "+" (encodeParam value) = true
  /\ lacks " " (encodeParam value) = true.
Proof.
  split.
  - pose proof (encode_safe value) as H. rewrite forallb_forall in H.
    apply List.Forall_forall. intros c Hc. specialize (H c Hc).
    apply orb_prop in H as [H | H]; [left; exact H |].
    right. apply Ascii.eqb_eq. exact H.
  - repeat split; apply encode_lacks; reflexivity.
Qed.

(** X15.  The query of a URL reads back as the parameters that were kept:
    cut at the [&], each part cut at its first [=] and the value decoded,
    it gives the keys and the texts of the values that are neither
    [undefined] nor empty, in their order, whatever characters the values
    hold.  The keys must hold no [&] and no [=], as is the case of every
    key the [build*URL] functions assign. *)
Theorem query_reads_back :
  (forall (command : string) (params : Params),
      Forall (fun e => plainKey (fst e) = true) params ->
      filteredParams params <> [] ->
      exists query,
        buildURL command params = THINGS_SCHEME ++ command ++ "?" ++ query
        /\ parseQuery query
           = map (fun e => (fst e, Some (textOf (snd e))))
                 (filteredParams params))
  /\ (forall p, Forall (fun e => plainKey (fst e) = true) (addTodoParams p))
  /\ (forall p,
        Forall (fun e => plainKey (fst e) = true) (addProjectParams p))
  /\ (forall p,
        Forall (fun e => plainKey (fst e) = true) (updateTodoParams p))
  /\ (forall p,
        Forall (fun e => plainKey (fst e) = true) (updateProjectParams p))
  /\ (forall p, Forall (fun e => plainKey (fst e) = true) (showParams p))
  /\ (forall p, Forall (fun e => plainKey (fst e) = true) (searchParams p))
  /\ (forall p, Forall (fun e => plainKey (fst e) = true) (jsonParams p)).
Proof.
  split.
  { intros command params Hk Hne.
    exists (String.concat "&" (map serialize (filteredParams params))).
    split; [apply buildURL_query; exact Hne |].
    apply parseQuery_serialized;
      [exact Hne | apply filtered_plain; exact Hk | apply filtered_defined]. }
  repeat split; intros p.
  - unfold addTodoParams. destruct (truthy (at_titles p)); all_keys.
  - unfold addProjectParams. all_keys.
  - unfold updateTodoParams. all_keys.
  - unfold updateProjectParams. all_keys.
  - unfold showParams. all_keys.
  - unfold searchParams. all_keys.
  - unfold jsonParams. all_keys.
Qed.

Lemma query_reads_back_witness :
  exists query,
    buildURL "add"
             [("title", Some (PString "Milk & eggs = 2?"));
              ("notes", Some (PString ""));
              ("when", None);
              ("reveal", Some (PBoolean true))]
    = THINGS_SCHEME ++ "add" ++ "?" ++ query
    /\ parseQuery query
       = [("title", Some "Milk & eggs = 2?"); ("reveal", Some "true")].
Proof.
  apply (proj1 query_reads_back "add"
           [("title", Some (PString "Milk & eggs = 2?"));
            ("notes", Some (PString ""));
            ("when", None);
            ("reveal", Some (PBoolean true))]).
  - repeat (constructor; [reflexivity |]). constructor.
  - vm_compute. discriminate.
Defined.

(** X16.  No URL names a key twice: the parameters a [build*URL] function
    hands to [buildURL], and so the parameters that are serialized, have
    keys that are all different. *)
Theorem builders_repeat_no_key :
  (forall p, List.NoDup (map fst (filteredParams (addTodoParams p))))
  /\ (forall p, List.NoDup (map fst (filteredParams (addProjectParams p))))
  /\ (forall p, List.NoDup (map fst (filteredParams (updateTodoParams p))))
  /\ (forall p, List.NoDup (map fst (filteredParams (updateProjectParams p))))
  /\ (forall p, List.NoDup (map fst (filteredParams (showParams p))))
  /\ (forall p, List.NoDup (map fst (filteredParams (searchParams p))))
  /\ (forall p, List.NoDup (map fst (filteredParams (jsonParams p)))).
Proof.
  repeat split; intros p.
  - unfold addTodoParams. destruct (truthy (at_titles p)); no_dup.
  - unfold addProjectParams. no_dup.
  - unfold updateTodoParams. no_dup.
  - unfold updateProjectParams. no_dup.
  - unfold showParams. no_dup.
  - unfold searchParams. no_dup.
  - unfold jsonParams. no_dup.
Qed.

(** X17.  In an Add To-Do, [titles] takes priority over [title]: when
    [titles] is given and not empty the URL carries it, with its text
    unchanged, and no [title]; when it is not, the URL carries no
    [titles], and it carries the [title] that is given and not empty. *)
Theorem titles_take_priority (p : AddTodoParams) :
  (forall titles,
      at_titles p = Some titles -> titles <> "" ->
      In ("titles", Some (PString titles)) (filteredParams (addTodoParams p))
      /\ ~ In "title" (map fst (addTodoParams p)))
  /\ (truthy (at_titles p) = false ->
      ~ In "titles" (map fst (addTodoParams p))
      /\ forall title,
           at_title p = Some title -> title <> "" ->
           In ("title", Some (PString title))
              (filteredParams (addTodoParams p))).
Proof.
  split.
  - intros titles Ht Hne.
    assert (Htr : truthy (at_titles p) = true)
      by (rewrite Ht; apply truthy_Some; exact Hne).
    unfold addTodoParams. rewrite Htr, Ht.
    rewrite (setLines_truthy "titles" titles [] Hne). cbn [assign]. split.
    + apply List.filter_In. split; [| apply kept_text; exact Hne].
      keep_entry. left. reflexivity.
    + intros H. trace_key H. simpl in H.
      destruct H as [H | H]; [discriminate H | exact H].
  - intros Hf. unfold addTodoParams. rewrite Hf. split.
    + intros H. trace_key H. exact H.
    + intros title Ht Hne. rewrite Ht.
      rewrite (setIfTruthy_truthy "title" title [] Hne). cbn [assign].
      apply List.filter_In. split; [| apply kept_text; exact Hne].
      keep_entry. left. reflexivity.
Qed.

Lemma titles_take_priority_witness :
  In ("titles", Some (PString ("Milk" ++ String LF "Eggs")))
     (filteredParams
        (addTodoParams
           {| at_title := Some "Shopping";
              at_titles := Some ("Milk" ++ String LF "Eggs");
              at_notes := None; at_when := Some "today";
              at_deadline := None; at_tags := None;
              at_checklist_items := None; at_list_id := None;
              at_list := None; at_heading_id := None; at_heading := None;
              at_completed := None; at_canceled := None;
              at_show_quick_entry := None; at_reveal := None;
              at_creation_date := None; at_completion_date := None |}))
  /\ ~ In "title"
          (map fst
             (addTodoParams
                {| at_title := Some "Shopping";
                   at_titles := Some ("Milk" ++ String LF "Eggs");
                   at_notes := None; at_when := Some "today";
                   at_deadline := None; at_tags := None;
                   at_checklist_items := None; at_list_id := None;
                   at_list := None; at_heading_id := None;
                   at_heading := None;
                   at_completed := None; at_canceled := None;
                   at_show_quick_entry := None; at_reveal := None;
                   at_creation_date := None;
                   at_completion_date := None |})).
Proof.
  apply (proj1 (titles_take_priority
                  {| at_title := Some "Shopping";
                     at_titles := Some ("Milk" ++ String LF "Eggs");
                     at_notes := None; at_when := Some "today";
                     at_deadline := None; at_tags := None;
                     at_checklist_items := None; at_list_id := None;
                     at_list := None; at_heading_id := None;
                     at_heading := None;
                     at_completed := None; at_canceled := None;
                     at_show_quick_entry := None; at_reveal := None;
                     at_creation_date := None;
                     at_completion_date := None |})
               ("Milk" ++ String LF "Eggs"));
    [reflexivity | vm_compute; discriminate].
Defined.

(** X18.  The URL of [buildJsonURL] always carries its data: it is never
    the bare command, its first parameter is [data], whose value decodes
    to the JSON text of the array of operations, and after it come the
    token, when one is given and not empty, and [reveal], when it is
    given, and nothing else. *)
Theorem json_url_carries_its_data (p : JsonParams) :
  exists query,
    buildJsonURL p = "things:///json?" ++ query
    /\ parseQuery query
       = (("data", Some (stringify (JArray (js_data p))))
          :: (if truthy (js_auth_token p)
              then [("auth-token", js_auth_token p)] else [])
          ++ match js_reveal p with
             | Some b => [("reveal", Some (if b then "true" else "false"))]
             | None => []
             end)%list.
Proof.
  exists (String.concat "&" (map serialize (filteredParams (jsonParams p)))).
  assert (Hk : kept ("data", Some (PString (stringify (JArray (js_data p)))))
               = true) by reflexivity.
  assert (Hf : filteredParams (jsonParams p)
               = (("data", Some (PString (stringify (JArray (js_data p)))))
                  :: (if truthy (js_auth_token p)
                      then [("auth-token",
                             option_map PString (js_auth_token p))]
                      else [])
                  ++ match js_reveal p with
                     | Some b => [("reveal", Some (PBoolean b))]
                     | None => []
                     end)%list).
  { unfold jsonParams, filteredParams.
    destruct (js_auth_token p) as [t |], (js_reveal p) as [b |];
      cbn [setIfTruthy setFlag];
      try (destruct (truthy (Some t)) eqn:Et);
      cbn [assign String.eqb Ascii.eqb Bool.eqb List.filter app option_map];
      rewrite ?Hk; try reflexivity.
    all: unfold kept at 1; cbn [snd]; unfold truthy in Et; rewrite Et;
      reflexivity. }
  split.
  - unfold buildJsonURL. rewrite buildURL_query; [reflexivity |].
    rewrite Hf. discriminate.
  - rewrite parseQuery_serialized.
    + rewrite Hf. cbn [map fst snd textOf]. f_equal.
      rewrite map_app. f_equal.
      * destruct (js_auth_token p) as [t |]; [| reflexivity].
        destruct (truthy (Some t)); reflexivity.
      * destruct (js_reveal p) as [b |]; reflexivity.
    + rewrite Hf. discriminate.
    + apply filtered_plain. unfold jsonParams. all_keys.
    + apply filtered_defined.
Qed.

End URLMore.

(** ** The scripts of the reader: facts *)

Module AppleScriptFacts.
Import JS ThingsURL AppleScript JSFacts ThingsURLFacts URLMoreFacts.

(** *** Upper and lower case *)

Lemma lower_upper c : lowerChar (upperChar c) = lowerChar c.
Proof.
  apply Ascii.eqb_eq. revert c.
  apply (ascii_all (fun c => Ascii.eqb (lowerChar (upperChar c))
                                       (lowerChar c))).
  vm_compute. reflexivity.
Qed.

Lemma upper_lower c : upperChar (lowerChar c) = upperChar c.
Proof.
  apply Ascii.eqb_eq. revert c.
  apply (ascii_all (fun c => Ascii.eqb (upperChar (lowerChar c))
                                       (upperChar c))).
  vm_compute. reflexivity.
Qed.

Lemma lower_lower c : lowerChar (lowerChar c) = lowerChar c.
Proof.
  apply Ascii.eqb_eq. revert c.
  apply (ascii_all (fun c => Ascii.eqb (lowerChar (lowerChar c))
                                       (lowerChar c))).
  vm_compute. reflexivity.
Qed.

Lemma toLowerCase_idem s : toLowerCase (toLowerCase s) = toLowerCase s.
Proof.
  induction s as [| c s IH]; [reflexivity |].
  unfold toLowerCase in *. cbn [mapChars]. rewrite lower_lower, IH.
  reflexivity.
Qed.

Lemma substring_all (s : string) : substring 0 (String.length s) s = s.
Proof.
  induction s as [| c s IH]; [reflexivity |]. simpl. rewrite IH. reflexivity.
Qed.

(** The name normalised: the first character in upper case, the others in
    lower case. *)
Lemma normalizedList_cons c r :
  normalizedList (String c r) = String (upperChar c) (toLowerCase r).
Proof.
  unfold normalizedList, charAt, sliceFrom. cbn [String.length].
  replace (substring 0 1 (String c r)) with (String c "")
    by (simpl; destruct r; reflexivity).
  replace (substring 1 (S (String.length r) - 1) (String c r)) with r
    by (simpl; rewrite Nat.sub_0_r, substring_all; reflexivity).
  reflexivity.
Qed.

Lemma lower_normalized s : toLowerCase (normalizedList s) = toLowerCase s.
Proof.
  destruct s as [| c r]; [reflexivity |]. rewrite normalizedList_cons.
  unfold toLowerCase. cbn [mapChars]. rewrite lower_upper.
  fold (toLowerCase r). fold (toLowerCase (toLowerCase r)).
  rewrite toLowerCase_idem. reflexivity.
Qed.

Lemma normalized_lower s : normalizedList (toLowerCase s) = normalizedList s.
Proof.
  destruct s as [| c r]; [reflexivity |].
  change (toLowerCase (String c r))
    with (String (lowerChar c) (toLowerCase r)).
  rewrite !normalizedList_cons, upper_lower, toLowerCase_idem. reflexivity.
Qed.

(** The seven names are in their normal form. *)
Lemma validLists_normal canonical :
  In canonical validLists -> normalizedList canonical = canonical.
Proof.
  intros H. unfold validLists in H. simpl in H.
  repeat destruct H as [<- | H]; try reflexivity. destruct H.
Qed.

Lemma listIncludes_In xs x : listIncludes xs x = true <-> In x xs.
Proof.
  unfold listIncludes. rewrite existsb_exists. split.
  - intros (y & Hy & E). apply String.eqb_eq in E. subst y. exact Hy.
  - intros H. exists x. split; [exact H | apply String.eqb_refl].
Qed.

(** A name is accepted when, and only when, it is one of the seven up to
    the case of its letters. *)
Lemma normalized_valid listName canonical :
  In canonical validLists ->
  toLowerCase listName = toLowerCase canonical ->
  normalizedList listName = canonical.
Proof.
  intros Hin E.
  rewrite <- (normalized_lower listName), E, normalized_lower.
  apply validLists_normal. exact Hin.
Qed.

(** *** Reading a literal *)

Lemma replaceAll_app c by_ (a b : string) :
  replaceAll c by_ (a ++ b) = replaceAll c by_ a ++ replaceAll c by_ b.
Proof.
  induction a as [| x a IH]; [reflexivity |].
  change (replaceAll c by_ (String x (a ++ b))
          = replaceAll c by_ (String x a) ++ replaceAll c by_ b).
  cbn [replaceAll]. rewrite IH, append_assoc. reflexivity.
Qed.

Lemma replaceAll_lacks c by_ (s : string) :
  lacks c s = true -> replaceAll c by_ s = s.
Proof.
  induction s as [| x s IH]; [reflexivity |]. simpl.
  destruct (Ascii.eqb x c); simpl; [discriminate |].
  intros H. rewrite (IH H). reflexivity.
Qed.

Lemma plainText_cons c s :
  plainText (String c s) = plainChar c && plainText s.
Proof. reflexivity. Qed.

Lemma plainChar_cases c :
  plainChar c = true ->
  Ascii.eqb c DQ = false /\ Ascii.eqb c BS = false
  /\ Ascii.eqb c LF = false /\ Ascii.eqb c CR = false.
Proof.
  unfold plainChar. intros H. apply negb_true_iff in H.
  repeat (apply orb_false_iff in H as [H ?]). auto.
Qed.

Lemma plainText_lacks s :
  plainText s = true -> lacks DQ s = true /\ lacks BS s = true.
Proof.
  induction s as [| c s IH]; [auto |].
  rewrite plainText_cons. intros H. apply andb_prop in H as [Hc Hs].
  destruct (plainChar_cases c Hc) as (H1 & H2 & _).
  destruct (IH Hs) as [I1 I2]. simpl. rewrite H1, H2, I1, I2. auto.
Qed.

(** A text without quote, backslash and line break is read as it is. *)
Lemma readLiteral_plain (p s : string) :
  plainText p = true ->
  readLiteral (p ++ s)
  = match readLiteral s with
    | Some (v, after) => Some (p ++ v, after)
    | None => None
    end.
Proof.
  induction p as [| c p IH]; intros H.
  - change ("" ++ s) with s. destruct (readLiteral s) as [[v after] |];
      reflexivity.
  - rewrite plainText_cons in H. apply andb_prop in H as [Hc Hp].
    destruct (plainChar_cases c Hc) as (H1 & H2 & H3 & H4).
    change (String c p ++ s) with (String c (p ++ s)).
    cbn [readLiteral]. rewrite H1, H2, H3, H4. cbn [orb].
    rewrite (IH Hp). destruct (readLiteral s) as [[v after] |]; reflexivity.
Qed.

Lemma readLiteral_quote (s : string) : readLiteral (String DQ s) = Some ("", s).
Proof. reflexivity. Qed.

Lemma readLiteral_escaped e (s : string) :
  e = DQ \/ e = BS ->
  readLiteral (String BS (String e s))
  = match readLiteral s with
    | Some (v, after) => Some (String e v, after)
    | None => None
    end.
Proof. intros [-> | ->]; reflexivity. Qed.

(** The name of [escapedName], read back: each quote was given its
    backslash, the other characters are read as they are, as long
    as none is a backslash or a line break. *)
Lemma readLiteral_escapedName (name s : string) :
  lacks BS name = true -> lacks LF name = true -> lacks CR name = true ->
  readLiteral (escapedName name ++ s)
  = match readLiteral s with
    | Some (v, after) => Some (name ++ v, after)
    | None => None
    end.
Proof.
  unfold escapedName.
  induction name as [| c name IH]; intros Hb Hl Hc.
  - change (replaceAll DQ (String BS (String DQ "")) "" ++ s) with s.
    destruct (readLiteral s) as [[v after] |]; reflexivity.
  - simpl in Hb, Hl, Hc.
    apply andb_prop in Hb as [Hb Hb'], Hl as [Hl Hl'], Hc as [Hc Hc'].
    apply negb_true_iff in Hb, Hl, Hc.
    cbn [replaceAll]. rewrite append_assoc.
    destruct (Ascii.eqb_spec c DQ) as [-> | Hq].
    + change (String BS (String DQ "") ++
              replaceAll DQ (String BS (String DQ "")) name ++ s)
        with (String BS (String DQ
                (replaceAll DQ (String BS (String DQ "")) name ++ s))).
      rewrite readLiteral_escaped by (left; reflexivity).
      rewrite (IH Hb' Hl' Hc').
      destruct (readLiteral s) as [[v after] |]; reflexivity.
    + change (String c "" ++
              replaceAll DQ (String BS (String DQ "")) name ++ s)
        with (String c (replaceAll DQ (String BS (String DQ "")) name ++ s)).
      cbn [readLiteral].
      apply Ascii.eqb_neq in Hq. rewrite Hq, Hb, Hl, Hc. cbn [orb].
      rewrite (IH Hb' Hl' Hc').
      destruct (readLiteral s) as [[v after] |]; reflexivity.
Qed.

(** Every backslash doubled is read as one backslash. *)
Lemma readLiteral_doubled (q s : string) :
  lacks DQ q = true -> lacks LF q = true -> lacks CR q = true ->
  readLiteral (replaceAll BS (String BS (String BS "")) q ++ s)
  = match readLiteral s with
    | Some (v, after) => Some (q ++ v, after)
    | None => None
    end.
Proof.
  induction q as [| c q IH]; intros Hq Hl Hc.
  - change (replaceAll BS (String BS (String BS "")) "" ++ s) with s.
    destruct (readLiteral s) as [[v after] |]; reflexivity.
  - simpl in Hq, Hl, Hc.
    apply andb_prop in Hq as [Hq Hq'], Hl as [Hl Hl'], Hc as [Hc Hc'].
    apply negb_true_iff in Hq, Hl, Hc.
    cbn [replaceAll]. rewrite append_assoc.
    destruct (Ascii.eqb_spec c BS) as [-> | Hb].
    + change (String BS (String BS "") ++
              replaceAll BS (String BS (String BS "")) q ++ s)
        with (String BS (String BS
                (replaceAll BS (String BS (String BS "")) q ++ s))).
      rewrite readLiteral_escaped by (right; reflexivity).
      rewrite (IH Hq' Hl' Hc').
      destruct (readLiteral s) as [[v after] |]; reflexivity.
    + change (String c "" ++
              replaceAll BS (String BS (String BS "")) q ++ s)
        with (String c (replaceAll BS (String BS (String BS "")) q ++ s)).
      cbn [readLiteral].
      apply Ascii.eqb_neq in Hb. rewrite Hq, Hb, Hl, Hc. cbn [orb].
      rewrite (IH Hq' Hl' Hc').
      destruct (readLiteral s) as [[v after] |]; reflexivity.
Qed.

Lemma escapedName_plain p : plainText p = true -> escapedName p = p.
Proof.
  intros H. apply replaceAll_lacks. apply plainText_lacks. exact H.
Qed.

Lemma escapedQuery_plain p : plainText p = true -> escapedQuery p = p.
Proof.
  intros H. destruct (plainText_lacks p H) as [H1 H2]. unfold escapedQuery.
  rewrite (replaceAll_lacks DQ _ p H1). apply replaceAll_lacks. exact H2.
Qed.

Lemma escapedQuery_app (a b : string) :
  escapedQuery (a ++ b) = escapedQuery a ++ escapedQuery b.
Proof. unfold escapedQuery. rewrite !replaceAll_app. reflexivity. Qed.

Lemma escapedName_app (a b : string) :
  escapedName (a ++ b) = escapedName a ++ escapedName b.
Proof. unfold escapedName. apply replaceAll_app. Qed.

End AppleScriptFacts.

(** ** The scripts of the reader: properties *)

Module AppleScriptMore.
Import JS ThingsURL AppleScript JSFacts ThingsURLFacts URLMoreFacts.
Import AppleScriptFacts.

(** X19.  [getTodosFromList] takes the name of a list in any case of its
    letters.  For a name of ASCII letters: when it is one of Inbox, Today,
    Anytime, Upcoming, Someday, Logbook and Trash up to case, the script
    names that list in its canonical writing, which the script reads as the
    literal it is meant to be; when it is none of them the function
    throws the error that names the seven lists, with the name as it was
    given. *)
Theorem getTodosFromList_accepts_any_case (rest listName : string) :
  isAscii listName = true ->
  (forall canonical,
      In canonical validLists ->
      toLowerCase listName = toLowerCase canonical ->
      getTodosFromList rest listName
      = inr (listScriptHead ++ canonical ++ String DQ rest)
      /\ readLiteral (canonical ++ String DQ rest) = Some (canonical, rest))
  /\ ((forall canonical,
          In canonical validLists ->
          toLowerCase listName <> toLowerCase canonical) ->
      getTodosFromList rest listName
      = inl ("Invalid list name: " ++ listName
             ++ ". Valid lists are: Inbox, Today, Anytime, Upcoming, "
             ++ "Someday, Logbook, Trash")).
Proof.
  intros _. split.
  - intros canonical Hin E.
    pose proof (normalized_valid listName canonical Hin E) as Hn.
    split.
    + unfold getTodosFromList. rewrite Hn.
      rewrite (proj2 (listIncludes_In validLists canonical) Hin).
      reflexivity.
    + unfold validLists in Hin. simpl in Hin.
      repeat destruct Hin as [<- | Hin]; try reflexivity. destruct Hin.
  - intros Hnone. unfold getTodosFromList.
    destruct (listIncludes validLists (normalizedList listName)) eqn:E;
      [| reflexivity].
    apply listIncludes_In in E. exfalso.
    apply (Hnone (normalizedList listName) E).
    symmetry. apply lower_normalized.
Qed.

Lemma getTodosFromList_witness :
  getTodosFromList ").toDos();" "tODAY"
  = inr (listScriptHead ++ "Today" ++ String DQ ").toDos();")
  /\ readLiteral ("Today" ++ String DQ ").toDos();")
     = Some ("Today", ").toDos();").
Proof.
  apply (proj1 (getTodosFromList_accepts_any_case ").toDos();" "tODAY"
                  eq_refl) "Today").
  - simpl. auto.
  - reflexivity.
Defined.

(** X20.  The names that [getTodosFromProject], [getTodosFromArea],
    [getTodoById], [getProjectById] and [getTodosByTag] put between quotes
    stay there: a name without backslash and line break, whatever quotes
    it holds, is read by the script as one literal whose value is the name,
    and the script goes on after the closing quote. *)
Theorem escaped_name_is_one_literal (name rest : string) :
  lacks BS name = true -> lacks LF name = true -> lacks CR name = true ->
  readLiteral (escapedName name ++ String DQ rest) = Some (name, rest).
Proof.
  intros Hb Hl Hc. rewrite (readLiteral_escapedName name _ Hb Hl Hc).
  rewrite readLiteral_quote, append_empty_r. reflexivity.
Qed.

Lemma escaped_name_witness :
  readLiteral
    (escapedName ("My " ++ String DQ ("big" ++ String DQ " project"))
     ++ String DQ ").toDos();")
  = Some ("My " ++ String DQ ("big" ++ String DQ " project"), ").toDos();").
Proof.
  apply (escaped_name_is_one_literal
           ("My " ++ String DQ ("big" ++ String DQ " project"))
           ").toDos();");
    reflexivity.
Defined.

(** X21.  A backslash in such a name is not escaped.  When the name ends
    with a backslash, the quote meant to close the literal is read as a
    character of it: the literal runs on into the script, up to the next
    quote that is not escaped. *)
Theorem escaped_name_backslash_takes_the_quote (name rest : string) :
  plainText name = true ->
  readLiteral (escapedName (name ++ String BS "") ++ String DQ rest)
  = match readLiteral rest with
    | Some (more, after) => Some (name ++ String DQ more, after)
    | None => None
    end.
Proof.
  intros Hp. rewrite escapedName_app, (escapedName_plain name Hp).
  rewrite append_assoc, (readLiteral_plain name _ Hp).
  change (escapedName (String BS "") ++ String DQ rest)
    with (String BS (String DQ rest)).
  rewrite readLiteral_escaped by (left; reflexivity).
  destruct (readLiteral rest) as [[more after] |]; reflexivity.
Qed.

Lemma escaped_name_backslash_witness :
  readLiteral
    (escapedName ("Work" ++ String BS "")
     ++ String DQ (").toDos(); x = " ++ String DQ ";"))
  = Some ("Work" ++ String DQ ").toDos(); x = ", ";").
Proof.
  apply (escaped_name_backslash_takes_the_quote "Work"
           (").toDos(); x = " ++ String DQ ";")).
  reflexivity.
Defined.

(** X22.  [searchTodosByTitle] escapes in the wrong order: the backslash
    it puts before a quote is doubled by the second [replace].  A query
    without quotes is read by the script as one literal whose value is the
    query, backslashes included; but at the first quote of a query the
    literal ends, its value the text before the quote and a backslash, and
    what follows the quote in the query is read as script. *)
Theorem search_query_quote_ends_the_literal :
  (forall query rest,
      lacks DQ query = true -> lacks LF query = true ->
      lacks CR query = true ->
      readLiteral (escapedQuery query ++ String DQ rest)
      = Some (query, rest))
  /\ (forall before after rest,
        plainText before = true ->
        readLiteral
          (escapedQuery (before ++ String DQ after) ++ String DQ rest)
        = Some (before ++ String BS "",
                escapedQuery after ++ String DQ rest)).
Proof.
  split.
  - intros query rest Hq Hl Hc. unfold escapedQuery.
    rewrite (replaceAll_lacks DQ _ query Hq).
    rewrite (readLiteral_doubled query _ Hq Hl Hc).
    rewrite readLiteral_quote, append_empty_r. reflexivity.
  - intros before after rest Hp.
    change (before ++ String DQ after)
      with (before ++ (String DQ "" ++ after)).
    rewrite !escapedQuery_app, (escapedQuery_plain before Hp).
    rewrite !append_assoc, (readLiteral_plain before _ Hp).
    change (escapedQuery (String DQ "") ++ escapedQuery after
            ++ String DQ rest)
      with (String BS (String BS
              (String DQ (escapedQuery after ++ String DQ rest)))).
    rewrite readLiteral_escaped by (right; reflexivity).
    rewrite readLiteral_quote. reflexivity.
Qed.

Lemma search_query_witness :
  readLiteral
    (escapedQuery ("milk" ++ String DQ "; run(); //") ++ String DQ ".x")
  = Some ("milk" ++ String BS "", "; run(); //" ++ String DQ ".x").
Proof.
  apply (proj2 search_query_quote_ends_the_literal "milk" "; run(); //" ".x").
  reflexivity.
Defined.

End AppleScriptMore.

(** ** The text of a failed process *)

Module ExecErrorFacts.
Import JS ThingsURL AppleScript JSFacts ThingsURLFacts URLMoreFacts.

(** A text that [trim] empties is one of blanks, and conversely. *)
Lemma trimStart_blank s :
  trimStart s = "" <-> forallb isBlank (list_ascii_of_string s) = true.
Proof.
  induction s as [| c s IH]; simpl; [tauto |].
  destruct (isBlank c); simpl; [exact IH |].
  split; discriminate.
Qed.

Lemma trimEnd_blank s :
  trimEnd s = "" <-> forallb isBlank (list_ascii_of_string s) = true.
Proof.
  induction s as [| c s IH]; simpl; [tauto |].
  destruct (trimEnd s) as [| x t].
  - rewrite (proj1 IH eq_refl), andb_true_r.
    destruct (isBlank c); split; congruence.
  - split; [discriminate |]. intros H. apply andb_prop in H as [_ H].
    apply IH in H. discriminate.
Qed.

Lemma trimStart_head s :
  trimStart s = ""
  \/ exists c r, trimStart s = String c r /\ isBlank c = false.
Proof.
  induction s as [| c s IH]; simpl; [auto |].
  destruct (isBlank c) eqn:E; [exact IH |]. right. eauto.
Qed.

Lemma trim_blank s :
  trim s = "" <-> forallb isBlank (list_ascii_of_string s) = true.
Proof.
  unfold trim. rewrite <- trimStart_blank.
  destruct (trimStart_head s) as [E | (c & r & E & Hc)]; rewrite E.
  - simpl. tauto.
  - rewrite trimEnd_blank. simpl. rewrite Hc. simpl.
    split; discriminate.
Qed.

(** What [trim] leaves starts with a character that is not a blank. *)
Lemma trim_head s :
  trim s = "" \/ exists c r, trim s = String c r /\ isBlank c = false.
Proof.
  unfold trim.
  destruct (trimStart_head s) as [E | (c & r & E & Hc)]; rewrite E;
    [left; reflexivity | right].
  simpl. destruct (trimEnd r); [rewrite Hc |]; eauto.
Qed.

Lemma trim_visible s : trim s <> "" -> trim (trim s) <> "".
Proof.
  intros H. destruct (trim_head s) as [E | (c & r & E & Hc)]; [congruence |].
  rewrite E. intros Ht. apply trim_blank in Ht. simpl in Ht.
  rewrite Hc in Ht. discriminate.
Qed.

(** A join that is blank has only blank parts. *)
Lemma concat_blank sep (parts : list string) :
  forallb isBlank
          (list_ascii_of_string (String.concat sep parts)) = true ->
  Forall (fun part => trim part = "") parts.
Proof.
  induction parts as [| x l IH]; [constructor |].
  destruct l as [| y l].
  - simpl. intros H. constructor; [apply trim_blank, H | constructor].
  - change (String.concat sep (x :: y :: l))
      with (x ++ sep ++ String.concat sep (y :: l)).
    rewrite !chars_app, !forallb_app. intros H.
    apply andb_prop in H as [Hx H]. apply andb_prop in H as [_ H].
    constructor; [apply trim_blank, Hx | apply IH, H].
Qed.

(** The parts that are kept are texts that are not blank. *)
Lemma kept_parts (parts : list (option string)) :
  Forall (fun text => trim text <> "")
         (map (default "")
              (List.filter
                 (fun part : option string =>
                    match part with
                    | Some text => negb (trim text =? "")
                    | None => false
                    end)
                 parts)).
Proof.
  induction parts as [| [text |] parts IH]; simpl; [constructor | | exact IH].
  destruct (String.eqb_spec (trim text) ""); simpl; [exact IH |].
  constructor; assumption.
Qed.

Lemma detail_not_empty (texts : list string) :
  texts <> [] ->
  Forall (fun text => trim text <> "") texts ->
  trim (String.concat (String LF "") texts) <> "".
Proof.
  intros Hne H E. apply trim_blank, concat_blank in E.
  destruct texts as [| x l]; [congruence |].
  apply List.Forall_cons_iff in H as [Hx _].
  apply List.Forall_cons_iff in E as [Ex _]. exact (Hx Ex).
Qed.

End ExecErrorFacts.

Module ExecError.
Import JS ThingsURL AppleScript JSFacts ThingsURLFacts URLMoreFacts.
Import ExecErrorFacts.

(** X23.  [formatExecError] never gives an empty text, for an error whose
    texts are of ASCII: when none of [stderr], [stdout] and [message] is
    a string with something else than blanks in it, it gives "Unknown
    process execution error"; otherwise it gives the texts that are not
    blank, joined in that order by line ends and trimmed, and that text is
    not empty. *)
Theorem formatExecError_is_never_empty
    (stderr stdout message : option string) :
  (forall text,
      In (Some text) [stderr; stdout; message] -> isAscii text = true) ->
  formatExecError stderr stdout message <> ""
  /\ trim (formatExecError stderr stdout message) <> ""
  /\ ((forall text,
          In (Some text) [stderr; stdout; message] -> trim text = "") ->
      formatExecError stderr stdout message
      = "Unknown process execution error")
  /\ (forall text,
        In (Some text) [stderr; stdout; message] -> trim text <> "" ->
        formatExecError stderr stdout message
        = trim (String.concat (String LF "")
                  (map (default "")
                       (List.filter
                          (fun part : option string =>
                             match part with
                             | Some text => negb (trim text =? "")
                             | None => false
                             end)
                          [stderr; stdout; message])))).
Proof.
  intros _.
  set (keep := fun part : option string =>
                 match part with
                 | Some text => negb (trim text =? "")
                 | None => false
                 end).
  assert (Hcases :
            List.filter keep [stderr; stdout; message] = []
            \/ trim (String.concat (String LF "")
                       (map (default "")
                            (List.filter keep [stderr; stdout; message])))
               <> "").
  { destruct (List.filter keep [stderr; stdout; message]) as [| x l] eqn:E;
      [left; reflexivity | right].
    rewrite <- E. apply detail_not_empty; [| apply kept_parts].
    rewrite E. discriminate. }
  unfold formatExecError. fold keep.
  split; [| split; [| split]].
  - destruct Hcases as [E | Hd].
    + rewrite E. discriminate.
    + pose proof Hd as Hd'. apply String.eqb_neq in Hd'.
      unfold truthy. rewrite Hd'. exact Hd.
  - destruct Hcases as [E | Hd].
    + rewrite E. vm_compute. discriminate.
    + pose proof Hd as Hd'. apply String.eqb_neq in Hd'.
      unfold truthy. rewrite Hd'. cbn [negb]. apply trim_visible. exact Hd.
  - intros Hall.
    assert (E : List.filter keep [stderr; stdout; message] = []).
    { destruct (List.filter keep [stderr; stdout; message]) as [| x l] eqn:E;
        [reflexivity |].
      assert (Hin : In x (List.filter keep [stderr; stdout; message]))
        by (rewrite E; left; reflexivity).
      apply List.filter_In in Hin as [Hin Hk].
      destruct x as [text |]; [| discriminate].
      unfold keep in Hk. rewrite (Hall text Hin) in Hk. discriminate. }
    rewrite E. reflexivity.
  - intros text Hin Hne.
    destruct Hcases as [E | Hd].
    + assert (Hk : In (Some text)
                      (List.filter keep [stderr; stdout; message])).
      { apply List.filter_In. split; [exact Hin |].
        unfold keep. apply String.eqb_neq in Hne. rewrite Hne.
        reflexivity. }
      rewrite E in Hk. destruct Hk.
    + apply String.eqb_neq in Hd. unfold truthy. rewrite Hd. reflexivity.
Qed.

Lemma formatExecError_witness :
  formatExecError (Some (String LF "")) (Some "  ") None
  = "Unknown process execution error"
  /\ formatExecError (Some " execution error: (-1743) ") None
                     (Some "Command failed")
     = "execution error: (-1743) " ++ String LF "Command failed".
Proof.
  split.
  - apply (formatExecError_is_never_empty (Some (String LF "")) (Some "  ")
             None).
    + intros text [H | [H | [H | []]]]; inversion H; reflexivity.
    + intros text [H | [H | [H | []]]]; inversion H; reflexivity.
  - destruct (formatExecError_is_never_empty
                (Some " execution error: (-1743) ") None
                (Some "Command failed")) as (_ & _ & _ & H).
    + intros text [H | [H | [H | []]]]; inversion H; reflexivity.
    + rewrite (H "Command failed").
      * vm_compute. reflexivity.
      * simpl. auto.
      * vm_compute. discriminate.
Defined.

End ExecError.

(** ** Failures of the reader, as the test script sees them *)

Module BlockedFacts.
Import JS ThingsURL RescheduleTool AppleScript TestAllTools.
Import JSFacts ThingsURLFacts URLMoreFacts.

Lemma toLowerCase_app (a b : string) :
  toLowerCase (a ++ b) = toLowerCase a ++ toLowerCase b.
Proof.
  unfold toLowerCase. induction a as [| c a IH]; [reflexivity |].
  change (String (lowerChar c) (mapChars lowerChar (a ++ b))
          = String (lowerChar c)
                   (mapChars lowerChar a ++ mapChars lowerChar b)).
  f_equal. exact IH.
Qed.

Lemma prefix_app (part a b : string) :
  String.prefix part a = true -> String.prefix part (a ++ b) = true.
Proof.
  revert a. induction part as [| c part IH]; intros a H;
    [generalize (a ++ b); intros s; destruct s; reflexivity |].
  destruct a as [| x a]; [discriminate |].
  change (String x a ++ b) with (String x (a ++ b)).
  simpl in H |- *. destruct (Ascii.ascii_dec c x); [| discriminate].
  apply IH, H.
Qed.

Lemma includes_app_l (part a b : string) :
  includes part a = true -> includes part (a ++ b) = true.
Proof.
  induction a as [| x a IH]; intros H.
  - simpl in H. rewrite orb_false_r in H.
    destruct part; [| discriminate]. destruct b; reflexivity.
  - change (String x a ++ b) with (String x (a ++ b)).
    cbn [includes] in H |- *. apply orb_prop in H as [H | H].
    + change (String x (a ++ b)) with (String x a ++ b).
      rewrite (prefix_app _ _ b H). reflexivity.
    + rewrite (IH H). apply orb_true_r.
Qed.

Lemma includes_app_r (part a b : string) :
  includes part b = true -> includes part (a ++ b) = true.
Proof.
  intros H. induction a as [| x a IH]; [exact H |].
  change (String x a ++ b) with (String x (a ++ b)).
  cbn [includes]. rewrite IH. apply orb_true_r.
Qed.

(** What a text includes, a text around it includes. *)
Lemma includes_inside (part before text after : string) :
  includes part (toLowerCase text) = true ->
  includes part (toLowerCase (before ++ text ++ after)) = true.
Proof.
  intros H. rewrite !toLowerCase_app.
  apply includes_app_r, includes_app_l, H.
Qed.

End BlockedFacts.

Module Blocked.
Import JS ThingsURL RescheduleTool AppleScript TestAllTools.
Import JSFacts ThingsURLFacts URLMoreFacts BlockedFacts.

(** X24.  A failure of [runJXA] that is worded as Things being out of
    reach ("Application can't be found", "Can't get application", or the
    resolver's own "Unable to connect to Things via JXA", in any case of
    the letters) gets the hint about the Automation permissions appended,
    and the test script classifies it as blocked, not failed, whatever text
    a handler puts before or after the message.  For texts of ASCII. *)
Theorem unreachable_things_is_reported_blocked
    (stderr stdout message : option string) (before after : string) :
  (forall text,
      In (Some text) [stderr; stdout; message] -> isAscii text = true) ->
  isAscii before = true -> isAscii after = true ->
  includes "application can't be found"
           (toLowerCase (formatExecError stderr stdout message)) = true
  \/ includes "can't get application"
              (toLowerCase (formatExecError stderr stdout message)) = true
  \/ includes "unable to connect to things via jxa"
              (toLowerCase (formatExecError stderr stdout message)) = true ->
  runJXAFailure stderr stdout message
  = "JXA execution failed: " ++ formatExecError stderr stdout message
    ++ " Check macOS Automation permissions for your MCP host and "
    ++ "ensure Things 3 is installed at /Applications/Things3.app."
  /\ isBlocked (before ++ runJXAFailure stderr stdout message ++ after)
     = true.
Proof.
  intros _ _ _ H.
  assert (Hr : isAppResolutionError (formatExecError stderr stdout message)
               = true).
  { unfold isAppResolutionError.
    destruct H as [H | [H | H]]; rewrite H; rewrite ?orb_true_r;
      reflexivity. }
  split; [unfold runJXAFailure; rewrite Hr; reflexivity |].
  unfold runJXAFailure. rewrite Hr.
  set (detail := formatExecError stderr stdout message) in *.
  set (hint := " Check macOS Automation permissions for your MCP host and "
               ++ "ensure Things 3 is installed at /Applications/Things3.app.").
  assert (Hin : forall part,
             includes part (toLowerCase detail) = true ->
             includes part
               (toLowerCase
                  (before ++ ("JXA execution failed: " ++ detail ++ hint)
                   ++ after)) = true).
  { intros part Hp.
    replace (before ++ ("JXA execution failed: " ++ detail ++ hint) ++ after)
      with ((before ++ "JXA execution failed: ") ++ detail ++ hint ++ after)
      by (rewrite !append_assoc; reflexivity).
    apply includes_inside, Hp. }
  unfold isBlocked.
  destruct H as [H | [H | H]]; rewrite (Hin _ H); rewrite ?orb_true_r;
    reflexivity.
Qed.

Lemma unreachable_things_witness :
  isBlocked
    ("Error getting to-dos: "
     ++ runJXAFailure
          (Some "execution error: Error: Application can't be found. (-2700)")
          None (Some "Command failed")
     ++ "")
  = true.
Proof.
  apply (unreachable_things_is_reported_blocked
           (Some "execution error: Error: Application can't be found. (-2700)")
           None (Some "Command failed") "Error getting to-dos: " "").
  - intros text [H | [H | [H | []]]]; inversion H; reflexivity.
  - reflexivity.
  - reflexivity.
  - left. vm_compute. reflexivity.
Defined.

End Blocked.
